(** * vps-worker: the meal-plan generation pipeline and its job scheduler

    A shallow embedding of [src/meal-plan-generator.ts] (class
    [MealPlanGenerator]) and of the job processor (class [JobProcessor]),
    with the properties of the written specification stated over it.

    Conventions of the embedding.
    - A JS [number] that carries calories or milliseconds is an integer [Z];
      the arithmetic of the source on such values is exact below 2^53.
    - A [Record<string, T>] indexed by a date string is a [gmap string T]:
      a date string names no inherited member. The object literals indexed
      by a meal type give, as an object does, also the members they inherit
      from [Object.prototype]. [x || y] and [if (x)] on a number test it
      against [0], on a string against the empty string.
    - A [Date] of the week is the day number, counted from 1970-01-01, that
      [toISOString] prints for it: the UTC day on which the local midnight
      falls. The clock gives the local calendar day and, for every local
      day, whether the zone of the worker is ahead of UTC at the midnight
      of that day. Nothing else is assumed of the zone.
    - The provider's document is read through the interfaces of
      [src/types.ts]: a day and a meal are records, with the fields the
      pipeline tests for presence optional; an entry of the [days] array
      or of a [meals] array is such a record or [null].
    - External collaborators (the generative provider, the image search,
      the profile store, the job queue, the artifact store) are inputs of
      the model; the calls made to them are recorded in a trace, together
      with the lines that the generator and [processJob] log at error
      level. The remote procedures of the queue and of the notification
      are taken to return. Lines logged below error level and the
      heartbeats of the 30-second timer are left out. *)

From Stdlib Require Import ZArith List Ascii String Bool Lia.
From stdpp Require Import base option list gmap sets strings fin_maps.

Local Open Scope Z_scope.

(** ** Calendar dates: [Date#toISOString().split('T')[0]] *)

Module Dates.

(** Day number to (year, month, day) in the proleptic Gregorian
    calendar, by eras of 400 years starting on 1 March. *)
Definition civil_from_days (days : Z) : Z * Z * Z :=
  let z := days + 719468 in
  let era := z / 146097 in
  let doe := z - era * 146097 in
  let yoe := (doe - doe / 1460 + doe / 36524 - doe / 146096) / 365 in
  let doy := doe - (365 * yoe + yoe / 4 - yoe / 100) in
  let mp := (5 * doy + 2) / 153 in
  let d := doy - (153 * mp + 2) / 5 + 1 in
  let m := if mp <? 10 then mp + 3 else mp - 9 in
  let y := yoe + era * 400 + (if m <=? 2 then 1 else 0) in
  (y, m, d).

Definition digit (n : Z) : ascii := ascii_of_nat (48 + Z.to_nat n).

Definition pad2 (n : Z) (rest : string) : string :=
  String (digit (n / 10)) (String (digit (n mod 10)) rest).

Definition pad4 (n : Z) (rest : string) : string :=
  String (digit (n / 1000)) (String (digit (n / 100 mod 10)) (pad2 (n mod 100) rest)).

Definition pad6 (n : Z) (rest : string) : string :=
  String (digit (n / 100000)) (String (digit (n / 10000 mod 10)) (pad4 (n mod 10000) rest)).

(** The year of an ISO date: four digits for the years 0000 to 9999, a
    sign and six digits outside. *)
Definition isoYear (y : Z) (rest : string) : string :=
  if (0 <=? y) && (y <=? 9999) then pad4 y rest
  else String (if y <? 0 then "-"%char else "+"%char) (pad6 (Z.abs y) rest).

(** [d.toISOString().split('T')[0]], for the UTC day [d]. *)
Definition toISODate (d : Z) : string :=
  let '(y, m, dd) := civil_from_days d in
  isoYear y (String "-" (pad2 m (String "-" (pad2 dd EmptyString)))).

(** The clock of the worker: the local calendar day of [new Date()], and
    for each local day whether the zone is ahead of UTC at the midnight
    which begins that day. *)
Record Clock := {
  localDay : Z;
  aheadOfUtc : Z -> bool
}.

(** The UTC day on which the local midnight of the local day [d] falls:
    the day before in a zone that is ahead of UTC then, the same day
    otherwise. [toISOString] prints this day. *)
Definition utcDayOfMidnight (clock : Clock) (d : Z) : Z :=
  if aheadOfUtc clock d then d - 1 else d.

(** The date at index [i] of the week: [today.setHours(0, 0, 0, 0)] and
    [d.setDate(today.getDate() + i)] give the local midnight of the local
    day [i] days from today. *)
Definition weekDate (clock : Clock) (i : nat) : Z :=
  utcDayOfMidnight clock (localDay clock + Z.of_nat i).

(** [getCurrentWeekDates]: [Array.from({ length: 7 }, (_, i) => ...)]. *)
Definition getCurrentWeekDates (clock : Clock) : list Z :=
  map (weekDate clock) (seq 0 7).

(** The clock reads a day whose week prints with four-digit years. *)
Definition clock_in_range (clock : Clock) : Prop :=
  -719528 < localDay clock /\ localDay clock + 6 <= 2932896.

End Dates.

Export Dates.

(** ** JS truthiness on the values the pipeline tests *)

(** [v || d] on an optional number: [undefined] and [0] give [d]. *)
Definition num_or (v : option Z) (d : Z) : Z :=
  match v with
  | Some x => if x =? 0 then d else x
  | None => d
  end.

(** [if (v)] on an optional number. *)
Definition num_truthy (v : option Z) : bool :=
  match v with
  | Some x => negb (x =? 0)
  | None => false
  end.

(** [if (s)] on an optional string. *)
Definition str_truthy (s : option string) : bool :=
  match s with
  | Some EmptyString => false
  | Some _ => true
  | None => false
  end.

(** [Math.round(n / d)] for integers [n] and [d > 0]: the nearest integer,
    halves towards plus infinity. *)
Definition Math_round_div (n d : Z) : Z := (2 * n + d) / (2 * d).


(** ** Types of [src/types.ts] *)

Record CheatDay := { cd_date : string; cd_calories : Z }.

(** [FoodPreferences]: the fields the pipeline computes with. The other
    fields only reach the text of the prompt. *)
Record FoodPreferences := {
  mealsPerDay : Z;
  cheatDays : option (list CheatDay)
}.

(** The profile row. *)
Record UserProfile := {
  calorieGoal : option Z;
  language : option string
}.

(** The profile [{}]. *)
Definition emptyProfile : UserProfile := {| calorieGoal := None; language := None |}.

(** What the image stage writes into [meal.image]: the URL of an image,
    or, for a meal type that names a member of [Object.prototype], that
    member. *)
Inductive ImageValue :=
  | ImageUrl (url : string)
  | InheritedMember (key : string).

Record Meal := {
  type : option string;
  name : option string;
  image_search_keywords : option (list string);
  image : option ImageValue
}.

(** A day of the plan. An entry of [meals] is a meal, or [None] for
    [null]. *)
Record MealPlanDay := {
  date : option string;
  daily_calorie_target : option Z;
  isCheatDay : bool;
  meals : option (list (option Meal))
}.

(** ** Effects: the module-level image set and the calls to collaborators *)

Inductive Event :=
  | EvHeartbeat (jobId : string)
  | EvProfileRead (userId : string)
  | EvHistoryRead (userId : string)
  | EvPlanRequest
  | EvImageSearch (query : string)
  | EvCardsRequest
  | EvArtifactWrite (planId userId : string)
  | EvNotify (userId planId : string)
  | EvCompleteJob (jobId : string)
  | EvFailJob (jobId message : string)
  | EvLogError (message : string).

(** The state shared by every pipeline run of one worker process:
    [let usedImageUrls = new Set<string>()] at module level, and the calls
    made so far, oldest first. *)
Record World := {
  usedImageUrls : gset string;
  trace : list Event
}.

Definition emptyWorld : World := {| usedImageUrls := ∅; trace := [] |}.

(** A computation returns or throws an [Error] with a message. *)
Inductive Outcome (A : Type) :=
  | Ok (a : A)
  | Throw (message : string).
Arguments Ok {A} a.
Arguments Throw {A} message.

(** State passing with exceptions, over a state [S]. *)
Definition Eff (S A : Type) : Type := S -> Outcome A * S.

#[global] Instance Eff_ret {S : Type} : MRet (Eff S) := fun A a w => (Ok a, w).

#[global] Instance Eff_bind {S : Type} : MBind (Eff S) := fun A B f m w =>
  match m w with
  | (Ok a, w') => f a w'
  | (Throw e, w') => (Throw e, w')
  end.

Definition throw {S A : Type} (message : string) : Eff S A := fun w => (Throw message, w).

(** [try { body } catch (error) { handler(error.message) }]. *)
Definition try_catch {S A : Type} (body : Eff S A) (handler : string -> Eff S A)
  : Eff S A := fun w =>
  match body w with
  | (Ok a, w') => (Ok a, w')
  | (Throw e, w') => handler e w'
  end.

(** [try { body } finally { cleanup }]. *)
Definition try_finally {S A : Type} (body : Eff S A) (cleanup : Eff S unit)
  : Eff S A := fun w =>
  match body w with
  | (r, w') =>
      match cleanup w' with
      | (Ok _, w'') => (r, w'')
      | (Throw e, w'') => (Throw e, w'')
      end
  end.

(** The pipeline runs over the process state [World]. *)
Abbreviation M := (Eff World).

Definition emit (e : Event) : M unit := fun w =>
  (Ok tt, {| usedImageUrls := usedImageUrls w; trace := trace w ++ [e] |}).

Definition getUsed : M (gset string) := fun w => (Ok (usedImageUrls w), w).

Definition setUsed (u : gset string) : M unit := fun w =>
  (Ok tt, {| usedImageUrls := u; trace := trace w |}).

(** Number of image searches issued so far in this process. *)
Definition isSearch (e : Event) : bool :=
  match e with EvImageSearch _ => true | _ => false end.

Definition searchCount : M nat :=
  fun w => (Ok (length (List.filter isSearch (trace w))), w).


(** ** Stage 2: the calorie map of [generateMealPlanWithAI] *)

Module Calories.

(** [userNutritionGoals.calories = userProfile.calorieGoal || 2000]. *)
Definition goalCalories (profile : UserProfile) : Z :=
  num_or (calorieGoal profile) 2000.

(** [Object.fromEntries(cheatDays.map(cd => [cd.date, cd.calories]))]:
    a later entry for the same date replaces an earlier one. *)
Definition cheatMapOf (cds : list CheatDay) : gmap string Z :=
  fold_left (fun m cd => <[cd_date cd := cd_calories cd]> m) cds ∅.

(** [cheatDays.reduce((s, cd) => s + cd.calories, 0)]. *)
Definition totalCheatCals (cds : list CheatDay) : Z :=
  fold_left (fun s cd => (s + cd_calories cd)%Z) cds 0%Z.

Definition normalDayCals (goal : Z) (weekDates : list Z) (cds : list CheatDay) : Z :=
  let cheatCount := Z.of_nat (length cds) in
  let normalDays := (Z.of_nat (length weekDates) - cheatCount)%Z in
  if (0 <? normalDays)%Z
  then Math_round_div (Z.of_nat (length weekDates) * goal - totalCheatCals cds) normalDays
  else goal.

(** [weekDates.forEach(d => { eff[dateStr] = value(dateStr) })]. *)
Definition fillWeek (value : string -> Z) (weekDates : list Z) : gmap string Z :=
  fold_left (fun eff d => <[toISODate d := value (toISODate d)]> eff) weekDates ∅.

Definition effectiveCaloriesPerDay
    (prefs : FoodPreferences) (goal : Z) (weekDates : list Z) : gmap string Z :=
  match cheatDays prefs with
  | Some cds =>
      if (0 <? Z.of_nat (length cds))%Z
      then
        let cheatMap := cheatMapOf cds in
        let normal := normalDayCals goal weekDates cds in
        fillWeek (fun dateStr => num_or (cheatMap !! dateStr) normal) weekDates
      else fillWeek (fun _ => goal) weekDates
  | None => fillWeek (fun _ => goal) weekDates
  end.

(** The map the pipeline derives for a job run on the clock [clock]. *)
Definition calorieMap (prefs : FoodPreferences) (profile : UserProfile) (clock : Clock)
  : gmap string Z :=
  effectiveCaloriesPerDay prefs (goalCalories profile) (getCurrentWeekDates clock).

(** Post-processing of one day object of the provider: the body of
    [days.forEach((day, index) => { ... })]. *)
Definition reconcileDay (weekDates : list Z) (eff : gmap string Z)
    (index : nat) (day : MealPlanDay) : MealPlanDay :=
  match weekDates !! index with
  | Some matchingDate =>
      let dateStr := toISODate matchingDate in
      let day1 := {| date := Some dateStr;
                     daily_calorie_target := daily_calorie_target day;
                     isCheatDay := isCheatDay day;
                     meals := meals day |} in
      if num_truthy (eff !! dateStr)
      then {| date := date day1;
              daily_calorie_target := eff !! dateStr;
              isCheatDay := isCheatDay day1;
              meals := meals day1 |}
      else day1
  | None => day
  end.

(** The same body on an entry of the array: on [null], [day.date = ...]
    throws when there is a date for the index, and nothing is touched
    when there is none. *)
Definition reconcileEntry (weekDates : list Z) (eff : gmap string Z)
    (index : nat) (entry : option MealPlanDay) : Outcome (option MealPlanDay) :=
  match entry with
  | Some day => Ok (Some (reconcileDay weekDates eff index day))
  | None =>
      match weekDates !! index with
      | Some _ => Throw "Cannot set properties of null (setting 'date')"%string
      | None => Ok None
      end
  end.

(** The loop from the index [index] on; it ends at the first entry that
    throws. *)
Fixpoint reconcileFrom (weekDates : list Z) (eff : gmap string Z)
    (index : nat) (entries : list (option MealPlanDay))
  : Outcome (list (option MealPlanDay)) :=
  match entries with
  | [] => Ok []
  | entry :: rest =>
      match reconcileEntry weekDates eff index entry with
      | Ok entry' =>
          match reconcileFrom weekDates eff (S index) rest with
          | Ok rest' => Ok (entry' :: rest')
          | Throw message => Throw message
          end
      | Throw message => Throw message
      end
  end.

Definition reconcileDays (weekDates : list Z) (eff : gmap string Z)
    (days : list (option MealPlanDay)) : Outcome (list (option MealPlanDay)) :=
  reconcileFrom weekDates eff 0 days.

End Calories.

Export Calories.

(** ** Replies of the collaborators *)

(** The [days] property of the parsed document, as the pipeline tests it.
    An entry of the array is a day, or [None] for [null]. *)
Inductive DaysField :=
  | DaysUndefined
  | DaysFalsy
  | DaysNotArray
  | DaysArray (ds : list (option MealPlanDay)).

Definition days_truthy (d : DaysField) : bool :=
  match d with DaysUndefined | DaysFalsy => false | _ => true end.

Definition Array_isArray (d : DaysField) : bool :=
  match d with DaysArray _ => true | _ => false end.

(** The parsed document: [days] and, uninterpreted, everything else
    (overview, shopping list, recommendations, guidelines). *)
Record AiPlan := {
  days : DaysField;
  otherFields : string
}.

(** What [JSON.parse(content)] gives. *)
Inductive Parsed :=
  | ParseThrows (message : string)
  | ParsedNull
  | ParsedValue (plan : AiPlan).

(** What [openai.chat.completions.create] gives:
    [completion.choices[0]?.message?.content], or a thrown error. *)
Inductive Completion :=
  | CompletionThrows (message : string)
  | CompletionContent (content : option string).

(** What [fetch(...)] followed by [response.json()] gives: a thrown error,
    a response that is not [ok], or the [results] of the body with the
    [urls.regular] of each. *)
Inductive FetchResult :=
  | FetchThrows (message : string)
  | FetchNotOk (status : string)
  | FetchJson (results : option (list (option string))).

(** What the read of the profile row gives: a thrown error, or a reply
    [{ data, error }] with the code of [error], if there is one, and with
    [data?.profile_data || {}]. *)
Inductive ProfileReply :=
  | ProfileThrows (message : string)
  | ProfileReturns (errorCode : option string) (profile_data : UserProfile).

(** What the [try] block of [generateDietCards] comes to: a thrown error
    (of the request or of [JSON.parse]), or the cards it returns. *)
Inductive CardsReply :=
  | CardsThrow (message : string)
  | CardsReturned (cards : list string).

(** The inputs of one pipeline run. *)
Record Env := {
  unsplashAccessKey : option string;
  clock : Clock;
  profileReply : ProfileReply;
  foodHistory : string;
  planCompletion : Completion;
  JSON_parse : string -> Parsed;
  unsplash : nat -> string -> FetchResult;
  dietCardsReply : CardsReply;
  saveError : option string
}.

(** ** Stage 4: images ([getMealImageUrl], [fetchMealImages]) *)

Module Images.

Local Open Scope string_scope.

Definition genericFoodImage : string :=
  "https://images.unsplash.com/photo-1512621776951-a57141f2eefd?q=80&w=800&auto=format&fit=crop".
Definition breakfastImage : string :=
  "https://images.unsplash.com/photo-1533089860892-a7c6f0a88666?q=80&w=800&auto=format&fit=crop".
Definition lunchImage : string :=
  "https://images.unsplash.com/photo-1547496502-affa22d38842?q=80&w=800&auto=format&fit=crop".
Definition dinnerImage : string :=
  "https://images.unsplash.com/photo-1576402187878-974f70c890a5?q=80&w=800&auto=format&fit=crop".
Definition snackImage : string :=
  "https://images.unsplash.com/photo-1482049016688-2d3e1b311543?q=80&w=800&auto=format&fit=crop".

(** The own properties of the object literal [defaultImagesByType]. *)
Definition defaultImagesByType : gmap string string :=
  <["Snack" := snackImage]>
    (<["Dinner" := dinnerImage]>
       (<["Lunch" := lunchImage]>
          (<["Breakfast" := breakfastImage]> ∅))).

(** The names of the members an object literal inherits from
    [Object.prototype]; each of them is a function or an object, hence
    truthy. *)
Definition objectPrototypeKeys : list string :=
  ["constructor"; "__defineGetter__"; "__defineSetter__"; "hasOwnProperty";
   "__lookupGetter__"; "__lookupSetter__"; "isPrototypeOf"; "propertyIsEnumerable";
   "toString"; "valueOf"; "__proto__"; "toLocaleString"].

(** [s || d] on an optional string. *)
Definition str_or (s : option string) (d : string) : string :=
  match s with
  | Some EmptyString => d
  | Some x => x
  | None => d
  end.

(** [defaultImagesByType[mealType] || genericFoodImage]: the own property
    of that name, else the inherited member of that name, else the
    generic image. *)
Definition defaultImageFor (mealType : string) : ImageValue :=
  match defaultImagesByType !! mealType with
  | Some url => ImageUrl (str_or (Some url) genericFoodImage)
  | None =>
      if bool_decide (mealType ∈ objectPrototypeKeys)
      then InheritedMember mealType
      else ImageUrl genericFoodImage
  end.

(** [s.split(sep)] for a one-character separator. *)
Fixpoint splitOn (sep : ascii) (s : string) : list string :=
  match s with
  | EmptyString => [EmptyString]
  | String c rest =>
      if Ascii.eqb c sep then EmptyString :: splitOn sep rest
      else match splitOn sep rest with
           | w :: ws => String c w :: ws
           | [] => [String c EmptyString]
           end
  end.

(** [aiKeywords?.[0] || mealName.split(' ').slice(0, 2).join(' ')]. *)
Definition searchTermOf (mealName : string) (aiKeywords : list string) : string :=
  str_or (head aiKeywords) (String.concat " " (take 2 (splitOn " "%char mealName))).

(** [for (const image of data.results)]: the first result with a
    [urls.regular] that the set does not hold. *)
Fixpoint firstUnused (used : gset string) (results : list (option string)) : option string :=
  match results with
  | [] => None
  | r :: rest =>
      match r with
      | Some url =>
          if str_truthy r && negb (bool_decide (url ∈ used))
          then Some url
          else firstUnused used rest
      | None => firstUnused used rest
      end
  end.

(** The [try] block of [getMealImageUrl]. *)
Definition searchImage (env : Env) (mealName mealType : string)
    (aiKeywords : list string) : M ImageValue :=
  let searchQuery := searchTermOf mealName aiKeywords ++ " food dish" in
  n ← searchCount;
  _ ← emit (EvImageSearch searchQuery);
  match unsplash env n searchQuery with
  | FetchThrows message => throw message
  | FetchNotOk status => throw ("Unsplash API error: " ++ status)
  | FetchJson results =>
      used ← getUsed;
      match firstUnused used (default [] results) with
      | Some url =>
          _ ← setUsed ({[ url ]} ∪ used);
          mret (ImageUrl url)
      | None => mret (defaultImageFor mealType)
      end
  end.

Definition getMealImageUrl (env : Env) (mealName mealType : string)
    (aiKeywords : list string) : M ImageValue :=
  if negb (str_truthy (unsplashAccessKey env))
  then mret (defaultImageFor mealType)
  else try_catch (searchImage env mealName mealType aiKeywords)
                 (fun _ => mret (defaultImageFor mealType)).

Definition withImage (meal : Meal) (value : ImageValue) : Meal :=
  {| type := type meal;
     name := name meal;
     image_search_keywords := image_search_keywords meal;
     image := Some value |}.

(** [for (const x of xs) { ... }] where the body updates [x] in place;
    a body that throws ends the loop. *)
Fixpoint forEachM {A : Type} (body : A -> M A) (xs : list A) : M (list A) :=
  match xs with
  | [] => mret []
  | x :: rest =>
      x' ← body x;
      rest' ← forEachM body rest;
      mret (x' :: rest')
  end.

(** A meal of a cheat day: only the placeholder of type "Cheat Day". *)
Definition cheatMealSelected (meal : Meal) : bool :=
  bool_decide (type meal = Some "Cheat Day").

(** A meal of another day: [meal.name && meal.type]. *)
Definition mealSelected (meal : Meal) : bool :=
  str_truthy (name meal) && str_truthy (type meal).

Definition enrichCheatMeal (env : Env) (meal : Meal) : M Meal :=
  if cheatMealSelected meal
  then
    value ← try_catch
               (getMealImageUrl env "Celebration feast gourmet" "Cheat Meal"
                  ["celebration"; "feast"; "indulgent food"])
               (fun _ => mret (ImageUrl dinnerImage));
    mret (withImage meal value)
  else mret meal.

Definition enrichMeal (env : Env) (meal : Meal) : M Meal :=
  if mealSelected meal
  then
    let mealType := default "" (type meal) in
    value ← try_catch
               (getMealImageUrl env (default "" (name meal)) mealType
                  (default [] (image_search_keywords meal)))
               (fun _ => mret (defaultImageFor mealType));
    mret (withImage meal value)
  else mret meal.

(** The body of the loop over [day.meals], on an entry of the array. The
    test [meal.type === "Cheat Day"], or [meal.name && meal.type], stands
    before the [try]: on a [null] entry the read of the property throws. *)
Definition enrichMealEntry (env : Env) (cheatDay : bool) (entry : option Meal)
  : M (option Meal) :=
  match entry with
  | Some meal =>
      meal' ← (if cheatDay then enrichCheatMeal env else enrichMeal env) meal;
      mret (Some meal')
  | None =>
      throw (if cheatDay
             then "Cannot read properties of null (reading 'type')"
             else "Cannot read properties of null (reading 'name')")
  end.

Definition enrichDay (env : Env) (day : MealPlanDay) : M MealPlanDay :=
  match meals day with
  | Some ms =>
      ms' ← forEachM (enrichMealEntry env (isCheatDay day)) ms;
      mret {| date := date day;
              daily_calorie_target := daily_calorie_target day;
              isCheatDay := isCheatDay day;
              meals := Some ms' |}
  | None => mret day
  end.

(** The body of the loop over [mealPlan.days], on an entry of the array:
    [day.isCheatDay] is read first, and throws on [null]. *)
Definition enrichDayEntry (env : Env) (entry : option MealPlanDay)
  : M (option MealPlanDay) :=
  match entry with
  | Some day =>
      day' ← enrichDay env day;
      mret (Some day')
  | None => throw "Cannot read properties of null (reading 'isCheatDay')"
  end.

(** [fetchMealImages(mealPlan)], returning the days it has updated. *)
Definition fetchMealImages (env : Env) (plan : AiPlan) : M AiPlan :=
  match days plan with
  | DaysArray ds =>
      ds' ← forEachM (enrichDayEntry env) ds;
      mret {| days := DaysArray ds'; otherFields := otherFields plan |}
  | _ => mret plan
  end.

End Images.

Export Images.

(** ** The pipeline ([generateMealPlanWithAI], [generateMealPlan]) *)

Module Generator.

Local Open Scope string_scope.

Record MealPlanResult := {
  plan : AiPlan;
  diet_cards : list string
}.

(** [generateMealPlanWithAI], from the call to the provider on. The
    prompt is text built from the same inputs and is not modelled. *)
Definition generateMealPlanWithAI (env : Env) (userPreferences : FoodPreferences)
    (userProfile : UserProfile) : M AiPlan :=
  let weekDates := getCurrentWeekDates (clock env) in
  let effective :=
    effectiveCaloriesPerDay userPreferences (goalCalories userProfile) weekDates in
  _ ← emit EvPlanRequest;
  match planCompletion env with
  | CompletionThrows message => throw message
  | CompletionContent content =>
      if negb (str_truthy content)
      then throw "OpenAI returned no content"
      else
        match JSON_parse env (default "" content) with
        | ParseThrows message =>
            _ ← emit (EvLogError "Failed to parse OpenAI JSON response");
            throw ("Failed to parse AI response: " ++ message)
        | ParsedNull =>
            throw "Cannot read properties of null (reading 'days')"
        | ParsedValue aiGeneratedPlan =>
            if negb (days_truthy (days aiGeneratedPlan))
               || negb (Array_isArray (days aiGeneratedPlan))
            then throw "Invalid AI response: missing days array"
            else
              match days aiGeneratedPlan with
              | DaysArray ds =>
                  match reconcileDays weekDates effective ds with
                  | Ok ds' =>
                      mret {| days := DaysArray ds';
                              otherFields := otherFields aiGeneratedPlan |}
                  | Throw message => throw message
                  end
              | _ => mret aiGeneratedPlan
              end
        end
  end.

(** [fetchUserProfile]: an error of the reply other than "no rows" is
    logged and thrown; the [catch] of the function turns whatever is
    thrown into the profile [{}]. *)
Definition fetchUserProfile (env : Env) (userId : string) : M UserProfile :=
  _ ← emit (EvProfileRead userId);
  try_catch
    (match profileReply env with
     | ProfileThrows message => throw message
     | ProfileReturns (Some code) profile_data =>
         if bool_decide (code = "PGRST116")
         then mret profile_data
         else
           _ ← emit (EvLogError "Error fetching user profile");
           throw code
     | ProfileReturns None profile_data => mret profile_data
     end)
    (fun _ => mret emptyProfile).

Definition fetchFoodHistory (env : Env) (userId : string) : M string :=
  _ ← emit (EvHistoryRead userId);
  mret (foodHistory env).

(** [generateDietCards]: what the [try] block throws is logged, and the
    cards are then [[]]. *)
Definition generateDietCards (env : Env) : M (list string) :=
  _ ← emit EvCardsRequest;
  try_catch
    (match dietCardsReply env with
     | CardsThrow message => throw message
     | CardsReturned cards => mret cards
     end)
    (fun _ =>
       _ ← emit (EvLogError "Error generating diet cards");
       mret []).

(** "Clear image cache for new meal plan": [usedImageUrls.clear()]. *)
Definition clearImageCache : M unit := setUsed ∅.

Definition generateMealPlan (env : Env) (userId : string)
    (userPreferences : FoodPreferences) (planId : string) : M MealPlanResult :=
  try_catch
    (_ ← clearImageCache;
     userProfile ← fetchUserProfile env userId;
     _ ← fetchFoodHistory env userId;
     aiResponse ← generateMealPlanWithAI env userPreferences userProfile;
     aiResponse' ← fetchMealImages env aiResponse;
     cards ← generateDietCards env;
     mret {| plan := aiResponse'; diet_cards := cards |})
    (fun message =>
       _ ← emit (EvLogError "Meal plan generation failed");
       throw message).

End Generator.

Export Generator.

(** ** The job processor ([processJob], [processMealPlanJob]) *)

Record MealPlanJobPayload := {
  userId : string;
  userPreferences : FoodPreferences;
  planId : string
}.

Record BackgroundJob := {
  job_id : string;
  job_type : string;
  payload : MealPlanJobPayload;
  attempts : Z
}.

Record WorkerConfig := {
  workerId : string;
  pollIntervalMs : Z;
  maxConcurrentJobs : Z
}.

Module Processor.

Local Open Scope string_scope.

Definition updateHeartbeat (jobId : string) : M unit := emit (EvHeartbeat jobId).

Definition markJobCompleted (jobId : string) : M unit := emit (EvCompleteJob jobId).

Definition markJobFailed (jobId errorMessage : string) : M unit :=
  emit (EvFailJob jobId errorMessage).

Definition sendMealPlanNotification (userId planId : string) : M unit :=
  emit (EvNotify userId planId).

(** [processMealPlanJob]. The heartbeats of the 30-second timer are not
    in the trace: how many fire depends on how long the run takes. The
    [finally] block only clears that timer. *)
Definition processMealPlanJob (env : Env) (job : BackgroundJob) : M unit :=
  let p := payload job in
  try_finally
    (_ ← generateMealPlan env (userId p) (userPreferences p) (planId p);
     _ ← emit (EvArtifactWrite (planId p) (userId p));
     match saveError env with
     | Some message => throw ("Failed to save meal plan: " ++ message)
     | None =>
         _ ← sendMealPlanNotification (userId p) (planId p);
         markJobCompleted (job_id job)
     end)
    (mret tt).

Definition processJob (env : Env) (job : BackgroundJob) : M unit :=
  try_catch
    (_ ← updateHeartbeat (job_id job);
     if bool_decide (job_type job = "meal_plan_generation")
     then processMealPlanJob env job
     else throw ("Unknown job type: " ++ job_type job))
    (fun message =>
       _ ← emit (EvLogError "Job failed");
       markJobFailed (job_id job) message).

End Processor.

Export Processor.

(** ** The polling loop ([JobProcessor.start], [getNextJob]) *)

Module Scheduler.

Local Open Scope string_scope.

(** What [supabase.rpc('get_next_background_job', ...)] gives: a thrown
    error, an [error] field, or [data]. *)
Inductive ClaimReply :=
  | RpcThrows (message : string)
  | RpcError (message : string)
  | RpcData (data : option (list BackgroundJob)).

(** Where the loop of [start] is suspended. *)
Inductive LoopState :=
  | Sleeping (ms : Z)
  | AwaitingClaim
  | Stopped.

Inductive SchedLog :=
  | LogError (message : string)
  | LogClaim (worker : string)
  | LogDispatch (jobId : string)
  | LogSleep (ms : Z).

(** A stored [Promise<void>], by the number of its dispatch. *)
Definition Promise := nat.

Record Sched := {
  activeJobs : gmap string Promise;
  isShuttingDown : bool;
  loop : LoopState;
  dispatched : nat;
  slog : list SchedLog
}.

(** The processor before [start] runs its first iteration. *)
Definition initial : Sched :=
  {| activeJobs := ∅; isShuttingDown := false; loop := Sleeping 0;
     dispatched := 0; slog := [] |}.

Definition withJobs (f : gmap string Promise -> gmap string Promise) : Eff Sched unit :=
  fun s => (Ok tt, {| activeJobs := f (activeJobs s); isShuttingDown := isShuttingDown s;
                      loop := loop s; dispatched := dispatched s; slog := slog s |}).

Definition setLoop (l : LoopState) : Eff Sched unit :=
  fun s => (Ok tt, {| activeJobs := activeJobs s; isShuttingDown := isShuttingDown s;
                      loop := l; dispatched := dispatched s; slog := slog s |}).

Definition logS (e : SchedLog) : Eff Sched unit :=
  fun s => (Ok tt, {| activeJobs := activeJobs s; isShuttingDown := isShuttingDown s;
                      loop := loop s; dispatched := dispatched s; slog := slog s ++ [e] |}).

Definition newPromise : Eff Sched Promise :=
  fun s => (Ok (dispatched s),
            {| activeJobs := activeJobs s; isShuttingDown := isShuttingDown s;
               loop := loop s; dispatched := S (dispatched s); slog := slog s |}).

Definition getSched : Eff Sched Sched := fun s => (Ok s, s).

(** [await this.sleep(ms)]: the loop is suspended until the timer fires. *)
Definition sleep (ms : Z) : Eff Sched unit :=
  _ ← logS (LogSleep ms);
  setLoop (Sleeping ms).

(** [getNextJob], from the reply of the remote procedure on. *)
Definition getNextJob (reply : ClaimReply) : Eff Sched (option BackgroundJob) :=
  try_catch
    (match reply with
     | RpcThrows message => throw message
     | RpcError _ =>
         _ ← logS (LogError "Error getting next job");
         mret None
     | RpcData None => mret None
     | RpcData (Some []) => mret None
     | RpcData (Some (job :: _)) => mret (Some job)
     end)
    (fun _ =>
       _ ← logS (LogError "Exception getting next job");
       mret None).

(** [promise === undefined], on a stored promise. *)
Definition isUndefined (_ : Promise) : bool := false.

(** "Clean up completed promises". *)
Definition cleanUp : Eff Sched unit :=
  withJobs (fun jobs =>
    let completedJobs := filter (fun e : string * Promise => isUndefined e.2) (map_to_list jobs) in
    foldr (fun e m => delete e.1 m) jobs completedJobs).

(** The [catch] of the loop: "Wait 5 seconds on error". *)
Definition onLoopError (_ : string) : Eff Sched unit :=
  _ ← logS (LogError "Error in main polling loop");
  sleep 5000.

(** Top of an iteration, up to the first [await]. *)
Definition loopHead (cfg : WorkerConfig) : Eff Sched unit :=
  s ← getSched;
  if isShuttingDown s
  then setLoop Stopped
  else
    try_catch
      (if (Z.of_nat (size (activeJobs s)) <? maxConcurrentJobs cfg)%Z
       then
         _ ← logS (LogClaim (workerId cfg));
         setLoop AwaitingClaim
       else
         _ ← cleanUp;
         sleep (pollIntervalMs cfg))
      onLoopError.

(** The iteration from the reply of the claim to its [sleep]. *)
Definition loopAfterClaim (cfg : WorkerConfig) (reply : ClaimReply) : Eff Sched unit :=
  try_catch
    (job ← getNextJob reply;
     _ ← match job with
         | Some j =>
             _ ← logS (LogDispatch (job_id j));
             jobPromise ← newPromise;
             withJobs (fun jobs => <[job_id j := jobPromise]> jobs)
         | None => mret tt
         end;
     _ ← cleanUp;
     sleep (pollIntervalMs cfg))
    onLoopError.

(** [.catch(error => logger.error(...)).finally(() => activeJobs.delete(id))]. *)
Definition onSettled (jobId : string) (rejected : bool) : Eff Sched unit :=
  _ ← (if rejected then logS (LogError "Job processing failed") else mret tt);
  withJobs (fun jobs => delete jobId jobs).

(** What can happen to the processor: the timer of the loop fires, the
    claim returns, a dispatched execution settles, a termination signal
    arrives. *)
Inductive SchedEvent :=
  | TimerFires
  | ClaimReturns (reply : ClaimReply)
  | JobSettles (jobId : string) (rejected : bool)
  | Signal.

Definition run (c : Eff Sched unit) (s : Sched) : Sched := (c s).2.

Definition step (cfg : WorkerConfig) (s : Sched) (ev : SchedEvent) : Sched :=
  match ev, loop s with
  | TimerFires, Sleeping _ => run (loopHead cfg) s
  | ClaimReturns reply, AwaitingClaim => run (loopAfterClaim cfg reply) s
  | JobSettles jobId rejected, _ => run (onSettled jobId rejected) s
  | Signal, _ =>
      {| activeJobs := activeJobs s; isShuttingDown := true;
         loop := loop s; dispatched := dispatched s; slog := slog s |}
  | _, _ => s
  end.

Definition exec (cfg : WorkerConfig) (evs : list SchedEvent) (s : Sched) : Sched :=
  fold_left (step cfg) evs s.

End Scheduler.
(** ** The written specification of the calorie map *)

Module Spec.

(** "Σ cheat_day_calories". *)
Definition sumCheatCalories (cds : list CheatDay) : Z :=
  foldr (fun cd acc => cd_calories cd + acc) 0 cds.

(** The override listed for a date: the calories of the entry with that
    date, the last one when the date is listed several times. *)
Definition overrideFor (cds : list CheatDay) (dateStr : string) : option Z :=
  cd_calories <$> last (filter (fun cd => cd_date cd = dateStr) cds).

(** The dates of the week that the cheat-day list does not name. *)
Definition nonCheatDates (cds : list CheatDay) (weekDates : list Z) : list Z :=
  filter (fun d => toISODate d ∉ map cd_date cds) weekDates.

(** The seven calendar dates from the local day of the clock on: "the
    next seven calendar dates". *)
Definition calendarWeek (clock : Clock) : list Z :=
  map (fun i : nat => localDay clock + Z.of_nat i) (seq 0 7).

(** "round((7 × baseline_goal − Σ cheat_day_calories) /
    number_of_non_cheat_days)" as the specification words it, the
    non-cheat days being the dates of the week that are not listed; the
    baseline when there is none. *)
Definition claimedNormalDayCalories (goal : Z) (cds : list CheatDay)
    (weekDates : list Z) : Z :=
  let nonCheatDays := Z.of_nat (length (nonCheatDates cds weekDates)) in
  if decide (nonCheatDays <= 0) then goal
  else Math_round_div (7 * goal - sumCheatCalories cds) nonCheatDays.

(** The target of a date as the specification words it: the literal
    override of a listed date, the claimed normal-day value of another. *)
Definition claimedTarget (prefs : FoodPreferences) (goal : Z) (weekDates : list Z)
    (dateStr : string) : Z :=
  match cheatDays prefs with
  | None | Some [] => goal
  | Some cds =>
      match overrideFor cds dateStr with
      | Some c => c
      | None => claimedNormalDayCalories goal cds weekDates
      end
  end.

(** The normal-day value as the pipeline derives it: what is left of
    7 × goal after all the entries of the list, divided by seven minus the
    number of entries; the baseline when that number is not positive. *)
Definition normalDayCalories (goal : Z) (cds : list CheatDay) : Z :=
  let nonCheatDays := 7 - Z.of_nat (length cds) in
  if decide (nonCheatDays <= 0) then goal
  else Math_round_div (7 * goal - sumCheatCalories cds) nonCheatDays.

(** The target of a date as the pipeline derives it: an override counts
    when it is not zero. *)
Definition derivedTarget (prefs : FoodPreferences) (goal : Z) (dateStr : string) : Z :=
  match cheatDays prefs with
  | None | Some [] => goal
  | Some cds =>
      match overrideFor cds dateStr with
      | Some c => if decide (c = 0) then normalDayCalories goal cds else c
      | None => normalDayCalories goal cds
      end
  end.

Definition targetsOf (eff : gmap string Z) (dates : list Z) : list Z :=
  map (fun d => default 0 (eff !! toISODate d)) dates.

Definition sumZ (l : list Z) : Z := foldr Z.add 0 l.

(** The balance of the week as the specification words it: exact
    without cheat days; with cheat days, the targets of the other dates
    plus the listed calories are within one unit per such date of
    7 × goal. *)
Definition claimedWeekBalance
    (prefs : FoodPreferences) (profile : UserProfile) (clock : Clock) : Prop :=
  let goal := goalCalories profile in
  let week := getCurrentWeekDates clock in
  let eff := calorieMap prefs profile clock in
  match cheatDays prefs with
  | None | Some [] => sumZ (targetsOf eff week) = 7 * goal
  | Some cds =>
      Z.abs (sumZ (targetsOf eff (nonCheatDates cds week)) + sumCheatCalories cds
             - 7 * goal)
        <= Z.of_nat (length (nonCheatDates cds week))
  end.

End Spec.

(** ** The written specification of the pipeline stages *)

Module StageSpec.

Local Open Scope string_scope.

(** The faults of the provider's reply that the specification names, each
    with the message that identifies it: no reply or no content, content
    that does not parse, and a parsed document (or [null]) without a
    [days] array. *)
Inductive ReplyFault (env : Env) : string -> Prop :=
  | FaultNoReply (message : string) :
      planCompletion env = CompletionThrows message ->
      ReplyFault env message
  | FaultNoContent (content : option string) :
      planCompletion env = CompletionContent content ->
      content = None \/ content = Some "" ->
      ReplyFault env "OpenAI returned no content"
  | FaultUnparseable (content message : string) :
      planCompletion env = CompletionContent (Some content) ->
      content <> "" ->
      JSON_parse env content = ParseThrows message ->
      ReplyFault env ("Failed to parse AI response: " ++ message)
  | FaultNullDocument (content : string) :
      planCompletion env = CompletionContent (Some content) ->
      content <> "" ->
      JSON_parse env content = ParsedNull ->
      ReplyFault env "Cannot read properties of null (reading 'days')"
  | FaultNoDaysArray (content : string) (doc : AiPlan) :
      planCompletion env = CompletionContent (Some content) ->
      content <> "" ->
      JSON_parse env content = ParsedValue doc ->
      (forall ds, days doc <> DaysArray ds) ->
      ReplyFault env "Invalid AI response: missing days array".

Definition isArtifactWrite (e : Event) : bool :=
  match e with EvArtifactWrite _ _ => true | _ => false end.

Definition isPlanRequest (e : Event) : bool :=
  match e with EvPlanRequest => true | _ => false end.

Definition isCompletion (e : Event) : bool :=
  match e with EvCompleteJob _ => true | _ => false end.

(** The profile [fetchUserProfile] returns, and the line it logs at error
    level. *)
Definition profileOf (env : Env) : UserProfile :=
  match profileReply env with
  | ProfileThrows _ => emptyProfile
  | ProfileReturns (Some code) profile_data =>
      if bool_decide (code = "PGRST116") then profile_data else emptyProfile
  | ProfileReturns None profile_data => profile_data
  end.

Definition profileLog (env : Env) : list Event :=
  match profileReply env with
  | ProfileReturns (Some code) _ =>
      if bool_decide (code = "PGRST116") then []
      else [EvLogError "Error fetching user profile"]
  | _ => []
  end.

(** The cards [generateDietCards] returns, and the line it logs at error
    level. *)
Definition cardsOf (env : Env) : list string :=
  match dietCardsReply env with
  | CardsThrow _ => []
  | CardsReturned cards => cards
  end.

Definition cardsLog (env : Env) : list Event :=
  match dietCardsReply env with
  | CardsThrow _ => [EvLogError "Error generating diet cards"]
  | CardsReturned _ => []
  end.

(** The entries of an array that are objects, in order. *)
Definition objectsOf {A : Type} (entries : list (option A)) : list A := omap id entries.

(** An array without a [null] entry. *)
Definition allObjects {A : Type} (entries : list (option A)) : bool :=
  forallb (fun entry => match entry with Some _ => true | None => false end) entries.

(** An entry of [days] that is a day without a [null] among its
    meals. *)
Definition dayWithoutNull (entry : option MealPlanDay) : bool :=
  match entry with
  | Some day => allObjects (default [] (meals day))
  | None => false
  end.

(** A document in which no entry of [days] and no entry of the [meals]
    of a day is [null]. *)
Definition withoutNull (plan : AiPlan) : bool :=
  match days plan with
  | DaysArray ds => forallb dayWithoutNull ds
  | _ => true
  end.

(** The five fixed images of the degrade path. *)
Definition defaultImages : list string :=
  [breakfastImage; lunchImage; dinnerImage; snackImage; genericFoodImage].

(** The images among [l] that are none of the five fixed ones. *)
Definition searched (l : list string) : list string :=
  filter (fun u => u ∉ defaultImages) l.

(** Whether the image stage gives this meal of this day an image. *)
Definition enriched (day : MealPlanDay) (meal : Meal) : bool :=
  if isCheatDay day then cheatMealSelected meal else mealSelected meal.

(** The arguments [fetchMealImages] calls [getMealImageUrl] with. *)
Definition callName (day : MealPlanDay) (meal : Meal) : string :=
  if isCheatDay day then "Celebration feast gourmet" else default "" (name meal).

Definition callType (day : MealPlanDay) (meal : Meal) : string :=
  if isCheatDay day then "Cheat Meal" else default "" (type meal).

Definition callKeywords (day : MealPlanDay) (meal : Meal) : list string :=
  if isCheatDay day then ["celebration"; "feast"; "indulgent food"]
  else default [] (image_search_keywords meal).

(** The image URL a meal holds. *)
Definition imageUrlOf (meal : Meal) : list string :=
  match image meal with
  | Some (ImageUrl url) => [url]
  | _ => []
  end.

(** The image URLs the stage has assigned to a meal, in a day and in a
    plan, in the order of the meals. *)
Definition assignedTo (day : MealPlanDay) (meal : Meal) : list string :=
  if enriched day meal then imageUrlOf meal else [].

Definition assignedInDay (day : MealPlanDay) : list string :=
  concat (map (assignedTo day) (objectsOf (default [] (meals day)))).

Definition assignedImages (plan : AiPlan) : list string :=
  match days plan with
  | DaysArray ds => concat (map assignedInDay (objectsOf ds))
  | _ => []
  end.

(** The default image of a meal type as the specification words it: the
    fixed image of Breakfast, Lunch, Dinner and Snack, the generic image
    for any other type. *)
Definition claimedDefaultImage (mealType : string) : ImageValue :=
  ImageUrl (match mealType with
            | "Breakfast" => breakfastImage
            | "Lunch" => lunchImage
            | "Dinner" => dinnerImage
            | "Snack" => snackImage
            | _ => genericFoodImage
            end).

(** The meal with the default image of the type it is enriched for. *)
Definition withDefaultImage (day : MealPlanDay) (meal : Meal) : Meal :=
  if enriched day meal
  then withImage meal (defaultImageFor (callType day meal))
  else meal.

(** The plan in which every meal the stage enriches holds the default
    image of its type. *)
Definition withDefaultImages (day : MealPlanDay) : MealPlanDay :=
  {| date := date day;
     daily_calorie_target := daily_calorie_target day;
     isCheatDay := isCheatDay day;
     meals := option_map (map (option_map (withDefaultImage day))) (meals day) |}.

Definition defaultPlan (plan : AiPlan) : AiPlan :=
  match days plan with
  | DaysArray ds =>
      {| days := DaysArray (map (option_map withDefaultImages) ds);
         otherFields := otherFields plan |}
  | _ => plan
  end.

(** A computation that issues no image search. *)
Definition quiet {A : Type} (c : M A) : Prop :=
  forall w, List.filter isSearch (trace (c w).2) = List.filter isSearch (trace w).

(** A loop body keeps the images it picks from search results fresh:
    when it returns, the set has only grown, and the image URLs assigned
    in its result that are not defaults are distinct, were not in the set
    before and are in it afterwards. *)
Definition picksFresh {A : Type} (body : A -> M A) (img : A -> list string) : Prop :=
  forall (x x' : A) (w w' : World),
    body x w = (Ok x', w') ->
    usedImageUrls w ⊆ usedImageUrls w' /\
    NoDup (searched (img x')) /\
    forall u, u ∈ searched (img x') -> u ∈ usedImageUrls w' /\ u ∉ usedImageUrls w.

End StageSpec.

(** ** The written specification of the scheduler *)

Module SchedSpec.

Import Scheduler.

(** The job a reply of the claim hands over, if any. *)
Definition claimedJob (reply : ClaimReply) : option BackgroundJob :=
  match reply with
  | RpcData (Some (job :: _)) => Some job
  | _ => None
  end.

(** A claim that failed: the call threw, or returned an error. *)
Definition failedClaim (reply : ClaimReply) : bool :=
  match reply with
  | RpcThrows _ | RpcError _ => true
  | RpcData _ => false
  end.

Definition isClaim (e : SchedLog) : bool :=
  match e with LogClaim _ => true | _ => false end.

(** The number of in-flight slots. *)
Definition slots (s : Sched) : Z := Z.of_nat (size (activeJobs s)).

(** One polling cycle whose claim throws [message]. *)
Definition failedCycle (message : string) : list SchedEvent :=
  [TimerFires; ClaimReturns (RpcThrows message)].

(** What the loop maintains: the slots never exceed the limit, and a
    claim is only awaited with a slot to spare. *)
Definition bounded (cfg : WorkerConfig) (s : Sched) : Prop :=
  slots s <= maxConcurrentJobs cfg /\
  (loop s = AwaitingClaim -> slots s < maxConcurrentJobs cfg).

End SchedSpec.
(** ** Concrete inputs used by the examples *)

Module Inputs.

Local Open Scope string_scope.

(** A worker on UTC, on 2025-01-01 (day 20089). *)
Definition day2025 : Clock :=
  {| localDay := 20089; aheadOfUtc := fun _ => false |}.

(** A worker on Europe/London time, on 2025-03-27 (day 20174): the zone
    is on UTC until the midnight of 2025-03-30 (day 20177) and one hour
    ahead from the midnight of 2025-03-31 on. *)
Definition londonSpring2025 : Clock :=
  {| localDay := 20174; aheadOfUtc := fun d => (20177 <? d)%Z |}.

(** A worker one hour ahead of UTC all week, on 2025-01-01. *)
Definition berlinWinter2025 : Clock :=
  {| localDay := 20089; aheadOfUtc := fun _ => true |}.

Definition profile2000 : UserProfile :=
  {| calorieGoal := Some 2000%Z; language := None |}.

Definition prefsOf (cds : list CheatDay) : FoodPreferences :=
  {| mealsPerDay := 3; cheatDays := Some cds |}.

(** One cheat day of 3000 kcal on the third day of the week. *)
Definition oneCheatDay : FoodPreferences :=
  prefsOf [ {| cd_date := "2025-01-03"; cd_calories := 3000 |} ].

(** A cheat day listed with zero calories. *)
Definition zeroCheatDay : FoodPreferences :=
  prefsOf [ {| cd_date := "2025-01-01"; cd_calories := 0 |} ].

(** A cheat day of 3000 kcal dated outside the week. *)
Definition farCheatDay : FoodPreferences :=
  prefsOf [ {| cd_date := "2031-05-17"; cd_calories := 3000 |} ].

(** The same cheat day of 3000 kcal listed twice. *)
Definition repeatedCheatDay : FoodPreferences :=
  prefsOf [ {| cd_date := "2025-01-03"; cd_calories := 3000 |};
            {| cd_date := "2025-01-03"; cd_calories := 3000 |} ].

(** One cheat day of 3000 kcal on 2025-03-30. *)
Definition marchCheatDay : FoodPreferences :=
  prefsOf [ {| cd_date := "2025-03-30"; cd_calories := 3000 |} ].

(** Every day of the week is a cheat day of 3000 kcal. *)
Definition sevenCheatDays : FoodPreferences :=
  prefsOf (map (fun d => {| cd_date := toISODate d; cd_calories := 3000 |})
               (getCurrentWeekDates day2025)).

(** One cheat day that uses up the whole weekly budget. *)
Definition budgetCheatDay : FoodPreferences :=
  prefsOf [ {| cd_date := "2025-01-03"; cd_calories := 14000 |} ].

(** A provider day that names no date and asks for 1800 kcal. *)
Definition providerDay : MealPlanDay :=
  {| date := None; daily_calorie_target := Some 1800%Z; isCheatDay := false;
     meals := None |}.

Definition documentOf (d : DaysField) : AiPlan :=
  {| days := d; otherFields := "" |}.

(** A run on 2025-01-01 in which the provider answers with [reply], parsed
    as [parsed]; no image-search credential, no failure elsewhere. *)
Definition envOf (reply : Completion) (parsed : Parsed) : Env :=
  {| unsplashAccessKey := None;
     clock := day2025;
     profileReply := ProfileReturns None profile2000;
     foodHistory := "No food entries for the last 7 days.";
     planCompletion := reply;
     JSON_parse := fun _ => parsed;
     unsplash := fun _ _ => FetchJson None;
     dietCardsReply := CardsReturned [];
     saveError := None |}.

Definition answering (doc : AiPlan) : Env :=
  envOf (CompletionContent (Some "{}")) (ParsedValue doc).

Definition job1 : BackgroundJob :=
  {| job_id := "job-1";
     job_type := "meal_plan_generation";
     payload := {| userId := "user-1"; userPreferences := oneCheatDay;
                   planId := "plan-1" |};
     attempts := 1 |}.

Definition mealOf (mealType mealName : string) : Meal :=
  {| type := Some mealType; name := Some mealName;
     image_search_keywords := None; image := None |}.

(** A configured credential; the search finds nothing. *)
Definition searchingNothing (doc : AiPlan) : Env :=
  {| unsplashAccessKey := Some "access-key";
     clock := day2025;
     profileReply := ProfileReturns None profile2000;
     foodHistory := "";
     planCompletion := CompletionContent (Some "{}");
     JSON_parse := fun _ => ParsedValue doc;
     unsplash := fun _ _ => FetchJson (Some []);
     dietCardsReply := CardsReturned [];
     saveError := None |}.

(** A configured credential; every search finds the same [results]. *)
Definition searchingFinds (results : list string) (doc : AiPlan) : Env :=
  {| unsplashAccessKey := Some "access-key";
     clock := day2025;
     profileReply := ProfileReturns None profile2000;
     foodHistory := "";
     planCompletion := CompletionContent (Some "{}");
     JSON_parse := fun _ => ParsedValue doc;
     unsplash := fun _ _ => FetchJson (Some (map Some results));
     dietCardsReply := CardsReturned [];
     saveError := None |}.

(** The read of the profile returns an error, and the request for the
    diet cards throws. *)
Definition failingReads (doc : AiPlan) : Env :=
  {| unsplashAccessKey := None;
     clock := day2025;
     profileReply := ProfileReturns (Some "42501") profile2000;
     foodHistory := "";
     planCompletion := CompletionContent (Some "{}");
     JSON_parse := fun _ => ParsedValue doc;
     unsplash := fun _ _ => FetchJson None;
     dietCardsReply := CardsThrow "rate limit";
     saveError := None |}.

(** Two pipeline runs of one worker process, interleaved where they
    await; of each run, the steps that touch the image set. The search
    finds the one image [oatsImage] for every query. *)
Definition oatsImage : string := "https://images.example/oats".

Definition oneImageEnv : Env := searchingFinds [oatsImage] (documentOf DaysUndefined).

(** Job B on its own: it starts, then looks for the image of a meal. *)
Definition jobB_alone : M ImageValue :=
  _ ← clearImageCache;
  getMealImageUrl oneImageEnv "Porridge" "Breakfast" [].

(** Jobs A and B start; A picks an image; then B looks for one. *)
Definition jobB_after_jobA_picked : M ImageValue :=
  _ ← clearImageCache;                                         (* A starts *)
  _ ← clearImageCache;                                         (* B starts *)
  _ ← getMealImageUrl oneImageEnv "Oatmeal" "Breakfast" [];    (* A, meal 1 *)
  getMealImageUrl oneImageEnv "Porridge" "Breakfast" [].       (* B, meal 1 *)

(** Job A picks an image, job B starts, job A picks again. *)
Definition jobA_around_jobB_start : M (ImageValue * ImageValue) :=
  _ ← clearImageCache;                                         (* A starts *)
  a1 ← getMealImageUrl oneImageEnv "Oatmeal" "Breakfast" [];   (* A, meal 1 *)
  _ ← clearImageCache;                                         (* B starts *)
  a2 ← getMealImageUrl oneImageEnv "Granola" "Breakfast" [];   (* A, meal 2 *)
  mret (a1, a2).

(** A worker that polls every second and runs up to [limit] jobs. *)
Definition workerOf (limit : Z) : WorkerConfig :=
  {| workerId := "meal-plan-worker-1"; pollIntervalMs := 1000;
     maxConcurrentJobs := limit |}.

Definition job2 : BackgroundJob :=
  {| job_id := "job-2";
     job_type := "meal_plan_generation";
     payload := {| userId := "user-2"; userPreferences := zeroCheatDay;
                   planId := "plan-2" |};
     attempts := 1 |}.

(** A day with two breakfasts. *)
Definition twoBreakfasts : MealPlanDay :=
  {| date := None; daily_calorie_target := None; isCheatDay := false;
     meals := Some [Some (mealOf "Breakfast" "Oatmeal");
                    Some (mealOf "Breakfast" "Pancakes")] |}.

(** A day whose only meal has a type that names a member of
    [Object.prototype]. *)
Definition constructorDay : MealPlanDay :=
  {| date := None; daily_calorie_target := None; isCheatDay := false;
     meals := Some [Some (mealOf "constructor" "Builder's tea")] |}.

(** A day with a breakfast followed by a [null] entry. *)
Definition breakfastThenNull : MealPlanDay :=
  {| date := None; daily_calorie_target := None; isCheatDay := false;
     meals := Some [Some (mealOf "Breakfast" "Oatmeal"); None] |}.

End Inputs.

(** ** Vocabulary for the further properties of the image stage *)

Module ImageSpec.

Import StageSpec.

Local Open Scope string_scope.

(** A loop of [forEachM] that has returned, seen from outside: each
    element goes from [x] to [x'] while the process state goes from the
    state the element before left to the state the element after starts
    from. *)
Inductive chain {A : Type} (post : A -> World -> A -> World -> Prop)
  : list A -> World -> list A -> World -> Prop :=
  | chain_nil (w : World) : chain post [] w [] w
  | chain_cons (x x' : A) (xs xs' : list A) (w w1 w2 : World) :
      post x w x' w1 -> chain post xs w1 xs' w2 ->
      chain post (x :: xs) w (x' :: xs') w2.

(** A relation between objects, on entries of an array that are both
    objects. *)
Definition onObjects {A : Type} (R : A -> A -> Prop) (entry entry' : option A) : Prop :=
  match entry, entry' with
  | Some x, Some x' => R x x'
  | _, _ => False
  end.

(** The entries a loop over an array comes to when its body throws on
    [null] and, after its work on them, on the objects that are not
    [ok]: the objects before the first [null], up to and including the
    first that is not [ok]. *)
Fixpoint reachedWhile {A : Type} (ok : A -> bool) (entries : list (option A)) : list A :=
  match entries with
  | Some x :: rest => x :: (if ok x then reachedWhile ok rest else [])
  | _ => []
  end.

(** The meals the loop over [day.meals] comes to: those before the first
    [null]. *)
Definition reached (ms : list (option Meal)) : list Meal :=
  reachedWhile (fun _ => true) ms.

(** The days the loop of [fetchMealImages] comes to: those before the
    first [null], up to and including the first with a [null] among its
    meals. *)
Definition daysReached (ds : list (option MealPlanDay)) : list MealPlanDay :=
  reachedWhile (fun day => allObjects (default [] (meals day))) ds.

(** The messages of the [TypeError]s that the image stage throws on a
    [null] entry. *)
Definition nullEntryErrors : list string :=
  ["Cannot read properties of null (reading 'isCheatDay')";
   "Cannot read properties of null (reading 'type')";
   "Cannot read properties of null (reading 'name')"].

(** The query sent for a meal: [`${searchTerm} food dish`]. *)
Definition queryOf (mealName : string) (aiKeywords : list string) : string :=
  searchTermOf mealName aiKeywords ++ " food dish".

(** The result the search offers to a call made in state [w]: the first
    unused one, if the search answers with results at all. *)
Definition offered (env : Env) (mealName : string) (aiKeywords : list string)
    (w : World) : option string :=
  match unsplash env (length (List.filter isSearch (trace w)))
                 (queryOf mealName aiKeywords) with
  | FetchJson results => firstUnused (usedImageUrls w) (default [] results)
  | _ => None
  end.

(** The offered result, or else the value [d]. *)
Definition pickedOr (d : ImageValue) (pick : option string) : ImageValue :=
  match pick with
  | Some url => ImageUrl url
  | None => d
  end.

(** What the stage does with one meal, one day. *)
Definition mealStep (env : Env) (day : MealPlanDay)
    (meal : Meal) (w : World) (meal' : Meal) (w' : World) : Prop :=
  if enriched day meal
  then
    if str_truthy (unsplashAccessKey env)
    then
      let pick := offered env (callName day meal) (callKeywords day meal) w in
      meal' = withImage meal (pickedOr (defaultImageFor (callType day meal)) pick) /\
      usedImageUrls w' = match pick with
                         | Some url => {[ url ]} ∪ usedImageUrls w
                         | None => usedImageUrls w
                         end /\
      trace w' = (trace w
                  ++ [EvImageSearch (queryOf (callName day meal) (callKeywords day meal))])%list
    else meal' = withImage meal (defaultImageFor (callType day meal)) /\ w' = w
  else meal' = meal /\ w' = w.

Definition mealEntryStep (env : Env) (day : MealPlanDay)
    (entry : option Meal) (w : World) (entry' : option Meal) (w' : World) : Prop :=
  match entry, entry' with
  | Some meal, Some meal' => mealStep env day meal w meal' w'
  | _, _ => False
  end.

Definition dayStep (env : Env)
    (day : MealPlanDay) (w : World) (day' : MealPlanDay) (w' : World) : Prop :=
  date day' = date day /\
  daily_calorie_target day' = daily_calorie_target day /\
  isCheatDay day' = isCheatDay day /\
  match meals day with
  | Some ms => exists ms', meals day' = Some ms' /\ chain (mealEntryStep env day) ms w ms' w'
  | None => meals day' = None /\ w' = w
  end.

Definition dayEntryStep (env : Env)
    (entry : option MealPlanDay) (w : World) (entry' : option MealPlanDay) (w' : World)
  : Prop :=
  match entry, entry' with
  | Some day, Some day' => dayStep env day w day' w'
  | _, _ => False
  end.

(** A value the stage writes into [meal.image] is truthy: a non-empty
    URL, or a member of [Object.prototype]. *)
Definition truthyImage (value : ImageValue) : Prop :=
  match value with
  | ImageUrl url => url <> ""
  | InheritedMember key => key ∈ objectPrototypeKeys
  end.

(** A meal after the stage: the same meal, with a truthy image when the
    stage enriches it. *)
Definition imageSet (day : MealPlanDay) (meal meal' : Meal) : Prop :=
  type meal' = type meal /\ name meal' = name meal /\
  image_search_keywords meal' = image_search_keywords meal /\
  if enriched day meal
  then exists value, truthyImage value /\ image meal' = Some value
  else image meal' = image meal.

(** A day after the stage: the same date, target and flag, and the same
    meals up to their images. *)
Definition imagesSet (day day' : MealPlanDay) : Prop :=
  date day' = date day /\
  daily_calorie_target day' = daily_calorie_target day /\
  isCheatDay day' = isCheatDay day /\
  match meals day, meals day' with
  | Some ms, Some ms' => Forall2 (onObjects (imageSet day)) ms ms'
  | None, None => True
  | _, _ => False
  end.

(** The queries of the searches for a meal, for a day and for a plan, in
    the order of the meals: one for each meal the stage enriches, as far
    as the loops come. *)
Definition queryFor (day : MealPlanDay) (meal : Meal) : list string :=
  if enriched day meal
  then [queryOf (callName day meal) (callKeywords day meal)]
  else [].

Definition queriesOfDay (day : MealPlanDay) : list string :=
  concat (map (queryFor day) (reached (default [] (meals day)))).

Definition queriesOf (plan : AiPlan) : list string :=
  match days plan with
  | DaysArray ds => concat (map queriesOfDay (daysReached ds))
  | _ => []
  end.

(** The searches issued for the queries [queries]: one each with a
    configured credential, none without. *)
Definition searchesFor (env : Env) (queries : list string) : list Event :=
  if str_truthy (unsplashAccessKey env) then map EvImageSearch queries else [].

(** A search result the loop of [getMealImageUrl] passes over: no
    [urls.regular], an empty one, or one the set holds already. *)
Definition passedOver (used : gset string) (result : option string) : Prop :=
  match result with
  | Some url => url = "" \/ url ∈ used
  | None => True
  end.

(** The number of spaces in a string. *)
Fixpoint spaces (s : string) : nat :=
  match s with
  | EmptyString => 0
  | String c rest => ((if Ascii.eqb c " " then 1 else 0) + spaces rest)%nat
  end.

(** The image of a meal when every search returns the same [results]:
    the result at the position of the meal, or the default of its type. *)
Definition servedImage (results : list string) (i : nat) (meal : Meal) : Meal :=
  withImage meal (pickedOr (defaultImageFor (default "" (type meal))) (results !! i)).

End ImageSpec.

(** ** Vocabulary for the further properties of the job processor *)

Module JobSpec.

Import StageSpec ImageSpec.

Local Open Scope string_scope.

(** The two reports that settle a job with the queue. *)
Definition isSettlement (e : Event) : bool :=
  match e with
  | EvCompleteJob _ | EvFailJob _ _ => true
  | _ => false
  end.

(** A computation that adds calls to the trace, none of which settles a
    job. *)
Definition settlesNothing {A : Type} (c : M A) : Prop :=
  forall w : World,
    exists calls : list Event,
      trace (c w).2 = (trace w ++ calls)%list /\
      Forall (fun e => isSettlement e = false) calls.

(** The searches the image stage issues for a document. *)
Definition searchCalls (env : Env) (plan : AiPlan) : list Event :=
  searchesFor env (queriesOf plan).

(** The calorie map of a job. *)
Definition jobCalorieMap (env : Env) (job : BackgroundJob) : gmap string Z :=
  calorieMap (userPreferences (payload job)) (profileOf env) (clock env).

(** The calls of a job up to the request for the plan, in order. *)
Definition openingCalls (env : Env) (job : BackgroundJob) : list Event :=
  ([EvHeartbeat (job_id job);
    EvProfileRead (userId (payload job))]
   ++ profileLog env
   ++ [EvHistoryRead (userId (payload job));
       EvPlanRequest])%list.

(** The calls of a job up to the write of the plan, in order, when the
    image stage receives the document [plan] and returns. *)
Definition pipelineCalls (env : Env) (job : BackgroundJob) (plan : AiPlan) : list Event :=
  (openingCalls env job
   ++ searchCalls env plan
   ++ [EvCardsRequest]
   ++ cardsLog env
   ++ [EvArtifactWrite (planId (payload job)) (userId (payload job))])%list.

(** How a job whose pipeline throws [message] ends. *)
Definition failingCalls (job : BackgroundJob) (message : string) : list Event :=
  [EvLogError "Meal plan generation failed";
   EvLogError "Job failed";
   EvFailJob (job_id job) message].

(** How a job that has written, or failed to write, its plan ends. *)
Definition closingCalls (env : Env) (job : BackgroundJob) : list Event :=
  match saveError env with
  | None =>
      [EvNotify (userId (payload job)) (planId (payload job));
       EvCompleteJob (job_id job)]
  | Some message =>
      [EvLogError "Job failed";
       EvFailJob (job_id job) ("Failed to save meal plan: " ++ message)]
  end.

End JobSpec.

(** ** Vocabulary for the further properties of the polling loop *)

Module LoopSpec.

Import Scheduler.

Local Open Scope string_scope.

Definition isDispatch (e : SchedLog) : bool :=
  match e with LogDispatch _ => true | _ => false end.

(** A log entry of the loop outside its error handler: no "Error in main
    polling loop", and no sleep other than the poll interval. *)
Definition regular (cfg : WorkerConfig) (e : SchedLog) : Prop :=
  match e with
  | LogSleep ms => ms = pollIntervalMs cfg
  | LogError message => message <> "Error in main polling loop"
  | _ => True
  end.

(** The claim the loop is waiting for, counted. *)
Definition pending (s : Sched) : nat :=
  match loop s with AwaitingClaim => 1 | _ => 0 end.

Definition claims (s : Sched) : nat := length (List.filter SchedSpec.isClaim (slog s)).

Definition dispatches (s : Sched) : nat := length (List.filter isDispatch (slog s)).

(** The reply of a claim that hands over [job]. *)
Definition handsOver (job : BackgroundJob) (rest : list BackgroundJob) : SchedEvent :=
  ClaimReturns (RpcData (Some (job :: rest))).

End LoopSpec.

(** ** Shutdown ([gracefulShutdown]) *)

Module Shutdown.

(** What the processor sees each time it tests the condition of its
    waiting loop: [this.activeJobs.size] and [Date.now()]. *)
Record Observation := {
  inFlight : Z;
  clock : Z
}.

Definition shutdownTimeout : Z := 300000.

(** [this.activeJobs.size > 0 && (Date.now() - startTime) < shutdownTimeout]. *)
Definition keepsWaiting (startTime : Z) (o : Observation) : bool :=
  (0 <? inFlight o) && (clock o - startTime <? shutdownTimeout).

(** [gracefulShutdown] from its waiting loop on, over the observations of
    the successive tests. It gives the number of five-second sleeps before
    [process.exit(0)] and the number of jobs then in flight, for which it
    warns when it is positive; [None] when the observations end while it
    is still waiting. Setting [isShuttingDown] is the [Signal] of the
    polling loop. *)
Fixpoint gracefulShutdown (startTime : Z) (observations : list Observation)
  : option (nat * Z) :=
  match observations with
  | [] => None
  | o :: rest =>
      if keepsWaiting startTime o
      then
        match gracefulShutdown startTime rest with
        | Some (sleeps, interrupted) => Some (S sleeps, interrupted)
        | None => None
        end
      else Some (0%nat, inFlight o)
  end.

(** Each sleep lasts at least its five seconds: the first observation is
    made at [startTime] or later, and each next one at least 5000 ms
    after the one before. *)
Fixpoint timed (earliest : Z) (observations : list Observation) : Prop :=
  match observations with
  | [] => True
  | o :: rest => earliest <= clock o /\ timed (clock o + 5000) rest
  end.

End Shutdown.
(** * Properties *)

Import Scheduler Spec StageSpec SchedSpec Inputs.

(** ** The embedding on known values *)

Section KnownValues.

Example toISODate_epoch : toISODate 0 = "1970-01-01"%string.
Proof. reflexivity. Qed.

Example toISODate_leap_day : toISODate 19782 = "2024-02-29"%string.
Proof. reflexivity. Qed.

Example toISODate_week :
  map toISODate (getCurrentWeekDates day2025) =
    ["2025-01-01"; "2025-01-02"; "2025-01-03"; "2025-01-04"; "2025-01-05";
     "2025-01-06"; "2025-01-07"]%string.
Proof. reflexivity. Qed.

(** East of Greenwich the week starts on the day before the local one. *)
Example toISODate_week_ahead_of_utc :
  map toISODate (getCurrentWeekDates berlinWinter2025) =
    ["2024-12-31"; "2025-01-01"; "2025-01-02"; "2025-01-03"; "2025-01-04";
     "2025-01-05"; "2025-01-06"]%string.
Proof. reflexivity. Qed.

(** Across the start of summer time one date is printed twice. *)
Example toISODate_week_into_summer_time :
  map toISODate (getCurrentWeekDates londonSpring2025) =
    ["2025-03-27"; "2025-03-28"; "2025-03-29"; "2025-03-30"; "2025-03-30";
     "2025-03-31"; "2025-04-01"]%string.
Proof. reflexivity. Qed.

Example toISODate_last_four_digit_year : toISODate 2932896 = "9999-12-31"%string.
Proof. reflexivity. Qed.

Example toISODate_six_digit_year : toISODate 2932897 = "+010000-01-01"%string.
Proof. reflexivity. Qed.

(** [Math.round(11000 / 6)], [Math.round(2.5)], [Math.round(-2.5)]. *)
Example Math_round_div_values :
  Math_round_div 11000 6 = 1833 /\ Math_round_div 5 2 = 3 /\ Math_round_div (-5) 2 = -2.
Proof. repeat split; reflexivity. Qed.

Example searchTermOf_keyword :
  searchTermOf "Grilled Salmon with Quinoa" ["grilled salmon"; "quinoa"]
    = "grilled salmon"%string.
Proof. reflexivity. Qed.

Example searchTermOf_name :
  searchTermOf "Grilled Salmon with Quinoa" [] = "Grilled Salmon"%string.
Proof. reflexivity. Qed.

Example defaultImageFor_values :
  defaultImageFor "Lunch" = ImageUrl lunchImage /\
  defaultImageFor "Brunch" = ImageUrl genericFoodImage /\
  defaultImageFor "" = ImageUrl genericFoodImage /\
  defaultImageFor "toString" = InheritedMember "toString".
Proof. repeat split; vm_compute; reflexivity. Qed.

Example calorieMap_one_cheat_day :
  map (fun d => calorieMap oneCheatDay profile2000 day2025 !! toISODate d)
      (getCurrentWeekDates day2025)
    = [Some 1833; Some 1833; Some 3000; Some 1833; Some 1833; Some 1833; Some 1833].
Proof. vm_compute. reflexivity. Qed.

End KnownValues.

(** ** Calendar dates print injectively *)

Section DateFacts.

(** The decomposition [civil_from_days] computes, with the ranges of its
    parts. *)
Lemma civil_from_days_parts (days : Z) :
  exists era yoe doy mp : Z,
    0 <= yoe <= 399 /\ 0 <= doy <= 365 /\ 0 <= mp <= 11 /\
    153 * mp <= 5 * doy + 2 < 153 * mp + 153 /\
    0 <= 365 * yoe + yoe / 4 - yoe / 100 + doy < 146097 /\
    days + 719468 = era * 146097 + (365 * yoe + yoe / 4 - yoe / 100 + doy) /\
    civil_from_days days =
      (yoe + era * 400 + (if mp <? 10 then 0 else 1),
       if mp <? 10 then mp + 3 else mp - 9,
       doy - (153 * mp + 2) / 5 + 1).
Proof.
  unfold civil_from_days.
  set (z := days + 719468).
  set (era := z / 146097).
  set (doe := z - era * 146097).
  set (yoe := (doe - doe / 1460 + doe / 36524 - doe / 146096) / 365).
  set (doy := doe - (365 * yoe + yoe / 4 - yoe / 100)).
  set (mp := (5 * doy + 2) / 153).
  assert (Hdoe : 0 <= doe < 146097).
  { subst doe era. Z.div_mod_to_equations. lia. }
  assert (Hy : 0 <= yoe <= 399 /\ 0 <= doy <= 365).
  { subst doy yoe. clearbody doe. clear -Hdoe. Z.div_mod_to_equations. lia. }
  assert (Hmp : 0 <= mp <= 11 /\ 153 * mp <= 5 * doy + 2 < 153 * mp + 153).
  { subst mp. clearbody doy. clear -Hy. Z.div_mod_to_equations. lia. }
  exists era, yoe, doy, mp.
  repeat split; try lia.
  do 3 f_equal.
  destruct (mp <? 10) eqn:E.
  - assert ((mp + 3 <=? 2) = false) as -> by lia. reflexivity.
  - assert ((mp - 9 <=? 2) = true) as -> by lia. reflexivity.
Qed.

Lemma civil_from_days_inj (a b : Z) :
  civil_from_days a = civil_from_days b -> a = b.
Proof.
  destruct (civil_from_days_parts a)
    as (era1 & yoe1 & doy1 & mp1 & Hy1 & Hd1 & Hm1 & Hq1 & _ & Hz1 & ->).
  destruct (civil_from_days_parts b)
    as (era2 & yoe2 & doy2 & mp2 & Hy2 & Hd2 & Hm2 & Hq2 & _ & Hz2 & ->).
  intros E. injection E as Ey Em Ed.
  assert (mp1 = mp2) as <-.
  { destruct (mp1 <? 10) eqn:E1, (mp2 <? 10) eqn:E2; lia. }
  assert (era1 = era2 /\ yoe1 = yoe2) as [<- <-] by lia.
  assert (doy1 = doy2) as <- by lia.
  lia.
Qed.

(** A date of the years 0000 to 9999 has a four-digit year, a month of
    1 to 12 and a day of 1 to 31. *)
Lemma civil_from_days_range (days : Z) :
  -719528 <= days <= 2932896 ->
  match civil_from_days days with
  | (y, m, d) => 0 <= y <= 9999 /\ 1 <= m <= 12 /\ 1 <= d <= 31
  end.
Proof.
  intros Hr.
  destruct (civil_from_days_parts days)
    as (era & yoe & doy & mp & Hy & Hd & Hm & Hq & Hdoe & Hz & ->).
  assert (He : -1 <= era <= 24) by lia.
  assert (Hlo : era = -1 -> yoe = 399 /\ 10 <= mp).
  { intros ->. revert Hz Hdoe Hq. Z.div_mod_to_equations. lia. }
  assert (Hhi : era = 24 -> mp < 10 \/ yoe < 399).
  { intros ->. revert Hz Hdoe Hq. Z.div_mod_to_equations. lia. }
  assert (Hd' : 1 <= doy - (153 * mp + 2) / 5 + 1 <= 31).
  { revert Hq. Z.div_mod_to_equations. lia. }
  destruct (mp <? 10) eqn:E; repeat split; lia.
Qed.

Lemma digit_inj (a b : Z) :
  0 <= a <= 9 -> 0 <= b <= 9 -> digit a = digit b -> a = b.
Proof.
  intros Ha Hb E. unfold digit in E.
  apply (f_equal nat_of_ascii) in E.
  rewrite !nat_ascii_embedding in E by lia. lia.
Qed.

Lemma pad2_inj (a b : Z) (r r' : string) :
  0 <= a < 100 -> 0 <= b < 100 -> pad2 a r = pad2 b r' -> a = b /\ r = r'.
Proof.
  intros Ha Hb E. unfold pad2 in E. injection E as E1 E2 E3.
  apply digit_inj in E1; [|Z.div_mod_to_equations; lia..].
  apply digit_inj in E2; [|Z.div_mod_to_equations; lia..].
  split; [|assumption].
  revert E1 E2. Z.div_mod_to_equations. lia.
Qed.

Lemma pad4_inj (a b : Z) (r r' : string) :
  0 <= a < 10000 -> 0 <= b < 10000 -> pad4 a r = pad4 b r' -> a = b /\ r = r'.
Proof.
  intros Ha Hb E. unfold pad4, pad2 in E. injection E as E1 E2 E3 E4 E5.
  apply digit_inj in E1; [|Z.div_mod_to_equations; lia..].
  apply digit_inj in E2; [|Z.div_mod_to_equations; lia..].
  apply digit_inj in E3; [|Z.div_mod_to_equations; lia..].
  apply digit_inj in E4; [|Z.div_mod_to_equations; lia..].
  split; [|assumption].
  revert E1 E2 E3 E4. Z.div_mod_to_equations. lia.
Qed.

(** Two days of the years 0000 to 9999 with the same ISO date are the
    same day. *)
Lemma toISODate_inj (a b : Z) :
  -719528 <= a <= 2932896 -> -719528 <= b <= 2932896 ->
  toISODate a = toISODate b -> a = b.
Proof.
  intros Ha Hb E. apply civil_from_days_inj.
  pose proof (civil_from_days_range a Ha) as Ra.
  pose proof (civil_from_days_range b Hb) as Rb.
  unfold toISODate in E.
  destruct (civil_from_days a) as [[y1 m1] d1].
  destruct (civil_from_days b) as [[y2 m2] d2].
  assert (Htl : forall c s t, String c s = String c t -> s = t)
    by (intros c s t Hst; injection Hst; auto).
  unfold isoYear in E.
  assert (((0 <=? y1) && (y1 <=? 9999)) = true) as Hy1 by lia.
  assert (((0 <=? y2) && (y2 <=? 9999)) = true) as Hy2 by lia.
  rewrite Hy1, Hy2 in E.
  apply pad4_inj in E as [-> E]; [|lia..].
  apply Htl in E.
  apply pad2_inj in E as [-> E]; [|lia..].
  apply Htl in E.
  apply pad2_inj in E as [-> _]; [|lia..].
  reflexivity.
Qed.

Lemma elem_of_getCurrentWeekDates (clock : Clock) (d : Z) :
  d ∈ getCurrentWeekDates clock <-> exists i : nat, (i < 7)%nat /\ d = weekDate clock i.
Proof.
  unfold getCurrentWeekDates. rewrite list_elem_of_In, in_map_iff. split.
  - intros (i & <- & Hi). apply in_seq in Hi. exists i. split; [lia|reflexivity].
  - intros (i & Hi & ->). exists i. split; [reflexivity|apply in_seq; lia].
Qed.

(** The local midnight of a day falls on that day or on the day before. *)
Lemma weekDate_range (clock : Clock) (i : nat) :
  localDay clock + Z.of_nat i - 1 <= weekDate clock i <= localDay clock + Z.of_nat i.
Proof. unfold weekDate, utcDayOfMidnight. destruct (aheadOfUtc _ _); lia. Qed.

Lemma getCurrentWeekDates_lookup (clock : Clock) (i : nat) :
  getCurrentWeekDates clock !! i =
    if decide (i < 7)%nat then Some (weekDate clock i) else None.
Proof.
  unfold getCurrentWeekDates.
  do 7 (destruct i as [|i]; [reflexivity|]). reflexivity.
Qed.

Lemma length_getCurrentWeekDates (clock : Clock) :
  length (getCurrentWeekDates clock) = 7%nat.
Proof. reflexivity. Qed.

(** Seven different dates of the years 0000 to 9999 print as seven
    different strings. *)
Lemma weekDates_NoDup (clock : Clock) :
  clock_in_range clock ->
  NoDup (getCurrentWeekDates clock) ->
  NoDup (map toISODate (getCurrentWeekDates clock)).
Proof.
  intros [Hlo Hhi] Hnd.
  apply NoDup_fmap_2_strong; [|exact Hnd].
  intros a b (i & Hi & ->)%elem_of_getCurrentWeekDates
             (j & Hj & ->)%elem_of_getCurrentWeekDates E.
  pose proof (weekDate_range clock i). pose proof (weekDate_range clock j).
  apply toISODate_inj in E; [assumption|lia..].
Qed.

(** The seven dates differ when the zone is on the same side of UTC at
    all seven midnights. *)
Lemma weekDates_steady (clock : Clock) (side : bool) :
  (forall i : nat, (i < 7)%nat -> aheadOfUtc clock (localDay clock + Z.of_nat i) = side) ->
  NoDup (getCurrentWeekDates clock).
Proof.
  intros H. unfold getCurrentWeekDates.
  apply NoDup_fmap_2_strong; [|apply NoDup_seq].
  intros i j Hi%elem_of_seq Hj%elem_of_seq.
  unfold weekDate, utcDayOfMidnight. rewrite !H by lia.
  destruct side; lia.
Qed.

(** In a zone that is not ahead of UTC the seven dates are the seven
    calendar dates from the local day on. *)
Lemma weekDates_calendar (clock : Clock) :
  (forall i : nat, (i < 7)%nat -> aheadOfUtc clock (localDay clock + Z.of_nat i) = false) ->
  getCurrentWeekDates clock = calendarWeek clock.
Proof.
  intros H. unfold getCurrentWeekDates, calendarWeek.
  apply map_ext_in. intros i Hi%in_seq.
  unfold weekDate, utcDayOfMidnight. rewrite H by lia. reflexivity.
Qed.

End DateFacts.

(** ** The calorie map against its specification *)

Section CalorieFacts.

Lemma fold_insert_lookup (value : string -> Z) (wd : list Z)
    (m : gmap string Z) (k : string) :
  fold_left (fun eff d => <[toISODate d := value (toISODate d)]> eff) wd m !! k =
    if decide (k ∈ map toISODate wd) then Some (value k) else m !! k.
Proof.
  revert m. induction wd as [|d wd IH]; intros m.
  - reflexivity.
  - cbn [fold_left]. rewrite IH.
    change (map toISODate (d :: wd)) with (toISODate d :: map toISODate wd).
    destruct (decide (k ∈ map toISODate wd)) as [Hin|Hin];
      destruct (decide (k ∈ toISODate d :: map toISODate wd)) as [Hin'|Hin'];
      rewrite ?elem_of_cons in Hin'; try reflexivity.
    + exfalso. auto.
    + destruct Hin' as [->|?]; [|done]. by rewrite lookup_insert_eq.
    + rewrite lookup_insert_ne; [reflexivity|]. intros <-. auto.
Qed.

Lemma fillWeek_lookup (value : string -> Z) (wd : list Z) (k : string) :
  fillWeek value wd !! k =
    if decide (k ∈ map toISODate wd) then Some (value k) else None.
Proof. unfold fillWeek. by rewrite fold_insert_lookup, lookup_empty. Qed.

Lemma fillWeek_lookup_date (value : string -> Z) (wd : list Z) (d : Z) :
  d ∈ wd -> fillWeek value wd !! toISODate d = Some (value (toISODate d)).
Proof.
  intros Hd. rewrite fillWeek_lookup. case_decide as H; [reflexivity|].
  exfalso. apply H. by apply list_elem_of_fmap_2.
Qed.

Lemma overrideFor_cons (cd : CheatDay) (cds : list CheatDay) (k : string) :
  overrideFor (cd :: cds) k =
    match overrideFor cds k with
    | Some c => Some c
    | None => if decide (cd_date cd = k) then Some (cd_calories cd) else None
    end.
Proof.
  unfold overrideFor. rewrite filter_cons.
  destruct (decide (cd_date cd = k)) as [E|E].
  - destruct (filter _ cds) as [|x l] eqn:Hf; [reflexivity|].
    rewrite last_cons. destruct (last (x :: l)) eqn:Hl; [reflexivity|].
    by apply last_None in Hl.
  - destruct (last (filter _ cds)); reflexivity.
Qed.

Lemma fold_cheat_lookup (cds : list CheatDay) (m : gmap string Z) (k : string) :
  fold_left (fun m cd => <[cd_date cd := cd_calories cd]> m) cds m !! k =
    match overrideFor cds k with
    | Some c => Some c
    | None => m !! k
    end.
Proof.
  revert m. induction cds as [|cd cds IH]; intros m; simpl; [reflexivity|].
  rewrite IH, overrideFor_cons.
  destruct (overrideFor cds k); [reflexivity|].
  case_decide as E.
  - subst k. by rewrite lookup_insert_eq.
  - by rewrite lookup_insert_ne.
Qed.

(** The dictionary built by [Object.fromEntries] holds, for each date,
    the calories of the last entry listed for it. *)
Lemma cheatMapOf_lookup (cds : list CheatDay) (k : string) :
  cheatMapOf cds !! k = overrideFor cds k.
Proof.
  unfold cheatMapOf. rewrite fold_cheat_lookup, lookup_empty.
  by destruct (overrideFor cds k).
Qed.

Lemma overrideFor_None (cds : list CheatDay) (k : string) :
  overrideFor cds k = None <-> k ∉ map cd_date cds.
Proof.
  induction cds as [|cd cds IH].
  - split; [intros _; apply not_elem_of_nil | reflexivity].
  - rewrite overrideFor_cons. simpl. rewrite not_elem_of_cons.
    destruct (overrideFor cds k) eqn:E.
    + split; [discriminate|]. intros [_ H]. by apply IH in H.
    + case_decide as Hd.
      * split; [discriminate|]. intros [H _]. congruence.
      * split; [|reflexivity]. intros _. split; [congruence|]. by apply IH.
Qed.

Lemma totalCheatCals_from (cds : list CheatDay) (a : Z) :
  fold_left (fun s cd => s + cd_calories cd) cds a = a + sumCheatCalories cds.
Proof.
  revert a. induction cds as [|cd cds IH]; intros a; simpl; [lia|].
  rewrite IH. lia.
Qed.

Lemma totalCheatCals_sum (cds : list CheatDay) :
  totalCheatCals cds = sumCheatCalories cds.
Proof. unfold totalCheatCals. rewrite totalCheatCals_from. lia. Qed.


Lemma normalDayCals_spec (goal : Z) (clock : Clock) (cds : list CheatDay) :
  normalDayCals goal (getCurrentWeekDates clock) cds = normalDayCalories goal cds.
Proof.
  unfold normalDayCals, normalDayCalories.
  rewrite length_getCurrentWeekDates, totalCheatCals_sum.
  change (Z.of_nat 7) with 7.
  destruct (0 <? 7 - Z.of_nat (length cds)) eqn:E; case_decide; try lia; reflexivity.
Qed.

(** [Math.round] of a quotient is within half a unit of it. *)
Lemma Math_round_div_nearest (n d : Z) :
  0 < d -> - d <= 2 * (d * Math_round_div n d - n) <= d.
Proof.
  intros Hd. unfold Math_round_div.
  pose proof (Z.div_mod (2 * n + d) (2 * d) ltac:(lia)) as E.
  pose proof (Z.mod_pos_bound (2 * n + d) (2 * d) ltac:(lia)) as B.
  lia.
Qed.

(** The map holds, for each date of the week, the derived target. *)
Lemma calorieMap_lookup (prefs : FoodPreferences) (profile : UserProfile)
    (clock : Clock) (d : Z) :
  d ∈ getCurrentWeekDates clock ->
  calorieMap prefs profile clock !! toISODate d =
    Some (derivedTarget prefs (goalCalories profile) (toISODate d)).
Proof.
  intros Hd. unfold calorieMap, effectiveCaloriesPerDay, derivedTarget.
  destruct (cheatDays prefs) as [[|cd cds]|]; simpl length.
  - change (0 <? Z.of_nat 0) with false. cbv iota.
    by rewrite fillWeek_lookup_date.
  - assert ((0 <? Z.of_nat (S (length cds))) = true) as -> by (apply Z.ltb_lt; lia).
    cbv zeta. rewrite fillWeek_lookup_date by assumption.
    rewrite cheatMapOf_lookup, normalDayCals_spec.
    destruct (overrideFor (cd :: cds) (toISODate d)) as [c|]; simpl; [|reflexivity].
    destruct (c =? 0) eqn:E; case_decide; try lia; reflexivity.
  - by rewrite fillWeek_lookup_date.
Qed.

(** The map holds nothing for a string that is not a date of the week. *)
Lemma calorieMap_lookup_None (prefs : FoodPreferences) (profile : UserProfile)
    (clock : Clock) (k : string) :
  k ∉ map toISODate (getCurrentWeekDates clock) ->
  calorieMap prefs profile clock !! k = None.
Proof.
  intros Hk. unfold calorieMap, effectiveCaloriesPerDay.
  destruct (cheatDays prefs) as [cds|]; [destruct (0 <? _)|];
    rewrite fillWeek_lookup; case_decide; done.
Qed.

End CalorieFacts.

Section WeekTotals.

Lemma sumZ_constant (f : Z -> Z) (c : Z) (l : list Z) :
  (forall d, d ∈ l -> f d = c) -> sumZ (map f l) = Z.of_nat (length l) * c.
Proof.
  induction l as [|d l IH]; intros H; [reflexivity|].
  change (sumZ (map f (d :: l))) with (f d + sumZ (map f l)).
  rewrite IH by (intros; apply H; set_solver).
  rewrite (H d) by set_solver.
  rewrite length_cons. lia.
Qed.

(** When the seven dates differ and every listed cheat day is a
    different one of them, the dates left over are seven minus the length
    of the list. *)
Lemma length_nonCheatDates (cds : list CheatDay) (clock : Clock) :
  clock_in_range clock ->
  NoDup (getCurrentWeekDates clock) ->
  NoDup (map cd_date cds) ->
  (forall s, s ∈ map cd_date cds -> s ∈ map toISODate (getCurrentWeekDates clock)) ->
  (length (nonCheatDates cds (getCurrentWeekDates clock)) + length cds = 7)%nat.
Proof.
  intros Hclock Hweek Hnd Hsub.
  set (week := getCurrentWeekDates clock).
  set (listed := filter (fun d => toISODate d ∈ map cd_date cds) week).
  assert (Hsplit : (length listed + length (nonCheatDates cds week) = 7)%nat).
  { change 7%nat with (length week).
    rewrite <- length_app. apply Permutation_length.
    apply (filter_app_complement (fun d => toISODate d ∈ map cd_date cds)). }
  assert (Hperm : map toISODate listed ≡ₚ map cd_date cds).
  { apply NoDup_Permutation; [|assumption|].
    - apply (NoDup_fmap_2_strong toISODate).
      + intros a b Ha%list_elem_of_filter Hb%list_elem_of_filter E.
        destruct Ha as [_ (i & Hi & ->)%elem_of_getCurrentWeekDates].
        destruct Hb as [_ (j & Hj & ->)%elem_of_getCurrentWeekDates].
        pose proof (weekDate_range clock i). pose proof (weekDate_range clock j).
        destruct Hclock. apply toISODate_inj in E; [assumption|lia..].
      + apply NoDup_filter. exact Hweek.
    - intros s. split.
      + intros (d & -> & Hd%list_elem_of_filter)%list_elem_of_fmap. tauto.
      + intros Hs. pose proof (Hsub s Hs) as Hw.
        apply list_elem_of_fmap in Hw as (d & -> & Hd).
        apply list_elem_of_fmap_2. apply list_elem_of_filter. tauto. }
  apply Permutation_length in Hperm.
  rewrite !length_map in Hperm. lia.
Qed.

End WeekTotals.

(** ** C1 and C2: the derived calorie map *)

Section CalorieClaims.

(** C1, as the specification words it, fails, in four ways; the goal is
    2000 throughout. A cheat day listed with 0 kcal should get the
    literal 0 and gets the normal-day value round(14000 / 6) = 2333. A
    cheat day of 3000 kcal dated outside the week leaves seven non-cheat
    days, for which the formula gives round(11000 / 7) = 1571; the
    pipeline divides by seven minus the entries of the list and gives
    1833. A cheat day of 3000 kcal listed twice leaves six non-cheat
    days, for which the formula gives round(8000 / 6) = 1333; the
    pipeline gives round(8000 / 5) = 1600. And on a worker on London
    time on 2025-03-27 the dates of the pipeline are not the next seven
    calendar dates: 2025-03-30 comes twice, 2025-04-02 gets no target,
    and a cheat day on 2025-03-30 leaves five other dates. *)
Lemma calorie_map_not_as_claimed :
  let goal := goalCalories profile2000 in
  let week := getCurrentWeekDates day2025 in
  goal = 2000 /\
  map toISODate week = map toISODate (calendarWeek day2025) /\
  "2025-01-01"%string ∈ map toISODate week /\
  (claimedTarget zeroCheatDay goal week "2025-01-01" = 0 /\
   calorieMap zeroCheatDay profile2000 day2025 !! "2025-01-01"%string = Some 2333) /\
  (length (nonCheatDates (default [] (cheatDays farCheatDay)) week) = 7%nat /\
   claimedTarget farCheatDay goal week "2025-01-01" = 1571 /\
   calorieMap farCheatDay profile2000 day2025 !! "2025-01-01"%string = Some 1833) /\
  (length (nonCheatDates (default [] (cheatDays repeatedCheatDay)) week) = 6%nat /\
   claimedTarget repeatedCheatDay goal week "2025-01-01" = 1333 /\
   calorieMap repeatedCheatDay profile2000 day2025 !! "2025-01-01"%string = Some 1600) /\
  (map toISODate (calendarWeek londonSpring2025) =
     ["2025-03-27"; "2025-03-28"; "2025-03-29"; "2025-03-30"; "2025-03-31";
      "2025-04-01"; "2025-04-02"]%string /\
   map toISODate (getCurrentWeekDates londonSpring2025) =
     ["2025-03-27"; "2025-03-28"; "2025-03-29"; "2025-03-30"; "2025-03-30";
      "2025-03-31"; "2025-04-01"]%string /\
   calorieMap marchCheatDay profile2000 londonSpring2025 !! "2025-04-02"%string = None /\
   map toISODate (nonCheatDates (default [] (cheatDays marchCheatDay))
                                (getCurrentWeekDates londonSpring2025)) =
     ["2025-03-27"; "2025-03-28"; "2025-03-29"; "2025-03-31"; "2025-04-01"]%string).
Proof.
  cbv zeta. split; [reflexivity|]. split; [reflexivity|].
  split; [apply (bool_decide_unpack _); vm_compute; reflexivity|].
  repeat split; vm_compute; reflexivity.
Qed.

(** C1, amended. The dates of the derivation are the seven dates that
    [toISOString] prints for the local midnights from today on; in a
    zone that is not ahead of UTC they are the next seven calendar
    dates. For every preference input, profile and clock, the calorie
    map gives each of these dates: the baseline goal when the cheat-day
    list is absent or empty; otherwise the override listed for that date
    when it is not zero, and for a date that is not listed, or listed
    with 0, the normal-day value round((7 × goal − Σ calories of the
    list) / (7 − entries of the list)), which is the baseline goal when
    7 − entries is not positive. With a goal of 2000 and one cheat day of
    3000 kcal, every other date gets 1833, and when the seven dates
    differ and that cheat day is one of them there are 6 such dates. *)
Theorem calorie_map_derivation
    (prefs : FoodPreferences) (profile : UserProfile) (clock : Clock) (d : Z) :
  d ∈ getCurrentWeekDates clock ->
  let goal := goalCalories profile in
  let eff := calorieMap prefs profile clock in
  eff !! toISODate d = Some (derivedTarget prefs goal (toISODate d)) /\
  (forall s : string,
      goal = 2000 ->
      cheatDays prefs = Some [ {| cd_date := s; cd_calories := 3000 |} ] ->
      eff !! toISODate d = Some (if decide (toISODate d = s) then 3000 else 1833)) /\
  (forall k : nat,
      clock_in_range clock -> NoDup (getCurrentWeekDates clock) -> (k < 7)%nat ->
      length (nonCheatDates
                [ {| cd_date := toISODate (weekDate clock k); cd_calories := 3000 |} ]
                (getCurrentWeekDates clock)) = 6%nat) /\
  ((forall i : nat, (i < 7)%nat ->
       aheadOfUtc clock (localDay clock + Z.of_nat i) = false) ->
   getCurrentWeekDates clock = calendarWeek clock).
Proof.
  intros Hd goal eff. split; [|split; [|split]].
  - apply calorieMap_lookup, Hd.
  - intros s Hgoal Hcds. subst eff. rewrite calorieMap_lookup by assumption.
    fold goal. rewrite Hgoal. unfold derivedTarget. rewrite Hcds.
    rewrite overrideFor_cons. cbn [overrideFor filter list_filter last fmap option_fmap option_map cd_date cd_calories].
    repeat case_decide; try congruence; try lia; reflexivity.
  - intros k Hclock Hweek Hk.
    pose proof (length_nonCheatDates
                  [ {| cd_date := toISODate (weekDate clock k); cd_calories := 3000 |} ]
                  clock Hclock Hweek) as H.
    cbn [map cd_date length] in H.
    assert (length (nonCheatDates
              [ {| cd_date := toISODate (weekDate clock k); cd_calories := 3000 |} ]
              (getCurrentWeekDates clock)) + 1 = 7)%nat; [|lia].
    apply H.
    + apply NoDup_singleton.
    + intros s ->%list_elem_of_singleton. apply list_elem_of_fmap_2.
      apply elem_of_getCurrentWeekDates. exists k. split; [exact Hk|reflexivity].
  - apply weekDates_calendar.
Qed.

Lemma calorie_map_derivation_witness :
  calorieMap oneCheatDay profile2000 day2025 !! toISODate 20090
    = Some (derivedTarget oneCheatDay 2000 (toISODate 20090)) /\
  calorieMap oneCheatDay profile2000 day2025 !! toISODate 20090 = Some 1833 /\
  length (nonCheatDates [ {| cd_date := "2025-01-03"; cd_calories := 3000 |} ]
                        (getCurrentWeekDates day2025)) = 6%nat /\
  getCurrentWeekDates day2025 = calendarWeek day2025.
Proof.
  assert (Hd : 20090 ∈ getCurrentWeekDates day2025).
  { apply elem_of_getCurrentWeekDates. exists 1%nat. split; [lia|reflexivity]. }
  destruct (calorie_map_derivation oneCheatDay profile2000 day2025 20090 Hd)
    as (H1 & H2 & H3 & H4).
  split; [exact H1|]. split; [|split].
  - exact (H2 "2025-01-03"%string eq_refl eq_refl).
  - refine (H3 2%nat _ _ _).
    + unfold clock_in_range, day2025. cbn [localDay]. lia.
    + apply (weekDates_steady day2025 false). reflexivity.
    + lia.
  - apply H4. reflexivity.
Defined.

(** C2, as the specification words it, fails. When all seven dates are
    cheat days of 3000 kcal no date is left to absorb the difference;
    the listed calories are 21000 against 7 × 2000 = 14000, with a
    tolerance of zero. And on a worker on London time on 2025-03-27, with
    one cheat day of 3000 kcal on 2025-03-30, the pipeline divides by six
    while five other dates are left: their targets are 5 × 1833, with the
    listed calories 12165 against 14000, with a tolerance of five. *)
Lemma week_balance_fails_without_normal_days :
  (nonCheatDates (default [] (cheatDays sevenCheatDays)) (getCurrentWeekDates day2025) = [] /\
   sumCheatCalories (default [] (cheatDays sevenCheatDays)) = 21000 /\
   7 * goalCalories profile2000 = 14000 /\
   ~ claimedWeekBalance sevenCheatDays profile2000 day2025) /\
  (targetsOf (calorieMap marchCheatDay profile2000 londonSpring2025)
             (nonCheatDates (default [] (cheatDays marchCheatDay))
                            (getCurrentWeekDates londonSpring2025))
     = [1833; 1833; 1833; 1833; 1833] /\
   sumCheatCalories (default [] (cheatDays marchCheatDay)) = 3000 /\
   ~ claimedWeekBalance marchCheatDay profile2000 londonSpring2025).
Proof.
  assert (H1 : nonCheatDates (default [] (cheatDays sevenCheatDays))
                 (getCurrentWeekDates day2025) = []) by (vm_compute; reflexivity).
  assert (H2 : nonCheatDates (default [] (cheatDays marchCheatDay))
                 (getCurrentWeekDates londonSpring2025)
               = [20174; 20175; 20176; 20178; 20179]) by (vm_compute; reflexivity).
  split.
  - split; [exact H1|]. split; [vm_compute; reflexivity|].
    split; [vm_compute; reflexivity|].
    unfold claimedWeekBalance.
    change (cheatDays sevenCheatDays) with (Some (default [] (cheatDays sevenCheatDays))).
    remember (default [] (cheatDays sevenCheatDays)) as cds eqn:Hcds.
    assert (Hs : sumCheatCalories cds = 21000) by (subst cds; vm_compute; reflexivity).
    destruct cds as [|cd cds]; [discriminate Hs|].
    rewrite H1, Hs. vm_compute. intros H. apply H. reflexivity.
  - split; [rewrite H2; vm_compute; reflexivity|]. split; [reflexivity|].
    unfold claimedWeekBalance.
    change (cheatDays marchCheatDay) with (Some (default [] (cheatDays marchCheatDay))).
    remember (default [] (cheatDays marchCheatDay)) as cds eqn:Hcds.
    assert (Hs : sumCheatCalories cds = 3000) by (subst cds; vm_compute; reflexivity).
    destruct cds as [|cd cds]; [discriminate Hs|].
    cbv zeta. rewrite H2, Hs. vm_compute. intros H. apply H. reflexivity.
Qed.

(** C2, amended. Without cheat days the seven targets add up to exactly
    7 × goal. When the seven dates of the pipeline differ and the
    cheat-day list has one to six entries, each a different one of these
    dates, the dates left over are seven minus the entries of the list,
    and their targets plus the listed calories differ from 7 × goal by at
    most one unit per date left over. *)
Theorem week_total_balance
    (prefs : FoodPreferences) (profile : UserProfile) (clock : Clock) :
  let goal := goalCalories profile in
  let week := getCurrentWeekDates clock in
  let eff := calorieMap prefs profile clock in
  (cheatDays prefs = None \/ cheatDays prefs = Some [] ->
     sumZ (targetsOf eff week) = 7 * goal) /\
  (forall cds : list CheatDay,
     cheatDays prefs = Some cds ->
     (1 <= length cds < 7)%nat ->
     clock_in_range clock ->
     NoDup week ->
     NoDup (map cd_date cds) ->
     (forall s, s ∈ map cd_date cds -> s ∈ map toISODate week) ->
     (length (nonCheatDates cds week) + length cds = 7)%nat /\
     Z.abs (sumZ (targetsOf eff (nonCheatDates cds week)) + sumCheatCalories cds
            - 7 * goal)
       <= Z.of_nat (length (nonCheatDates cds week))).
Proof.
  intros goal week eff. split.
  - intros Hno. unfold targetsOf.
    rewrite (sumZ_constant _ goal).
    + subst week. rewrite length_getCurrentWeekDates. lia.
    + intros d Hd. subst eff. rewrite calorieMap_lookup by assumption.
      unfold derivedTarget. by destruct Hno as [-> | ->].
  - intros cds Hcds Hlen Hclock Hweek Hnd Hsub.
    pose proof (length_nonCheatDates cds clock Hclock Hweek Hnd Hsub) as Hn.
    fold week in Hn. split; [exact Hn|].
    unfold targetsOf.
    rewrite (sumZ_constant _ (normalDayCalories goal cds)).
    + unfold normalDayCalories. case_decide as Hc; [lia|].
      assert (Hk : Z.of_nat (length (nonCheatDates cds week)) = 7 - Z.of_nat (length cds))
        by lia.
      rewrite Hk.
      pose proof (Math_round_div_nearest (7 * goal - sumCheatCalories cds)
                    (7 - Z.of_nat (length cds)) ltac:(lia)) as Hr.
      lia.
    + intros d [Hnot Hd]%list_elem_of_filter. subst eff.
      rewrite calorieMap_lookup by assumption.
      unfold derivedTarget. rewrite Hcds.
      destruct cds as [|cd cds]; [simpl in Hlen; lia|].
      apply overrideFor_None in Hnot. by rewrite Hnot.
Qed.

Lemma week_total_balance_witness :
  sumZ (targetsOf (calorieMap (prefsOf []) profile2000 day2025)
                  (getCurrentWeekDates day2025)) = 14000 /\
  Z.abs (sumZ (targetsOf (calorieMap oneCheatDay profile2000 day2025)
                 (nonCheatDates (default [] (cheatDays oneCheatDay))
                                (getCurrentWeekDates day2025)))
         + 3000 - 14000) <= 6.
Proof.
  destruct (week_total_balance (prefsOf []) profile2000 day2025) as [H0 _].
  destruct (week_total_balance oneCheatDay profile2000 day2025) as [_ H1].
  split.
  - apply H0. right. reflexivity.
  - destruct (H1 (default [] (cheatDays oneCheatDay))) as [Hn Hb].
    + reflexivity.
    + cbv [oneCheatDay prefsOf cheatDays default id length]. lia.
    + unfold clock_in_range, day2025. cbn [localDay]. lia.
    + apply (weekDates_steady day2025 false). reflexivity.
    + apply NoDup_singleton.
    + intros s Hs. vm_compute in Hs. vm_compute.
      apply list_elem_of_singleton in Hs. subst s. repeat constructor.
    + assert (Hl : length (nonCheatDates (default [] (cheatDays oneCheatDay))
                             (getCurrentWeekDates day2025)) = 6%nat)
        by (change (length (default [] (cheatDays oneCheatDay))) with 1%nat in Hn; lia).
      rewrite Hl in Hb. exact Hb.
Defined.

End CalorieClaims.

(** ** C9 and C10: positional reconciliation of the provider's days *)

Section Reconciliation.

Lemma reconcileFrom_Ok (weekDates : list Z) (eff : gmap string Z)
    (ds : list (option MealPlanDay)) :
  forall (k : nat) (ds' : list (option MealPlanDay)),
    reconcileFrom weekDates eff k ds = Ok ds' ->
    length ds' = length ds /\
    forall i : nat,
      ds' !! i = (fun entry => reconcileDay weekDates eff (k + i) <$> entry) <$> ds !! i.
Proof.
  induction ds as [|entry ds IH]; intros k ds'; cbn [reconcileFrom].
  - intros [= <-]. split; [reflexivity|]. intros i. reflexivity.
  - destruct (reconcileEntry weekDates eff k entry) as [entry'|m] eqn:He; [|discriminate].
    destruct (reconcileFrom weekDates eff (S k) ds) as [rest'|m] eqn:Hr; [|discriminate].
    intros [= <-]. destruct (IH _ _ Hr) as [Hlen Hl].
    split; [cbn [length]; by rewrite Hlen|].
    intros [|i].
    + rewrite Nat.add_0_r. cbn [lookup list_lookup fmap option_fmap option_map].
      f_equal. unfold reconcileEntry in He.
      destruct entry as [day|]; [by injection He as <-|].
      destruct (weekDates !! k); [discriminate|by injection He as <-].
    + replace (k + S i)%nat with (S k + i)%nat by lia. exact (Hl i).
Qed.

Lemma reconcileFrom_returns (weekDates : list Z) (eff : gmap string Z)
    (ds : list (option MealPlanDay)) :
  forall k : nat,
    (forall i : nat, ds !! i = Some None -> weekDates !! (k + i)%nat = None) ->
    exists ds', reconcileFrom weekDates eff k ds = Ok ds'.
Proof.
  induction ds as [|entry ds IH]; intros k Hnull; cbn [reconcileFrom]; [eauto|].
  destruct (IH (S k)) as [rest' ->].
  { intros i Hi. replace (S k + i)%nat with (k + S i)%nat by lia. apply Hnull. exact Hi. }
  unfold reconcileEntry. destruct entry as [day|]; [eauto|].
  rewrite <- (Nat.add_0_r k), (Hnull 0%nat eq_refl). eauto.
Qed.

Lemma reconcileFrom_throws (weekDates : list Z) (eff : gmap string Z)
    (ds : list (option MealPlanDay)) :
  forall k i : nat,
    ds !! i = Some None -> is_Some (weekDates !! (k + i)%nat) ->
    reconcileFrom weekDates eff k ds
      = Throw "Cannot set properties of null (setting 'date')"%string.
Proof.
  induction ds as [|entry ds IH]; intros k i Hi Hw; [discriminate Hi|].
  cbn [reconcileFrom]. destruct i as [|i].
  - injection Hi as ->. rewrite Nat.add_0_r in Hw. destruct Hw as [d Hw].
    unfold reconcileEntry. rewrite Hw. reflexivity.
  - rewrite (IH (S k) i Hi) by (by replace (S k + i)%nat with (k + S i)%nat by lia).
    unfold reconcileEntry. destruct entry as [day|]; [reflexivity|].
    destruct (weekDates !! k); reflexivity.
Qed.

(** A document with a [days] array comes back with the same other
    fields and its days reconciled, or not at all when the loop over the
    days throws; the provider was called once. *)
Lemma generateMealPlanWithAI_array (env : Env) (prefs : FoodPreferences)
    (profile : UserProfile) (w : World) (content : string) (doc : AiPlan)
    (ds : list (option MealPlanDay)) :
  planCompletion env = CompletionContent (Some content) ->
  content <> EmptyString ->
  JSON_parse env content = ParsedValue doc ->
  days doc = DaysArray ds ->
  generateMealPlanWithAI env prefs profile w =
    (match reconcileDays (getCurrentWeekDates (clock env))
                         (calorieMap prefs profile (clock env)) ds with
     | Ok ds' => Ok {| days := DaysArray ds'; otherFields := otherFields doc |}
     | Throw message => Throw message
     end,
     {| usedImageUrls := usedImageUrls w; trace := trace w ++ [EvPlanRequest] |}).
Proof.
  intros Hc Hne Hp Hd. unfold generateMealPlanWithAI.
  unfold mbind, Eff_bind, emit. cbn beta iota. rewrite Hc.
  destruct content as [|c content]; [congruence|].
  cbn [str_truthy negb default id]. rewrite Hp, Hd.
  cbn [days_truthy Array_isArray negb orb].
  fold (calorieMap prefs profile (clock env)).
  destruct (reconcileDays _ _ ds); reflexivity.
Qed.

(** The same lemma for an array whose first seven entries are objects. *)
Lemma generateMealPlanWithAI_objects (env : Env) (prefs : FoodPreferences)
    (profile : UserProfile) (w : World) (content : string) (doc : AiPlan)
    (ds : list (option MealPlanDay)) :
  planCompletion env = CompletionContent (Some content) ->
  content <> EmptyString ->
  JSON_parse env content = ParsedValue doc ->
  days doc = DaysArray ds ->
  (forall i : nat, (i < 7)%nat -> ds !! i <> Some None) ->
  exists ds' : list (option MealPlanDay),
    generateMealPlanWithAI env prefs profile w =
      (Ok {| days := DaysArray ds'; otherFields := otherFields doc |},
       {| usedImageUrls := usedImageUrls w; trace := trace w ++ [EvPlanRequest] |}) /\
    length ds' = length ds /\
    forall i : nat,
      ds' !! i = (fun entry => reconcileDay (getCurrentWeekDates (clock env))
                                 (calorieMap prefs profile (clock env)) i <$> entry)
                 <$> ds !! i.
Proof.
  intros Hc Hne Hp Hd Hobj.
  rewrite (generateMealPlanWithAI_array _ _ _ _ _ _ _ Hc Hne Hp Hd).
  destruct (reconcileFrom_returns (getCurrentWeekDates (clock env))
              (calorieMap prefs profile (clock env)) ds 0) as [ds' Hds'].
  { intros i Hi. cbn [Nat.add]. rewrite getCurrentWeekDates_lookup.
    case_decide as Hlt; [|reflexivity]. exfalso. exact (Hobj i Hlt Hi). }
  unfold reconcileDays. rewrite Hds'. exists ds'. split; [reflexivity|].
  exact (reconcileFrom_Ok _ _ _ _ _ Hds').
Qed.

Lemma reconcileDay_in_week (clock : Clock) (eff : gmap string Z) (i : nat)
    (day : MealPlanDay) :
  (i < 7)%nat ->
  let dateStr := toISODate (weekDate clock i) in
  let day' := reconcileDay (getCurrentWeekDates clock) eff i day in
  date day' = Some dateStr /\
  daily_calorie_target day' =
    (if num_truthy (eff !! dateStr) then eff !! dateStr else daily_calorie_target day) /\
  isCheatDay day' = isCheatDay day /\ meals day' = meals day.
Proof.
  intros Hi. unfold reconcileDay. rewrite getCurrentWeekDates_lookup.
  case_decide; [|lia]. cbv zeta.
  destruct (num_truthy _); repeat split; reflexivity.
Qed.

Lemma reconcileDay_past_week (clock : Clock) (eff : gmap string Z) (i : nat)
    (day : MealPlanDay) :
  (7 <= i)%nat -> reconcileDay (getCurrentWeekDates clock) eff i day = day.
Proof.
  intros Hi. unfold reconcileDay. rewrite getCurrentWeekDates_lookup.
  case_decide; [lia|reflexivity].
Qed.

(** C9, as the specification words it, fails: with a goal of 2000 and one
    cheat day of 14000 kcal the derived target of the other dates is
    round(0 / 6) = 0; the first provider day, which asked for 1800 kcal,
    gets the date 2025-01-01 but keeps its 1800. *)
Lemma reconciliation_keeps_target_when_derived_is_zero :
  calorieMap budgetCheatDay profile2000 day2025 !! "2025-01-01"%string = Some 0 /\
  (generateMealPlanWithAI (answering (documentOf (DaysArray [Some providerDay])))
     budgetCheatDay profile2000 emptyWorld).1 =
    Ok (documentOf (DaysArray
          [ Some {| date := Some "2025-01-01"%string; daily_calorie_target := Some 1800;
                    isCheatDay := false; meals := None |} ])).
Proof. split; vm_compute; reflexivity. Qed.

(** C9, amended. When the provider returns a document whose [days] is an
    array with objects as its first seven entries, every day at an index
    below 7 gets the date at that index of the computed week, whatever
    the day holds, and its calorie target is replaced by the derived
    target of that date when this target is not zero; when it is zero
    the generated target stays. The cheat-day flag and the meals are
    kept, and entries from index 7 on are returned unchanged. When one
    of the first seven entries is [null], the stage throws. *)
Theorem days_reconciled_by_position
    (env : Env) (prefs : FoodPreferences) (profile : UserProfile) (w : World)
    (content : string) (doc : AiPlan) (ds : list (option MealPlanDay)) :
  planCompletion env = CompletionContent (Some content) ->
  content <> EmptyString ->
  JSON_parse env content = ParsedValue doc ->
  days doc = DaysArray ds ->
  ((forall i : nat, (i < 7)%nat -> ds !! i <> Some None) ->
   exists (ds' : list (option MealPlanDay)) (w' : World),
     generateMealPlanWithAI env prefs profile w =
       (Ok {| days := DaysArray ds'; otherFields := otherFields doc |}, w') /\
     length ds' = length ds /\
     (forall i : nat, ds !! i = Some None -> ds' !! i = Some None) /\
     forall (i : nat) (day : MealPlanDay),
       ds !! i = Some (Some day) ->
       exists day' : MealPlanDay,
         ds' !! i = Some (Some day') /\
         isCheatDay day' = isCheatDay day /\ meals day' = meals day /\
         if decide (i < 7)%nat
         then
           let dateStr := toISODate (weekDate (clock env) i) in
           let v := derivedTarget prefs (goalCalories profile) dateStr in
           date day' = Some dateStr /\
           daily_calorie_target day' =
             (if decide (v = 0) then daily_calorie_target day else Some v)
         else day' = day) /\
  (forall i : nat,
     (i < 7)%nat -> ds !! i = Some None ->
     exists w' : World,
       generateMealPlanWithAI env prefs profile w =
         (Throw "Cannot set properties of null (setting 'date')"%string, w')).
Proof.
  intros Hc Hne Hp Hd. split.
  - intros Hobj.
    destruct (generateMealPlanWithAI_objects env prefs profile w content doc ds
                Hc Hne Hp Hd Hobj) as (ds' & Hrun & Hlen & Hl).
    exists ds'. eexists. split; [exact Hrun|]. split; [exact Hlen|]. split.
    { intros i Hi. rewrite Hl, Hi. reflexivity. }
    intros i day Hi. rewrite Hl, Hi. cbn [fmap option_fmap option_map].
    eexists; split; [reflexivity|].
    case_decide as Hlt.
    + destruct (reconcileDay_in_week (clock env) (calorieMap prefs profile (clock env))
                  i day Hlt) as (Hdate & Htarget & Hcheat & Hmeals).
      repeat split; try assumption.
      rewrite Htarget, calorieMap_lookup
        by (apply elem_of_getCurrentWeekDates; exists i; split; [lia|reflexivity]).
      cbn [num_truthy]. case_decide as Hv.
      * rewrite Hv. reflexivity.
      * assert ((derivedTarget prefs (goalCalories profile)
                   (toISODate (weekDate (clock env) i)) =? 0) = false) as ->
          by (apply Z.eqb_neq; exact Hv).
        reflexivity.
    + rewrite reconcileDay_past_week by lia. repeat split; reflexivity.
  - intros i Hlt Hi.
    rewrite (generateMealPlanWithAI_array _ _ _ _ _ _ _ Hc Hne Hp Hd).
    unfold reconcileDays. rewrite (reconcileFrom_throws _ _ _ 0 i Hi).
    + eexists. reflexivity.
    + cbn [Nat.add]. rewrite getCurrentWeekDates_lookup. case_decide; [eauto|lia].
Qed.

Lemma days_reconciled_by_position_witness :
  (exists (ds' : list (option MealPlanDay)) (w' : World),
     generateMealPlanWithAI (answering (documentOf (DaysArray [Some providerDay])))
       oneCheatDay profile2000 emptyWorld =
       (Ok {| days := DaysArray ds'; otherFields := "" |}, w') /\
     exists day' : MealPlanDay,
       ds' !! 0%nat = Some (Some day') /\
       date day' = Some "2025-01-01"%string /\ daily_calorie_target day' = Some 1833) /\
  (exists w' : World,
     generateMealPlanWithAI (answering (documentOf (DaysArray [Some providerDay; None])))
       oneCheatDay profile2000 emptyWorld =
       (Throw "Cannot set properties of null (setting 'date')"%string, w')).
Proof.
  split.
  - destruct (days_reconciled_by_position
                (answering (documentOf (DaysArray [Some providerDay])))
                oneCheatDay profile2000 emptyWorld "{}"
                (documentOf (DaysArray [Some providerDay])) [Some providerDay]
                eq_refl ltac:(discriminate) eq_refl eq_refl)
      as [Hreturns _].
    destruct Hreturns as (ds' & w' & Hrun & _ & _ & Hdays).
    { intros [|[|i]] _; discriminate. }
    exists ds', w'. split; [exact Hrun|].
    destruct (Hdays 0%nat providerDay eq_refl) as (day' & Hl & _ & _ & Hpos).
    exists day'. split; [exact Hl|].
    cbn [decide] in Hpos. destruct Hpos as [Hdate Htarget].
    split; [exact Hdate|exact Htarget].
  - destruct (days_reconciled_by_position
                (answering (documentOf (DaysArray [Some providerDay; None])))
                oneCheatDay profile2000 emptyWorld "{}"
                (documentOf (DaysArray [Some providerDay; None])) [Some providerDay; None]
                eq_refl ltac:(discriminate) eq_refl eq_refl)
      as [_ Hthrows].
    refine (Hthrows 1%nat _ eq_refl). lia.
Defined.

(** C10. Zero is dropped at both truthiness tests of the calorie path.
    A date of the week whose listed override is 0 gets the normal-day
    value of the derivation, not 0. And when the derived target of the
    date at an index below 7 is 0, reconciliation writes the date of that
    index into the provider's day and leaves the day's own calorie target
    as generated: so does the body of the loop on every day object, and
    so comes the day back from the stage when the first seven entries of
    the array are objects. *)
Theorem zero_calories_dropped :
  (forall (prefs : FoodPreferences) (profile : UserProfile) (clock : Clock) (d : Z)
          (cds : list CheatDay),
      d ∈ getCurrentWeekDates clock ->
      cheatDays prefs = Some cds ->
      overrideFor cds (toISODate d) = Some 0 ->
      calorieMap prefs profile clock !! toISODate d =
        Some (normalDayCalories (goalCalories profile) cds)) /\
  (forall (env : Env) (prefs : FoodPreferences) (profile : UserProfile) (w : World)
          (content : string) (doc : AiPlan) (ds : list (option MealPlanDay))
          (i : nat) (day : MealPlanDay),
      planCompletion env = CompletionContent (Some content) ->
      content <> EmptyString ->
      JSON_parse env content = ParsedValue doc ->
      days doc = DaysArray ds ->
      (forall j : nat, (j < 7)%nat -> ds !! j <> Some None) ->
      ds !! i = Some (Some day) ->
      (i < 7)%nat ->
      calorieMap prefs profile (clock env) !! toISODate (weekDate (clock env) i) = Some 0 ->
      exists (ds' : list (option MealPlanDay)) (w' : World) (day' : MealPlanDay),
        generateMealPlanWithAI env prefs profile w =
          (Ok {| days := DaysArray ds'; otherFields := otherFields doc |}, w') /\
        ds' !! i = Some (Some day') /\
        date day' = Some (toISODate (weekDate (clock env) i)) /\
        daily_calorie_target day' = daily_calorie_target day) /\
  (forall (prefs : FoodPreferences) (profile : UserProfile) (clock : Clock)
          (i : nat) (day : MealPlanDay),
      (i < 7)%nat ->
      calorieMap prefs profile clock !! toISODate (weekDate clock i) = Some 0 ->
      exists day' : MealPlanDay,
        reconcileEntry (getCurrentWeekDates clock) (calorieMap prefs profile clock)
                       i (Some day) = Ok (Some day') /\
        date day' = Some (toISODate (weekDate clock i)) /\
        daily_calorie_target day' = daily_calorie_target day).
Proof.
  split; [|split].
  - intros prefs profile clock d cds Hd Hcds Hzero.
    rewrite calorieMap_lookup by assumption.
    unfold derivedTarget. rewrite Hcds, Hzero.
    destruct cds as [|cd cds]; [discriminate Hzero|].
    case_decide; [reflexivity|lia].
  - intros env prefs profile w content doc ds i day Hc Hne Hp Hd Hobj Hi Hlt Hz.
    destruct (generateMealPlanWithAI_objects env prefs profile w content doc ds
                Hc Hne Hp Hd Hobj) as (ds' & Hrun & _ & Hl).
    exists ds'. eexists _, _. split; [exact Hrun|].
    rewrite Hl, Hi. split; [reflexivity|].
    destruct (reconcileDay_in_week (clock env) (calorieMap prefs profile (clock env))
                i day Hlt) as (Hdate & Htarget & _).
    split; [exact Hdate|]. rewrite Htarget, Hz. reflexivity.
  - intros prefs profile clock i day Hlt Hz.
    eexists. split; [reflexivity|].
    destruct (reconcileDay_in_week clock (calorieMap prefs profile clock)
                i day Hlt) as (Hdate & Htarget & _).
    split; [exact Hdate|]. rewrite Htarget, Hz. reflexivity.
Qed.

Lemma zero_calories_dropped_witness :
  calorieMap zeroCheatDay profile2000 day2025 !! toISODate 20089 = Some 2333 /\
  (exists (ds' : list (option MealPlanDay)) (w' : World) (day' : MealPlanDay),
     generateMealPlanWithAI (answering (documentOf (DaysArray [Some providerDay])))
       budgetCheatDay profile2000 emptyWorld =
       (Ok {| days := DaysArray ds'; otherFields := "" |}, w') /\
     ds' !! 0%nat = Some (Some day') /\
     date day' = Some "2025-01-01"%string /\
     daily_calorie_target day' = Some 1800) /\
  (exists day' : MealPlanDay,
     reconcileEntry (getCurrentWeekDates day2025)
                    (calorieMap budgetCheatDay profile2000 day2025) 0 (Some providerDay)
       = Ok (Some day') /\
     date day' = Some "2025-01-01"%string /\
     daily_calorie_target day' = Some 1800).
Proof.
  destruct zero_calories_dropped as (Ha & Hb & Hc). split; [|split].
  - refine (Ha zeroCheatDay profile2000 day2025 20089 _ _ eq_refl eq_refl).
    apply elem_of_getCurrentWeekDates. exists 0%nat. split; [lia|reflexivity].
  - refine (Hb (answering (documentOf (DaysArray [Some providerDay])))
               budgetCheatDay profile2000 emptyWorld "{}"
               (documentOf (DaysArray [Some providerDay])) [Some providerDay]
               0%nat providerDay
               eq_refl _ eq_refl eq_refl _ eq_refl _ _).
    + discriminate.
    + intros [|[|j]] _; discriminate.
    + lia.
    + vm_compute. reflexivity.
  - refine (Hc budgetCheatDay profile2000 day2025 0%nat providerDay _ _).
    + lia.
    + vm_compute. reflexivity.
Defined.

End Reconciliation.

(** ** The reads of the context and the diet cards *)

Section Collaborators.

Variable env : Env.

(** [fetchUserProfile] never throws: it returns the profile of the reply,
    or [{}], after one read and at most one line at error level. *)
Lemma fetchUserProfile_run (userId : string) (w : World) :
  fetchUserProfile env userId w =
    (Ok (profileOf env),
     {| usedImageUrls := usedImageUrls w;
        trace := trace w ++ [EvProfileRead userId] ++ profileLog env |}).
Proof.
  unfold fetchUserProfile, profileOf, profileLog, try_catch.
  unfold mbind, Eff_bind, emit, mret, Eff_ret, throw. cbn beta iota.
  destruct (profileReply env) as [message|[code|] profile_data].
  - cbn [trace usedImageUrls]. reflexivity.
  - destruct (bool_decide (code = "PGRST116"%string)).
    + reflexivity.
    + cbn [trace usedImageUrls]. rewrite <- app_assoc. reflexivity.
  - reflexivity.
Qed.

(** [generateDietCards] never throws: it returns the cards of the reply,
    or [[]], after one request and at most one line at error level. *)
Lemma generateDietCards_run (w : World) :
  generateDietCards env w =
    (Ok (cardsOf env),
     {| usedImageUrls := usedImageUrls w;
        trace := trace w ++ [EvCardsRequest] ++ cardsLog env |}).
Proof.
  unfold generateDietCards, cardsOf, cardsLog, try_catch.
  unfold mbind, Eff_bind, emit, mret, Eff_ret, throw. cbn beta iota.
  destruct (dietCardsReply env) as [message|cards].
  - cbn [trace usedImageUrls]. rewrite <- app_assoc. reflexivity.
  - reflexivity.
Qed.

Lemma profileLog_lines : Forall (fun e => exists m, e = EvLogError m) (profileLog env).
Proof.
  unfold profileLog. destruct (profileReply env) as [|[code|] ?]; [constructor| |constructor].
  destruct (bool_decide _); repeat constructor. eauto.
Qed.

Lemma cardsLog_lines : Forall (fun e => exists m, e = EvLogError m) (cardsLog env).
Proof.
  unfold cardsLog. destruct (dietCardsReply env); repeat constructor. eauto.
Qed.

(** The start of a pipeline run, up to the request for the plan. *)
Lemma generateMealPlan_start (userId : string) (prefs : FoodPreferences)
    (planId : string) (w : World) :
  generateMealPlan env userId prefs planId w =
    try_catch
      (aiResponse ← generateMealPlanWithAI env prefs (profileOf env);
       aiResponse' ← fetchMealImages env aiResponse;
       cards ← generateDietCards env;
       mret {| plan := aiResponse'; diet_cards := cards |})
      (fun message =>
         _ ← emit (EvLogError "Meal plan generation failed");
         throw message)
      {| usedImageUrls := ∅;
         trace := trace w ++ [EvProfileRead userId] ++ profileLog env
                  ++ [EvHistoryRead userId] |}.
Proof.
  unfold generateMealPlan, try_catch.
  unfold mbind at 1. unfold Eff_bind at 1. unfold clearImageCache, setUsed.
  unfold mbind at 1. unfold Eff_bind at 1. rewrite fetchUserProfile_run.
  unfold mbind at 1. unfold Eff_bind at 1. unfold fetchFoodHistory.
  unfold mbind at 1. unfold Eff_bind at 1. unfold emit at 1. unfold mret at 1, Eff_ret at 1.
  cbn [trace usedImageUrls]. rewrite <- !app_assoc. reflexivity.
Qed.

End Collaborators.

(** ** C5: a faulty reply of the provider fails the job *)

Section ProviderFaults.

(** A faulty reply makes [generateMealPlanWithAI] throw its cause after
    one request, with at most a log line in between. *)
Lemma generateMealPlanWithAI_fault (env : Env) (prefs : FoodPreferences)
    (profile : UserProfile) (w : World) (cause : string) :
  ReplyFault env cause ->
  exists logs : list Event,
    generateMealPlanWithAI env prefs profile w =
      (Throw cause,
       {| usedImageUrls := usedImageUrls w;
          trace := trace w ++ [EvPlanRequest] ++ logs |}) /\
    Forall (fun e => exists m, e = EvLogError m) logs.
Proof.
  intros Hf. unfold generateMealPlanWithAI, mbind, Eff_bind, emit, throw.
  cbn beta iota.
  destruct Hf as [message Hc | content Hc Hnone | content message Hc Hne Hp
                 | content Hc Hne Hp | content doc Hc Hne Hp Hd]; rewrite Hc.
  - exists []. rewrite app_nil_r. split; [reflexivity|constructor].
  - exists []. rewrite app_nil_r. split; [|constructor].
    destruct Hnone as [-> | ->]; reflexivity.
  - exists [EvLogError "Failed to parse OpenAI JSON response"].
    destruct content as [|c content]; [congruence|].
    cbn [str_truthy negb default id]. rewrite Hp. cbn [trace usedImageUrls].
    rewrite <- app_assoc. split; [reflexivity|]. repeat constructor. eauto.
  - exists []. rewrite app_nil_r. split; [|constructor].
    destruct content as [|c content]; [congruence|].
    cbn [str_truthy negb default id]. rewrite Hp. reflexivity.
  - exists []. rewrite app_nil_r. split; [|constructor].
    destruct content as [|c content]; [congruence|].
    cbn [str_truthy negb default id]. rewrite Hp.
    destruct (days doc) as [| | |ds] eqn:E; try reflexivity.
    exfalso. exact (Hd ds eq_refl).
Qed.

Lemma filter_log_lines (p : Event -> bool) (l : list Event) :
  Forall (fun e => exists m, e = EvLogError m) l ->
  (forall m, p (EvLogError m) = false) ->
  List.filter p l = [].
Proof.
  intros Hall Hp. induction Hall as [|e l [m ->] _ IH]; [reflexivity|].
  cbn [List.filter]. rewrite Hp. exact IH.
Qed.

(** C5. When the reply of the provider for the plan is absent, does not
    parse, or parses to a document whose [days] is missing or not an
    array, the job ends in one attempt: after the first heartbeat and the
    two context reads, with the line that a failed read of the profile
    logs between them, the provider is asked once, nothing but log lines
    follows, and the last call reports the job failed with the cause of
    the fault; the artifact is never written and the job is never
    reported completed. *)
Theorem faulty_reply_fails_the_job
    (env : Env) (job : BackgroundJob) (w : World) (cause : string) :
  job_type job = "meal_plan_generation"%string ->
  ReplyFault env cause ->
  exists logs : list Event,
    processJob env job w =
      (Ok tt,
       {| usedImageUrls := ∅;
          trace := trace w
                   ++ [EvHeartbeat (job_id job);
                       EvProfileRead (userId (payload job))]
                   ++ profileLog env
                   ++ [EvHistoryRead (userId (payload job));
                       EvPlanRequest]
                   ++ logs
                   ++ [EvFailJob (job_id job) cause] |}) /\
    Forall (fun e => exists m, e = EvLogError m) logs /\
    List.filter isArtifactWrite (trace (processJob env job w).2) = List.filter isArtifactWrite (trace w) /\
    List.filter isCompletion (trace (processJob env job w).2) = List.filter isCompletion (trace w) /\
    length (List.filter isPlanRequest (trace (processJob env job w).2)) =
      S (length (List.filter isPlanRequest (trace w))).
Proof.
  intros Hty Hf.
  pose proof (fun w0 => generateMealPlanWithAI_fault env
                (userPreferences (payload job)) (profileOf env) w0 cause Hf) as Hgen.
  destruct (Hgen {| usedImageUrls := ∅;
                    trace := (trace w ++ [EvHeartbeat (job_id job)])
                             ++ [EvProfileRead (userId (payload job))]
                             ++ profileLog env
                             ++ [EvHistoryRead (userId (payload job))] |})
    as (logs & Hrun & Hlogs).
  exists (logs ++ [EvLogError "Meal plan generation failed"; EvLogError "Job failed"]).
  assert (Hall : Forall (fun e => exists m, e = EvLogError m)
                   (logs ++ [EvLogError "Meal plan generation failed";
                             EvLogError "Job failed"])).
  { apply Forall_app. split; [assumption|]. repeat constructor; eauto. }
  assert (Heq : processJob env job w =
      (Ok tt,
       {| usedImageUrls := ∅;
          trace := trace w
                   ++ [EvHeartbeat (job_id job);
                       EvProfileRead (userId (payload job))]
                   ++ profileLog env
                   ++ [EvHistoryRead (userId (payload job));
                       EvPlanRequest]
                   ++ (logs ++ [EvLogError "Meal plan generation failed";
                                EvLogError "Job failed"])
                   ++ [EvFailJob (job_id job) cause] |})).
  { unfold processJob, try_catch, updateHeartbeat, markJobFailed.
    unfold mbind at 1. unfold Eff_bind at 1. unfold emit at 1.
    rewrite Hty. rewrite bool_decide_eq_true_2 by reflexivity.
    unfold processMealPlanJob, try_finally.
    unfold mbind at 1. unfold Eff_bind at 1.
    rewrite generateMealPlan_start. unfold try_catch.
    unfold mbind at 1. unfold Eff_bind at 1.
    cbn [trace usedImageUrls]. rewrite Hrun.
    unfold mbind, Eff_bind, emit, mret, Eff_ret, throw. cbn beta iota.
    cbn [trace usedImageUrls]. f_equal. f_equal.
    rewrite <- !app_assoc. reflexivity. }
  split; [exact Heq|]. split; [exact Hall|].
  rewrite Heq. cbn [snd trace]. rewrite !List.filter_app.
  rewrite !(filter_log_lines _ logs Hlogs) by reflexivity.
  rewrite !(filter_log_lines _ (profileLog env) (profileLog_lines env)) by reflexivity.
  repeat split; cbn; rewrite ?app_nil_r; try reflexivity.
  rewrite length_app. cbn. lia.
Qed.

Lemma faulty_reply_fails_the_job_witness :
  exists logs : list Event,
    processJob (answering (documentOf DaysUndefined)) job1 emptyWorld =
      (Ok tt,
       {| usedImageUrls := ∅;
          trace := [EvHeartbeat "job-1"; EvProfileRead "user-1";
                    EvHistoryRead "user-1"; EvPlanRequest]
                   ++ logs
                   ++ [EvFailJob "job-1" "Invalid AI response: missing days array"] |}) /\
    List.filter isArtifactWrite
      (trace (processJob (answering (documentOf DaysUndefined)) job1 emptyWorld).2) = [].
Proof.
  destruct (faulty_reply_fails_the_job (answering (documentOf DaysUndefined)) job1
              emptyWorld "Invalid AI response: missing days array" eq_refl)
    as (logs & Hrun & _ & Hwrite & _).
  - apply (FaultNoDaysArray _ "{}" (documentOf DaysUndefined));
      [reflexivity | discriminate | reflexivity | discriminate].
  - exists logs. split; [exact Hrun | exact Hwrite].
Defined.

End ProviderFaults.

(** ** Loops over the entries of an array *)

Import ImageSpec.

Section Loops.

Context {A : Type}.
Variable body : A -> M A.

Lemma forEachM_cons (x : A) (xs : list A) (w : World) :
  forEachM body (x :: xs) w =
    match body x w with
    | (Ok x', w1) =>
        match forEachM body xs w1 with
        | (Ok xs', w2) => (Ok (x' :: xs'), w2)
        | (Throw message, w2) => (Throw message, w2)
        end
    | (Throw message, w1) => (Throw message, w1)
    end.
Proof.
  cbn [forEachM]. unfold mbind, Eff_bind.
  destruct (body x w) as [[x'|m] w1]; [|reflexivity].
  destruct (forEachM body xs w1) as [[xs'|m] w2]; reflexivity.
Qed.

(** A loop that has returned has gone through every element. *)
Lemma forEachM_chain (post : A -> World -> A -> World -> Prop) :
  (forall x w x' w', body x w = (Ok x', w') -> post x w x' w') ->
  forall xs w xs' w',
    forEachM body xs w = (Ok xs', w') -> chain post xs w xs' w'.
Proof.
  intros Hb xs. induction xs as [|x xs IH]; intros w xs' w'.
  - intros [= <- <-]. constructor.
  - rewrite forEachM_cons.
    destruct (body x w) as [[x'|m] w1] eqn:Hx; [|discriminate].
    destruct (forEachM body xs w1) as [[rest'|m] w2] eqn:Hxs; [|discriminate].
    intros [= <- <-]. econstructor; eauto.
Qed.

(** A loop returns when its body returns on every element, and throws
    when the body throws on one of them. *)
Lemma forEachM_outcome (good : A -> bool) (err : string -> Prop) :
  (forall x w, good x = true -> exists x' w', body x w = (Ok x', w')) ->
  (forall x w, good x = false -> exists m w', body x w = (Throw m, w') /\ err m) ->
  forall xs w,
    if forallb good xs
    then exists xs' w', forEachM body xs w = (Ok xs', w')
    else exists m w', forEachM body xs w = (Throw m, w') /\ err m.
Proof.
  intros Hgood Hbad xs. induction xs as [|x xs IH]; intros w.
  - cbn. eauto.
  - rewrite forEachM_cons. cbn [forallb]. destruct (good x) eqn:Hx; cbn [andb].
    + destruct (Hgood x w Hx) as (x' & w1 & ->). specialize (IH w1).
      destruct (forallb good xs).
      * destruct IH as (xs' & w2 & ->). eauto.
      * destruct IH as (m & w2 & -> & Hm). eauto.
    + destruct (Hbad x w Hx) as (m & w1 & -> & Hm). eauto.
Qed.

(** A body that is a function of the element, on the elements it
    returns on: the loop maps it over an array of such elements. *)
Lemma forEachM_pure (f : A -> A) (good : A -> bool) (xs : list A) (w : World) :
  (forall x, good x = true -> body x w = (Ok (f x), w)) ->
  forallb good xs = true ->
  forEachM body xs w = (Ok (map f xs), w).
Proof.
  intros Hb. induction xs as [|x xs IH]; [reflexivity|].
  cbn [forallb]. intros [Hx Hxs]%andb_true_iff.
  rewrite forEachM_cons, (Hb x Hx), (IH Hxs). reflexivity.
Qed.

(** What every run of the body preserves, every run of the loop
    preserves, whether it returns or throws. *)
Lemma forEachM_invariant (R : World -> World -> Prop) :
  (forall w, R w w) ->
  (forall a b c, R a b -> R b c -> R a c) ->
  (forall x w, R w (body x w).2) ->
  forall xs w, R w (forEachM body xs w).2.
Proof.
  intros Hrefl Htrans Hb xs. induction xs as [|x xs IH]; intros w; [apply Hrefl|].
  rewrite forEachM_cons. specialize (Hb x w).
  destruct (body x w) as [[x'|m] w1]; cbn [snd] in *; [|exact Hb].
  specialize (IH w1).
  destruct (forEachM body xs w1) as [[xs'|m] w2]; cbn [snd] in *; eauto.
Qed.

End Loops.

(** ** C8: without the image-search credential *)

Section NoCredential.

Variable env : Env.
Hypothesis no_key : str_truthy (unsplashAccessKey env) = false.

Lemma getMealImageUrl_no_key (mealName mealType : string)
    (keywords : list string) (w : World) :
  getMealImageUrl env mealName mealType keywords w = (Ok (defaultImageFor mealType), w).
Proof. unfold getMealImageUrl. rewrite no_key. reflexivity. Qed.

Lemma enrichMeal_no_key (day : MealPlanDay) (meal : Meal) (w : World) :
  (if isCheatDay day then enrichCheatMeal env else enrichMeal env) meal w
    = (Ok (withDefaultImage day meal), w).
Proof.
  unfold withDefaultImage, enriched, callType. destruct (isCheatDay day).
  - unfold enrichCheatMeal. destruct (cheatMealSelected meal); [|reflexivity].
    unfold mbind, Eff_bind, try_catch. rewrite getMealImageUrl_no_key. reflexivity.
  - unfold enrichMeal. destruct (mealSelected meal); [|reflexivity].
    unfold mbind, Eff_bind, try_catch. rewrite getMealImageUrl_no_key. reflexivity.
Qed.

Lemma enrichMealEntry_no_key (day : MealPlanDay) (entry : option Meal) (w : World) :
  enrichMealEntry env (isCheatDay day) entry w =
    match entry with
    | Some meal => (Ok (Some (withDefaultImage day meal)), w)
    | None =>
        (Throw (if isCheatDay day
                then "Cannot read properties of null (reading 'type')"
                else "Cannot read properties of null (reading 'name')")%string, w)
    end.
Proof.
  destruct entry as [meal|]; [|reflexivity].
  unfold enrichMealEntry, mbind, Eff_bind. rewrite enrichMeal_no_key. reflexivity.
Qed.

Lemma enrichDay_no_key (day : MealPlanDay) (w : World) :
  allObjects (default [] (meals day)) = true ->
  enrichDay env day w = (Ok (withDefaultImages day), w).
Proof.
  unfold enrichDay, withDefaultImages.
  destruct day as [dt target cheat [ms|]]; cbn [meals isCheatDay date daily_calorie_target];
    [|reflexivity].
  cbn [default id option_map]. intros Hms. unfold mbind, Eff_bind.
  rewrite (forEachM_pure _
             (option_map (withDefaultImage
                {| date := dt; daily_calorie_target := target; isCheatDay := cheat;
                   meals := Some ms |}))
             (fun entry => match entry with Some _ => true | None => false end));
    [reflexivity| |exact Hms].
  intros [meal|] Hgood; [|discriminate].
  exact (enrichMealEntry_no_key
           {| date := dt; daily_calorie_target := target; isCheatDay := cheat;
              meals := Some ms |} (Some meal) w).
Qed.

(** Without the credential the image stage is the pure [defaultPlan] on a
    document without [null] entries. *)
Lemma fetchMealImages_no_key (plan : AiPlan) (w : World) :
  withoutNull plan = true ->
  fetchMealImages env plan w = (Ok (defaultPlan plan), w).
Proof.
  unfold fetchMealImages, defaultPlan, withoutNull.
  destruct (days plan) as [| | |ds]; try reflexivity.
  intros Hds. unfold mbind, Eff_bind.
  rewrite (forEachM_pure _ (option_map withDefaultImages) dayWithoutNull);
    [reflexivity| |exact Hds].
  intros [day|] Hgood; [|discriminate].
  unfold enrichDayEntry, mbind, Eff_bind. rewrite enrichDay_no_key by exact Hgood.
  reflexivity.
Qed.

(** Without the credential the image stage leaves the process state as it
    was, whether it returns or throws. *)
Lemma fetchMealImages_no_key_state (plan : AiPlan) (w : World) :
  (fetchMealImages env plan w).2 = w.
Proof.
  assert (Hmeal : forall day entry v, v = (enrichMealEntry env (isCheatDay day) entry v).2).
  { intros day entry v. rewrite enrichMealEntry_no_key. by destruct entry. }
  assert (Hday : forall entry v, v = (enrichDayEntry env entry v).2).
  { intros [day|] v; [|reflexivity].
    unfold enrichDayEntry, enrichDay, mbind, Eff_bind.
    destruct (meals day) as [ms|]; [|reflexivity].
    pose proof (forEachM_invariant (enrichMealEntry env (isCheatDay day)) eq
                  (fun _ => eq_refl) (fun a b c => @eq_trans _ a b c)
                  (Hmeal day) ms v) as H.
    destruct (forEachM _ ms v) as [[ms'|m] v']; exact H. }
  unfold fetchMealImages. destruct (days plan) as [| | |ds]; try reflexivity.
  unfold mbind, Eff_bind.
  pose proof (forEachM_invariant (enrichDayEntry env) eq
                (fun _ => eq_refl) (fun a b c => @eq_trans _ a b c) Hday ds w) as H.
  destruct (forEachM (enrichDayEntry env) ds w) as [[ds'|m] w']; symmetry; exact H.
Qed.

(** The default image of a meal type: the fixed image of Breakfast,
    Lunch, Dinner and Snack, the member of [Object.prototype] that a type
    names, and the generic image for any other type. *)
Lemma defaultImageFor_cases (mealType : string) :
  defaultImageFor mealType =
    if bool_decide (mealType ∈ objectPrototypeKeys)
    then InheritedMember mealType
    else claimedDefaultImage mealType.
Proof.
  unfold defaultImageFor, defaultImagesByType, claimedDefaultImage.
  destruct (decide (mealType = "Snack"%string)) as [->|H1]; [reflexivity|].
  destruct (decide (mealType = "Dinner"%string)) as [->|H2]; [reflexivity|].
  destruct (decide (mealType = "Lunch"%string)) as [->|H3]; [reflexivity|].
  destruct (decide (mealType = "Breakfast"%string)) as [->|H4]; [reflexivity|].
  rewrite !lookup_insert_ne, lookup_empty by congruence.
  destruct (bool_decide (mealType ∈ objectPrototypeKeys)); [reflexivity|].
  f_equal.
  repeat match goal with
         | |- context [match ?x with _ => _ end] => destruct x; try congruence
         end; reflexivity.
Qed.

Lemma quiet_ret {A : Type} (a : A) : quiet (mret a).
Proof. intros w. reflexivity. Qed.

Lemma quiet_throw {A : Type} (m : string) : quiet (@throw World A m).
Proof. intros w. reflexivity. Qed.

Lemma quiet_emit (e : Event) : isSearch e = false -> quiet (emit e).
Proof.
  intros He w. unfold emit. cbn [snd trace].
  rewrite List.filter_app. cbn [List.filter]. rewrite He. apply app_nil_r.
Qed.

Lemma quiet_setUsed (u : gset string) : quiet (setUsed u).
Proof. intros w. reflexivity. Qed.

Lemma quiet_bind {A B : Type} (m : M A) (f : A -> M B) :
  quiet m -> (forall a, quiet (f a)) -> quiet (m ≫= f).
Proof.
  intros Hm Hf w. unfold mbind, Eff_bind. specialize (Hm w).
  destruct (m w) as [[a|e] w']; cbn [snd] in *.
  - rewrite (Hf a w'). exact Hm.
  - exact Hm.
Qed.

Lemma quiet_try_catch {A : Type} (body : M A) (handler : string -> M A) :
  quiet body -> (forall e, quiet (handler e)) -> quiet (try_catch body handler).
Proof.
  intros Hb Hh w. unfold try_catch. specialize (Hb w).
  destruct (body w) as [[a|e] w']; cbn [snd] in *.
  - exact Hb.
  - rewrite (Hh e w'). exact Hb.
Qed.

Lemma quiet_try_finally {A : Type} (body : M A) (cleanup : M unit) :
  quiet body -> quiet cleanup -> quiet (try_finally body cleanup).
Proof.
  intros Hb Hc w. unfold try_finally. specialize (Hb w).
  destruct (body w) as [r w']. specialize (Hc w').
  destruct (cleanup w') as [[[]|e] w'']; cbn [snd] in *; congruence.
Qed.

Create HintDb quiet.

#[local] Hint Resolve quiet_ret quiet_throw quiet_setUsed quiet_bind
  quiet_try_catch quiet_try_finally : quiet.
#[local] Hint Extern 1 (quiet (emit _)) => apply quiet_emit; reflexivity : quiet.
#[local] Hint Extern 2 (quiet (match ?x with _ => _ end)) => destruct x : quiet.
#[local] Hint Extern 2 (quiet (if ?x then _ else _)) => destruct x : quiet.

Lemma quiet_generateMealPlanWithAI (prefs : FoodPreferences)
    (profile : UserProfile) :
  quiet (generateMealPlanWithAI env prefs profile).
Proof.
  unfold generateMealPlanWithAI. cbv zeta.
  apply quiet_bind; [auto with quiet|]. intros _.
  destruct (planCompletion env) as [m|content]; [auto with quiet|].
  destruct (negb (str_truthy content)); [auto with quiet|].
  destruct (JSON_parse env (default "" content)) as [m| |doc]; [auto with quiet..|].
  destruct (negb (days_truthy (days doc)) || negb (Array_isArray (days doc)));
    [auto with quiet|].
  destruct (days doc); auto with quiet.
Qed.

Lemma quiet_fetchMealImages_no_key (plan : AiPlan) :
  quiet (fetchMealImages env plan).
Proof. intros w. by rewrite fetchMealImages_no_key_state. Qed.

Lemma quiet_processJob_no_key (job : BackgroundJob) :
  quiet (processJob env job).
Proof.
  pose proof quiet_generateMealPlanWithAI as Hgen.
  pose proof quiet_fetchMealImages_no_key as Himg.
  unfold processJob, processMealPlanJob, generateMealPlan, updateHeartbeat,
    markJobCompleted, markJobFailed, sendMealPlanNotification, fetchUserProfile,
    fetchFoodHistory, generateDietCards, clearImageCache.
  auto 20 with quiet.
Qed.

(** Reconciliation keeps an array without [null] entries such an array,
    and returns on it. *)
Lemma reconcileFrom_withoutNull (weekDates : list Z) (eff : gmap string Z)
    (ds : list (option MealPlanDay)) :
  forall k : nat,
    forallb dayWithoutNull ds = true ->
    exists ds', reconcileFrom weekDates eff k ds = Ok ds' /\
                forallb dayWithoutNull ds' = true.
Proof.
  induction ds as [|[day|] ds IH]; intros k; cbn [forallb reconcileFrom reconcileEntry].
  - eauto.
  - intros [Hday Hds]%andb_true_iff. destruct (IH (S k) Hds) as (ds' & -> & Hds').
    eexists. split; [reflexivity|]. cbn [forallb]. rewrite Hds', andb_true_r.
    unfold dayWithoutNull, reconcileDay in *.
    destruct (weekDates !! k); [|exact Hday].
    cbv zeta. destruct (num_truthy _); exact Hday.
  - discriminate.
Qed.



End NoCredential.


(** ** C3: images picked from search results are not repeated *)

Section ImageDedup.

(** A default is one of the five fixed images, or an inherited member. *)
Lemma defaultImageFor_default (mealType : string) :
  (exists url, defaultImageFor mealType = ImageUrl url /\ url ∈ defaultImages) \/
  defaultImageFor mealType = InheritedMember mealType.
Proof.
  unfold defaultImageFor, defaultImagesByType, defaultImages.
  destruct (decide (mealType = "Snack"%string)) as [->|H1];
    [left; eexists; split; [reflexivity|set_solver]|].
  destruct (decide (mealType = "Dinner"%string)) as [->|H2];
    [left; eexists; split; [reflexivity|set_solver]|].
  destruct (decide (mealType = "Lunch"%string)) as [->|H3];
    [left; eexists; split; [reflexivity|set_solver]|].
  destruct (decide (mealType = "Breakfast"%string)) as [->|H4];
    [left; eexists; split; [reflexivity|set_solver]|].
  rewrite !lookup_insert_ne, lookup_empty by congruence.
  destruct (bool_decide _); [by right|].
  left; eexists; split; [reflexivity|set_solver].
Qed.

Lemma firstUnused_Some (used : gset string) (results : list (option string))
    (url : string) :
  firstUnused used results = Some url -> url ∉ used.
Proof.
  induction results as [|[r|] results IH]; cbn [firstUnused]; [discriminate| |exact IH].
  destruct (str_truthy (Some r) && negb (bool_decide (r ∈ used))) eqn:E; [|exact IH].
  intros [= <-]. apply andb_true_iff in E as [_ E].
  apply negb_true_iff, bool_decide_eq_false in E. exact E.
Qed.

(** What one call of [getMealImageUrl] does to the set: it returns the
    default and leaves the set alone, or returns an image that was not in
    the set and adds it. It never throws. *)
Lemma getMealImageUrl_pick (env : Env) (mealName mealType : string)
    (keywords : list string) (w : World) :
  exists (value : ImageValue) (w' : World),
    getMealImageUrl env mealName mealType keywords w = (Ok value, w') /\
    (value = defaultImageFor mealType /\ usedImageUrls w' = usedImageUrls w \/
     exists url, value = ImageUrl url /\
                 (url ∉ usedImageUrls w) /\
                 usedImageUrls w' = {[ url ]} ∪ usedImageUrls w).
Proof.
  unfold getMealImageUrl.
  destruct (negb (str_truthy (unsplashAccessKey env))).
  { eexists _, _. split; [reflexivity|]. left. split; reflexivity. }
  unfold try_catch, searchImage, searchCount, getUsed, setUsed.
  unfold mbind, Eff_bind, emit, mret, Eff_ret, throw. cbn beta iota.
  destruct (unsplash env _ _) as [m|st|results].
  - eexists _, _. split; [reflexivity|]. left. split; reflexivity.
  - eexists _, _. split; [reflexivity|]. left. split; reflexivity.
  - cbn [usedImageUrls].
    destruct (firstUnused (usedImageUrls w) (default [] results)) as [url|] eqn:E.
    + eexists _, _. split; [reflexivity|]. right. exists url.
      split; [reflexivity|]. split; [by apply firstUnused_Some in E|reflexivity].
    + eexists _, _. split; [reflexivity|]. left. split; reflexivity.
Qed.

Lemma forEachM_picksFresh {A : Type} (body : A -> M A) (img : A -> list string) :
  picksFresh body img ->
  picksFresh (forEachM body) (fun xs => concat (map img xs)).
Proof.
  intros Hb xs. induction xs as [|x xs IH]; intros xs' w w'.
  - intros [= <- <-]. split; [reflexivity|].
    split; [constructor|]. intros u Hu. by apply elem_of_nil in Hu.
  - rewrite forEachM_cons.
    destruct (body x w) as [[x'|m] w1] eqn:Hx; [|discriminate].
    destruct (forEachM body xs w1) as [[rest'|m] w2] eqn:Hxs; [|discriminate].
    intros [= <- <-].
    destruct (Hb x x' w w1 Hx) as (Hsub1 & Hnd1 & Hin1).
    destruct (IH rest' w1 w2 Hxs) as (Hsub2 & Hnd2 & Hin2).
    split; [etrans; eassumption|].
    cbn [map concat]. unfold searched in *. rewrite filter_app.
    split.
    + apply NoDup_app. split; [exact Hnd1|]. split; [|exact Hnd2].
      intros u Hu1 Hu2. apply Hin1 in Hu1. apply Hin2 in Hu2. tauto.
    + intros u [Hu|Hu]%elem_of_app.
      * apply Hin1 in Hu as [Hu Hnew]. split; [|exact Hnew]. by apply Hsub2.
      * apply Hin2 in Hu as [Hu Hnew]. split; [exact Hu|].
        intros Hold. apply Hnew. by apply Hsub1.
Qed.

Lemma searched_singleton_cases (url : string) :
  (url ∈ defaultImages /\ searched [url] = []) \/
  ((url ∉ defaultImages) /\ searched [url] = [url]).
Proof.
  unfold searched. destruct (decide (url ∈ defaultImages)) as [H|H].
  - left. split; [exact H|]. rewrite filter_cons_False; [reflexivity|]. tauto.
  - right. split; [exact H|]. by rewrite filter_cons_True.
Qed.

Lemma nothing_fresh (w w' : World) :
  usedImageUrls w ⊆ usedImageUrls w' ->
  usedImageUrls w ⊆ usedImageUrls w' /\
  NoDup (searched []) /\
  forall u, u ∈ searched [] -> u ∈ usedImageUrls w' /\ u ∉ usedImageUrls w.
Proof.
  intros H. split; [exact H|]. split; [constructor|].
  intros u Hu. by apply elem_of_nil in Hu.
Qed.

(** The image given to one meal. *)
Lemma assign_fresh (mealType : string) (meal : Meal) (value : ImageValue) (w w' : World) :
  (value = defaultImageFor mealType /\ usedImageUrls w' = usedImageUrls w \/
   exists url, value = ImageUrl url /\
               (url ∉ usedImageUrls w) /\
               usedImageUrls w' = {[ url ]} ∪ usedImageUrls w) ->
  usedImageUrls w ⊆ usedImageUrls w' /\
  NoDup (searched (imageUrlOf (withImage meal value))) /\
  forall u, u ∈ searched (imageUrlOf (withImage meal value)) ->
            u ∈ usedImageUrls w' /\ u ∉ usedImageUrls w.
Proof.
  unfold imageUrlOf. cbn [image withImage].
  intros [[-> Hw]|(url & -> & Hnew & Hw)].
  - destruct (defaultImageFor_default mealType) as [(url & -> & Hd)| ->].
    + rewrite Hw. destruct (searched_singleton_cases url) as [[_ ->]|[Hn _]]; [|tauto].
      by apply nothing_fresh.
    + rewrite Hw. by apply nothing_fresh.
  - assert (Hsub : usedImageUrls w ⊆ usedImageUrls w')
      by (rewrite Hw; apply union_subseteq_r).
    destruct (searched_singleton_cases url) as [[_ ->]|[_ ->]];
      [by apply nothing_fresh|].
    split; [exact Hsub|]. split; [apply NoDup_singleton|].
    intros u ->%list_elem_of_singleton. split; [|exact Hnew].
    rewrite Hw. apply elem_of_union_l, elem_of_singleton. reflexivity.
Qed.

Lemma enrichMeal_picksFresh (env : Env) (day : MealPlanDay) :
  picksFresh (if isCheatDay day then enrichCheatMeal env else enrichMeal env)
             (assignedTo day).
Proof.
  intros meal meal' w w'. unfold assignedTo, enriched.
  destruct (isCheatDay day).
  - unfold enrichCheatMeal. destruct (cheatMealSelected meal) eqn:E.
    + destruct (getMealImageUrl_pick env "Celebration feast gourmet" "Cheat Meal"
                  ["celebration"; "feast"; "indulgent food"]%string w)
        as (value & w1 & Hrun & Hpick).
      unfold mbind, Eff_bind, try_catch. rewrite Hrun. intros [= <- <-].
      change (cheatMealSelected (withImage meal value)) with (cheatMealSelected meal).
      rewrite E. by eapply assign_fresh.
    + intros [= <- <-]. rewrite E. by apply nothing_fresh.
  - unfold enrichMeal. destruct (mealSelected meal) eqn:E.
    + destruct (getMealImageUrl_pick env (default ""%string (name meal))
                  (default ""%string (type meal))
                  (default [] (image_search_keywords meal)) w)
        as (value & w1 & Hrun & Hpick).
      unfold mbind, Eff_bind, try_catch. rewrite Hrun. intros [= <- <-].
      change (mealSelected (withImage meal value)) with (mealSelected meal).
      rewrite E. by eapply assign_fresh.
    + intros [= <- <-]. rewrite E. by apply nothing_fresh.
Qed.

Lemma enrichMealEntry_picksFresh (env : Env) (day : MealPlanDay) :
  picksFresh (enrichMealEntry env (isCheatDay day)) (from_option (assignedTo day) []).
Proof.
  intros [meal|] entry' w w'; [|discriminate].
  unfold enrichMealEntry, mbind, Eff_bind.
  destruct ((if isCheatDay day then enrichCheatMeal env else enrichMeal env) meal w)
    as [[meal'|m] w1] eqn:Hrun; [|discriminate].
  intros [= <- <-]. exact (enrichMeal_picksFresh env day meal meal' w w1 Hrun).
Qed.

Lemma concat_from_option {A B : Type} (f : A -> list B) (entries : list (option A)) :
  concat (map (from_option f []) entries) = concat (map f (objectsOf entries)).
Proof.
  unfold objectsOf. induction entries as [|[x|] entries IH]; [reflexivity| |exact IH].
  cbn [map concat omap list_omap from_option id]. by rewrite IH.
Qed.

Lemma enrichDay_picksFresh (env : Env) : picksFresh (enrichDay env) assignedInDay.
Proof.
  intros day day' w w'. unfold enrichDay, assignedInDay.
  destruct (meals day) as [ms|] eqn:Hms.
  - unfold mbind, Eff_bind.
    destruct (forEachM (enrichMealEntry env (isCheatDay day)) ms w)
      as [[ms'|m] w1] eqn:Hrun; [|discriminate].
    intros [= <- <-]. cbn [meals default id].
    rewrite <- (concat_from_option
                  (assignedTo {| date := date day;
                                 daily_calorie_target := daily_calorie_target day;
                                 isCheatDay := isCheatDay day; meals := Some ms' |})).
    exact (forEachM_picksFresh _ _ (enrichMealEntry_picksFresh env day) ms ms' w w1 Hrun).
  - intros [= <- <-]. rewrite Hms. by apply nothing_fresh.
Qed.

Lemma enrichDayEntry_picksFresh (env : Env) :
  picksFresh (enrichDayEntry env) (from_option assignedInDay []).
Proof.
  intros [day|] entry' w w'; [|discriminate].
  unfold enrichDayEntry, mbind, Eff_bind.
  destruct (enrichDay env day w) as [[day'|m] w1] eqn:Hrun; [|discriminate].
  intros [= <- <-]. exact (enrichDay_picksFresh env day day' w w1 Hrun).
Qed.

(** The image stage keeps the images it picks from search results
    fresh. *)
Lemma fetchMealImages_picksFresh (env : Env) :
  picksFresh (fetchMealImages env) assignedImages.
Proof.
  intros plan plan' w w'. unfold fetchMealImages, assignedImages.
  destruct (days plan) as [| | |ds] eqn:Hd;
    try (intros [= <- <-]; rewrite Hd; by apply nothing_fresh).
  unfold mbind, Eff_bind.
  destruct (forEachM (enrichDayEntry env) ds w) as [[ds'|m] w1] eqn:Hrun; [|discriminate].
  intros [= <- <-]. cbn [days]. rewrite <- concat_from_option.
  exact (forEachM_picksFresh _ _ (enrichDayEntry_picksFresh env) ds ds' w w1 Hrun).
Qed.

(** C3, as the specification words it, fails: with a configured
    credential and a search that finds nothing, the two breakfasts of a
    day both get the default breakfast image. *)
Lemma fallback_images_repeat :
  exists result : MealPlanResult,
    (generateMealPlan (searchingNothing (documentOf (DaysArray [Some twoBreakfasts])))
       "user-1" oneCheatDay "plan-1" emptyWorld).1 = Ok result /\
    assignedImages (plan result) = [breakfastImage; breakfastImage] /\
    ~ NoDup (assignedImages (plan result)).
Proof.
  eexists. split; [vm_compute; reflexivity|].
  assert (Hl : forall a b : list string, a = b -> ~ NoDup b -> a = b /\ ~ NoDup a)
    by (intros a b -> Hb; tauto).
  apply Hl; [vm_compute; reflexivity|].
  intros H. apply NoDup_cons in H as [H _]. apply H. apply list_elem_of_here.
Qed.

(** C3, amended. In a pipeline run that returns a plan, the images the
    image stage took from search results are pairwise distinct, also when
    meal names repeat: among the images assigned to the meals of the plan,
    an image held by two meals is one of the five fixed default images of
    the degrade path. (The run is taken as a whole: no other run clears or
    fills the image set while it executes.) *)
Theorem search_picked_images_distinct
    (env : Env) (userId : string) (prefs : FoodPreferences) (planId : string)
    (w w' : World) (result : MealPlanResult) :
  generateMealPlan env userId prefs planId w = (Ok result, w') ->
  NoDup (searched (assignedImages (plan result))).
Proof.
  rewrite generateMealPlan_start. unfold try_catch.
  unfold mbind at 1. unfold Eff_bind at 1.
  match goal with
  | |- context [generateMealPlanWithAI env prefs ?p ?w0] =>
      destruct (generateMealPlanWithAI env prefs p w0) as [[ai|e] w1]
  end; [|discriminate].
  unfold mbind at 1. unfold Eff_bind at 1.
  destruct (fetchMealImages env ai w1) as [[plan'|e] w2] eqn:Hrun; [|discriminate].
  unfold mbind at 1. unfold Eff_bind at 1. rewrite generateDietCards_run.
  intros [= <- _]. cbn [plan].
  exact (proj1 (proj2 (fetchMealImages_picksFresh env ai plan' w1 w2 Hrun))).
Qed.

Lemma search_picked_images_distinct_witness :
  exists (result : MealPlanResult) (w' : World),
    generateMealPlan
      (searchingFinds ["https://images.example/1"; "https://images.example/2"]%string
         (documentOf (DaysArray [Some twoBreakfasts])))
      "user-1" oneCheatDay "plan-1" emptyWorld = (Ok result, w') /\
    assignedImages (plan result) =
      ["https://images.example/1"; "https://images.example/2"]%string /\
    NoDup (searched (assignedImages (plan result))).
Proof.
  assert (Hrun : exists (result : MealPlanResult) (w' : World),
    generateMealPlan
      (searchingFinds ["https://images.example/1"; "https://images.example/2"]%string
         (documentOf (DaysArray [Some twoBreakfasts])))
      "user-1" oneCheatDay "plan-1" emptyWorld = (Ok result, w') /\
    assignedImages (plan result) =
      ["https://images.example/1"; "https://images.example/2"]%string).
  { eexists _, _. split; vm_compute; reflexivity. }
  destruct Hrun as (result & w' & Hrun & Himgs).
  exists result, w'. split; [exact Hrun|]. split; [exact Himgs|].
  exact (search_picked_images_distinct _ _ _ _ _ _ _ Hrun).
Defined.

End ImageDedup.

(** ** C4: the image set is one per process *)

Section SharedImageSet.

(** C4 does not hold of the code: [usedImageUrls] is one module-level set,
    cleared when any run starts. On its own, job B gets the image the
    search finds. When job A has picked that image after both jobs
    started, job B is given the default breakfast image instead: the image
    used by A suppresses the choice of B. And when job B starts between
    two picks of job A, it clears what A has recorded, and A gives the same
    image to two of its meals. *)
Theorem image_set_shared_between_jobs :
  (jobB_alone emptyWorld).1 = Ok (ImageUrl oatsImage) /\
  (jobB_after_jobA_picked emptyWorld).1 = Ok (ImageUrl breakfastImage) /\
  (jobA_around_jobB_start emptyWorld).1 = Ok (ImageUrl oatsImage, ImageUrl oatsImage).
Proof. repeat split; vm_compute; reflexivity. Qed.

End SharedImageSet.

(** ** C6 and C7: the polling loop *)

Section PollingLoop.

Variable cfg : WorkerConfig.

Lemma cleanUp_keeps (s : Sched) : cleanUp s = (Ok tt, s).
Proof.
  unfold cleanUp, withJobs. destruct s as [jobs down l n lg].
  cbn [activeJobs isShuttingDown loop dispatched slog]. do 2 f_equal.
  assert (H : forall l0 : list (string * Promise),
             filter (fun e : string * Promise => isUndefined e.2) l0 = []).
  { induction l0 as [|e l0 IH]; [reflexivity|].
    rewrite filter_cons_False; [exact IH|]. exact id. }
  rewrite H. reflexivity.
Qed.

(** The state after the top of an iteration. *)
Lemma loopHead_state (s : Sched) :
  run (loopHead cfg) s =
    if isShuttingDown s
    then {| activeJobs := activeJobs s; isShuttingDown := true; loop := Stopped;
            dispatched := dispatched s; slog := slog s |}
    else if slots s <? maxConcurrentJobs cfg
    then {| activeJobs := activeJobs s; isShuttingDown := false; loop := AwaitingClaim;
            dispatched := dispatched s; slog := slog s ++ [LogClaim (workerId cfg)] |}
    else {| activeJobs := activeJobs s; isShuttingDown := false;
            loop := Sleeping (pollIntervalMs cfg);
            dispatched := dispatched s;
            slog := slog s ++ [LogSleep (pollIntervalMs cfg)] |}.
Proof.
  unfold run, loopHead, getSched, mbind, Eff_bind. cbn beta iota.
  destruct s as [jobs down l n lg]. cbn [isShuttingDown activeJobs].
  destruct down; [reflexivity|].
  unfold slots. cbn [activeJobs].
  unfold try_catch. destruct (Z.of_nat (size jobs) <? maxConcurrentJobs cfg).
  - reflexivity.
  - unfold mbind, Eff_bind. rewrite cleanUp_keeps. reflexivity.
Qed.

(** The state after the reply of a claim: what the reply adds to the log
    and to the slots, then the sleep of one poll interval. *)
Lemma loopAfterClaim_state (reply : ClaimReply) (s : Sched) :
  run (loopAfterClaim cfg reply) s =
    {| activeJobs := match claimedJob reply with
                     | Some j => <[job_id j := dispatched s]> (activeJobs s)
                     | None => activeJobs s
                     end;
       isShuttingDown := isShuttingDown s;
       loop := Sleeping (pollIntervalMs cfg);
       dispatched := match claimedJob reply with
                     | Some _ => S (dispatched s)
                     | None => dispatched s
                     end;
       slog := slog s
               ++ match reply with
                  | RpcThrows _ => [LogError "Exception getting next job"]
                  | RpcError _ => [LogError "Error getting next job"]
                  | RpcData _ =>
                      match claimedJob reply with
                      | Some j => [LogDispatch (job_id j)]
                      | None => []
                      end
                  end
               ++ [LogSleep (pollIntervalMs cfg)] |}.
Proof.
  unfold run, loopAfterClaim, try_catch, getNextJob, try_catch.
  destruct s as [jobs down l n lg].
  destruct reply as [m|m|[[|j rest]|]];
    unfold mbind, Eff_bind, throw, logS, mret, Eff_ret, newPromise, withJobs, sleep, setLoop;
    cbn beta iota;
    cbn [activeJobs isShuttingDown loop dispatched slog claimedJob];
    rewrite cleanUp_keeps;
    unfold mbind, Eff_bind, logS, setLoop; cbn beta iota;
    cbn [activeJobs isShuttingDown loop dispatched slog snd];
    rewrite <- ?app_assoc, ?app_nil_r; reflexivity.
Qed.

Lemma onSettled_state (jobId : string) (rejected : bool) (s : Sched) :
  activeJobs (run (onSettled jobId rejected) s) = delete jobId (activeJobs s) /\
  loop (run (onSettled jobId rejected) s) = loop s /\
  isShuttingDown (run (onSettled jobId rejected) s) = isShuttingDown s.
Proof. destruct s, rejected; repeat split; reflexivity. Qed.

Lemma slots_insert (s : Sched) (k : string) (v : Promise) :
  Z.of_nat (size (<[k := v]> (activeJobs s))) <= slots s + 1.
Proof.
  unfold slots. destruct (activeJobs s !! k) eqn:E.
  - rewrite map_size_insert_Some by eauto. lia.
  - rewrite map_size_insert_None by assumption. lia.
Qed.

Lemma slots_delete (s : Sched) (k : string) :
  Z.of_nat (size (delete k (activeJobs s))) <= slots s.
Proof.
  unfold slots. destruct (activeJobs s !! k) eqn:E.
  - rewrite map_size_delete_Some by eauto. lia.
  - rewrite map_size_delete_None by assumption. lia.
Qed.

Lemma step_bounded (s : Sched) (ev : SchedEvent) :
  bounded cfg s -> bounded cfg (step cfg s ev).
Proof.
  intros Hb. pose proof Hb as [Hle Hclaim]. unfold step.
  destruct ev as [|reply|jobId rejected|].
  - destruct (loop s) eqn:El; try exact Hb.
    rewrite loopHead_state.
    destruct (isShuttingDown s); [split; [exact Hle|discriminate]|].
    destruct (slots s <? maxConcurrentJobs cfg) eqn:E.
    + apply Z.ltb_lt in E. split; [exact Hle|]. intros _. exact E.
    + split; [exact Hle|discriminate].
  - destruct (loop s) eqn:El; try exact Hb.
    rewrite loopAfterClaim_state. specialize (Hclaim eq_refl).
    split; [|discriminate].
    destruct (claimedJob reply) as [j|]; [|exact Hle].
    eapply Z.le_trans; [apply (slots_insert s (job_id j) (dispatched s))|lia].
  - destruct (onSettled_state jobId rejected s) as (Hjobs & Hloop & _).
    pose proof (slots_delete s jobId) as Hdel.
    assert (Hs : slots (run (onSettled jobId rejected) s) <= slots s)
      by (unfold slots at 1; rewrite Hjobs; exact Hdel).
    unfold bounded. rewrite Hloop.
    split; [lia|]. intros Ha. specialize (Hclaim Ha). lia.
  - exact Hb.
Qed.

Lemma exec_bounded (evs : list SchedEvent) (s : Sched) :
  bounded cfg s -> bounded cfg (exec cfg evs s).
Proof.
  revert s. induction evs as [|ev evs IH]; intros s Hs; [exact Hs|].
  apply IH, step_bounded, Hs.
Qed.

(** C6. For every concurrency limit of at least 1, in every state the
    processor reaches from its start, whatever the timers, claim replies,
    settlements and signals that occur, the in-flight slots are at most
    the limit. When a claim returns a job, the slot of that job is in the
    map by the time the loop goes to sleep, before it polls again; and
    when an execution settles, fulfilled or rejected, its slot is gone. *)
Theorem in_flight_slots_bounded :
  1 <= maxConcurrentJobs cfg ->
  (forall evs : list SchedEvent,
      slots (exec cfg evs initial) <= maxConcurrentJobs cfg) /\
  (forall (s : Sched) (job : BackgroundJob) (rest : list BackgroundJob),
      loop s = AwaitingClaim ->
      is_Some (activeJobs (step cfg s (ClaimReturns (RpcData (Some (job :: rest)))))
                 !! job_id job) /\
      loop (step cfg s (ClaimReturns (RpcData (Some (job :: rest)))))
        = Sleeping (pollIntervalMs cfg)) /\
  (forall (s : Sched) (jobId : string) (rejected : bool),
      activeJobs (step cfg s (JobSettles jobId rejected)) !! jobId = None).
Proof.
  intros Hlimit. split; [|split].
  - intros evs. apply exec_bounded. split.
    + change (slots initial) with 0. lia.
    + discriminate.
  - intros s job rest Hl. unfold step. rewrite Hl, loopAfterClaim_state.
    cbn [claimedJob activeJobs loop]. split; [|reflexivity].
    rewrite lookup_insert_eq. eauto.
  - intros s jobId rejected.
    assert (Hstep : step cfg s (JobSettles jobId rejected)
                    = run (onSettled jobId rejected) s)
      by (unfold step; destruct (loop s); reflexivity).
    rewrite Hstep. destruct (onSettled_state jobId rejected s) as (-> & _).
    apply lookup_delete_eq.
Qed.

(** One polling cycle whose claim throws, from a sleeping loop with a
    slot to spare: a claim, the error line, the sleep of one interval. *)
Lemma failedCycle_state (s : Sched) (message : string) (ms : Z) :
  loop s = Sleeping ms ->
  isShuttingDown s = false ->
  slots s < maxConcurrentJobs cfg ->
  exec cfg (failedCycle message) s =
    {| activeJobs := activeJobs s; isShuttingDown := false;
       loop := Sleeping (pollIntervalMs cfg); dispatched := dispatched s;
       slog := slog s ++ [LogClaim (workerId cfg);
                          LogError "Exception getting next job";
                          LogSleep (pollIntervalMs cfg)] |}.
Proof.
  intros Hl Hdown Hfree. unfold exec, failedCycle. cbn [fold_left].
  unfold step at 2. rewrite Hl, loopHead_state, Hdown.
  apply Z.ltb_lt in Hfree. rewrite Hfree.
  unfold step. cbn [loop]. rewrite loopAfterClaim_state.
  cbn [claimedJob activeJobs isShuttingDown dispatched slog].
  rewrite <- app_assoc. reflexivity.
Qed.

Lemma failedCycles_state (messages : list string)
    (s : Sched) (ms : Z) :
  loop s = Sleeping ms ->
  isShuttingDown s = false ->
  slots s < maxConcurrentJobs cfg ->
  let sn := exec cfg (concat (map failedCycle messages)) s in
  (exists ms', loop sn = Sleeping ms') /\
  isShuttingDown sn = false /\
  activeJobs sn = activeJobs s /\
  length (List.filter isClaim (slog sn)) =
    (length (List.filter isClaim (slog s)) + length messages)%nat.
Proof.
  revert s ms. induction messages as [|m messages IH]; intros s ms Hl Hdown Hfree.
  - cbn. rewrite Hl. repeat split; eauto.
  - cbn [map concat]. unfold exec. rewrite fold_left_app.
    fold (exec cfg (failedCycle m) s).
    fold (exec cfg (concat (map failedCycle messages)) (exec cfg (failedCycle m) s)).
    rewrite (failedCycle_state s m ms Hl Hdown Hfree).
    match goal with
    | |- context [exec cfg _ ?st] => set (s1 := st)
    end.
    destruct (IH s1 (pollIntervalMs cfg) eq_refl eq_refl Hfree)
      as (Hl' & Hdown' & Hjobs' & Hclaims').
    cbv zeta. split; [exact Hl'|]. split; [exact Hdown'|]. split; [exact Hjobs'|].
    rewrite Hclaims'. subst s1. cbn [slog]. rewrite List.filter_app, length_app.
    cbn. lia.
Qed.

(** C7, amended. When a claim fails, by a thrown error or by an error in
    the reply, the loop logs the failure and goes on as with an empty
    reply: no slot is added and it sleeps the configured poll interval,
    once, before the next claim. The failure does not stop the loop:
    while no termination signal arrives and a slot is free, any number of
    failing cycles is followed by as many new claims. *)
Theorem claim_failure_polls_again (s : Sched) (reply : ClaimReply) :
  loop s = AwaitingClaim ->
  failedClaim reply = true ->
  let s' := step cfg s (ClaimReturns reply) in
  let idle := step cfg s (ClaimReturns (RpcData None)) in
  (exists line : string,
      slog s' = slog s ++ [LogError line; LogSleep (pollIntervalMs cfg)]) /\
  loop s' = Sleeping (pollIntervalMs cfg) /\
  activeJobs s' = activeJobs s /\
  (loop s', activeJobs s', isShuttingDown s', dispatched s') =
    (loop idle, activeJobs idle, isShuttingDown idle, dispatched idle) /\
  (forall messages : list string,
      isShuttingDown s = false ->
      slots s < maxConcurrentJobs cfg ->
      let sn := exec cfg (concat (map failedCycle messages)) s' in
      (exists ms, loop sn = Sleeping ms) /\
      activeJobs sn = activeJobs s /\
      length (List.filter isClaim (slog sn)) =
        (length (List.filter isClaim (slog s')) + length messages)%nat).
Proof.
  intros Hl Hfail s' idle. subst s' idle. unfold step. rewrite Hl.
  rewrite !loopAfterClaim_state.
  assert (Hnone : claimedJob reply = None) by (destruct reply; [reflexivity..|discriminate]).
  rewrite Hnone. cbn [claimedJob slog loop activeJobs isShuttingDown dispatched].
  split; [|split; [reflexivity|split; [reflexivity|split; [reflexivity|]]]].
  - destruct reply as [m|m|d]; [eexists; reflexivity..|discriminate].
  - intros messages Hdown Hfree.
    edestruct (failedCycles_state messages) as (Hs & _ & Hjobs & Hclaims);
      [| | |split; [exact Hs|split; [exact Hjobs|exact Hclaims]]].
    + reflexivity.
    + exact Hdown.
    + exact Hfree.
Qed.

End PollingLoop.

Lemma in_flight_slots_bounded_witness :
  slots (exec (workerOf 1)
           [TimerFires; ClaimReturns (RpcData (Some [job1])); TimerFires;
            JobSettles "job-1" true; TimerFires; ClaimReturns (RpcData (Some [job2]))]
           initial) <= 1 /\
  is_Some (activeJobs (exec (workerOf 1)
                         [TimerFires; ClaimReturns (RpcData (Some [job1]))] initial)
             !! "job-1"%string).
Proof.
  destruct (in_flight_slots_bounded (workerOf 1)) as (Hbound & Hadd & _).
  - cbn [workerOf maxConcurrentJobs]. lia.
  - split; [apply Hbound|].
    exact (proj1 (Hadd (step (workerOf 1) initial TimerFires) job1 [] eq_refl)).
Defined.

(** C7, as the specification words it, fails: with a poll interval of
    1000 ms, after a claim that throws the loop sleeps 1000 ms, not
    5 × 1000 ms. *)
Lemma claim_failure_waits_one_poll_interval :
  loop (exec (workerOf 3) (failedCycle "fetch failed") initial) = Sleeping 1000 /\
  5 * pollIntervalMs (workerOf 3) = 5000 /\
  loop (exec (workerOf 3) (failedCycle "fetch failed") initial)
    <> Sleeping (5 * pollIntervalMs (workerOf 3)).
Proof.
  assert (H : loop (exec (workerOf 3) (failedCycle "fetch failed") initial)
              = Sleeping 1000) by (vm_compute; reflexivity).
  split; [exact H|]. split; [reflexivity|]. rewrite H. discriminate.
Qed.

Lemma claim_failure_polls_again_witness :
  loop (exec (workerOf 3) (failedCycle "fetch failed") initial) = Sleeping 1000 /\
  activeJobs (exec (workerOf 3) (failedCycle "fetch failed") initial) = ∅ /\
  length (List.filter isClaim
            (slog (exec (workerOf 3)
                     (concat (map failedCycle ["timeout"; "fetch failed"]))
                     (exec (workerOf 3) (failedCycle "fetch failed") initial))))
    = 3%nat.
Proof.
  destruct (claim_failure_polls_again (workerOf 3)
              (step (workerOf 3) initial TimerFires) (RpcThrows "fetch failed")
              eq_refl eq_refl)
    as (_ & Hloop & Hjobs & _ & Hnext).
  split; [exact Hloop|]. split; [exact Hjobs|].
  destruct (Hnext ["timeout"; "fetch failed"]%string eq_refl) as (_ & _ & Hclaims).
  - vm_compute. reflexivity.
  - exact Hclaims.
Defined.

(** * Further properties of the code *)

(** ** The calorie map beyond the claims *)

Section CalorieMapShape.

(** The map has an entry for a string exactly when it is one of the
    printed dates. *)
Lemma calorieMap_lookup_key (prefs : FoodPreferences) (profile : UserProfile)
    (clock : Clock) (k : string) :
  calorieMap prefs profile clock !! k =
    if decide (k ∈ map toISODate (getCurrentWeekDates clock))
    then Some (derivedTarget prefs (goalCalories profile) k)
    else None.
Proof.
  case_decide as Hk.
  - apply list_elem_of_fmap in Hk as (d & -> & Hd). by apply calorieMap_lookup.
  - by apply calorieMap_lookup_None.
Qed.

(** Across the start of summer time the map has six entries. *)
Example calorieMap_week_into_summer_time :
  size (calorieMap marchCheatDay profile2000 londonSpring2025) = 6%nat.
Proof. vm_compute. reflexivity. Qed.

(** The keys of the calorie map are the dates printed for the seven
    local midnights from today on, and nothing else: a cheat day dated
    otherwise adds no entry. The map has seven entries when the seven
    dates differ and lie within the years 0000 to 9999; they differ when
    the zone of the worker is on the same side of UTC at all seven
    midnights. *)
Theorem calorie_map_keys (prefs : FoodPreferences) (profile : UserProfile) (clock : Clock) :
  dom (calorieMap prefs profile clock)
    = list_to_set (map toISODate (getCurrentWeekDates clock)) /\
  (forall cd : CheatDay,
      cd ∈ default [] (cheatDays prefs) ->
      cd_date cd ∉ map toISODate (getCurrentWeekDates clock) ->
      calorieMap prefs profile clock !! cd_date cd = None) /\
  (clock_in_range clock -> NoDup (getCurrentWeekDates clock) ->
   size (calorieMap prefs profile clock) = 7%nat) /\
  (forall side : bool,
      (forall i : nat, (i < 7)%nat ->
         aheadOfUtc clock (localDay clock + Z.of_nat i) = side) ->
      NoDup (getCurrentWeekDates clock)).
Proof.
  assert (Hdom : dom (calorieMap prefs profile clock)
                 = list_to_set (map toISODate (getCurrentWeekDates clock))).
  { apply set_eq. intros k.
    rewrite elem_of_dom, elem_of_list_to_set, calorieMap_lookup_key.
    case_decide; split; intros Hk; try tauto; [eauto | by destruct Hk]. }
  split; [exact Hdom|]. split; [|split].
  - intros cd _ Hout. rewrite calorieMap_lookup_key. case_decide; tauto.
  - intros Hclock Hweek. rewrite <- size_dom, Hdom.
    rewrite size_list_to_set by (by apply weekDates_NoDup).
    rewrite length_map. apply length_getCurrentWeekDates.
  - intros side. apply weekDates_steady.
Qed.

Lemma calorie_map_keys_witness :
  calorieMap farCheatDay profile2000 day2025 !! "2031-05-17"%string = None /\
  size (calorieMap farCheatDay profile2000 day2025) = 7%nat /\
  NoDup (getCurrentWeekDates berlinWinter2025).
Proof.
  destruct (calorie_map_keys farCheatDay profile2000 day2025) as (_ & Hout & Hsize & _).
  destruct (calorie_map_keys farCheatDay profile2000 berlinWinter2025)
    as (_ & _ & _ & Hsteady).
  split; [|split].
  - apply (Hout {| cd_date := "2031-05-17"; cd_calories := 3000 |}).
    + apply list_elem_of_here.
    + vm_compute. intros H. repeat (apply elem_of_cons in H as [H|H]; [discriminate H|]).
      by apply elem_of_nil in H.
  - apply Hsize.
    + unfold clock_in_range, day2025. cbn [localDay]. lia.
    + apply (weekDates_steady day2025 false). reflexivity.
  - apply (Hsteady true). reflexivity.
Defined.

(** The normal-day value is not clamped. With one to six cheat days it is
    within half a unit per normal day of the calories left in the week's
    budget, and it is negative exactly when the cheat days overdraw that
    budget by more than half a unit per normal day. *)
Theorem normal_day_value_not_clamped (goal : Z) (clock : Clock) (cds : list CheatDay) :
  (1 <= length cds < 7)%nat ->
  let n := 7 - Z.of_nat (length cds) in
  let left := 7 * goal - totalCheatCals cds in
  let normal := normalDayCals goal (getCurrentWeekDates clock) cds in
  - n <= 2 * (n * normal - left) <= n /\
  (normal < 0 <-> 2 * left + n < 0).
Proof.
  intros Hlen n left normal. subst normal.
  unfold normalDayCals. rewrite length_getCurrentWeekDates.
  change (Z.of_nat 7) with 7. fold n. fold left.
  assert (Hn : 0 < n) by (subst n; lia).
  assert ((0 <? n) = true) as -> by (apply Z.ltb_lt; exact Hn).
  split; [apply Math_round_div_nearest, Hn|].
  unfold Math_round_div.
  pose proof (Z.div_mod (2 * left + n) (2 * n) ltac:(lia)) as E.
  pose proof (Z.mod_pos_bound (2 * left + n) (2 * n) ltac:(lia)) as B.
  split; intros H; nia.
Qed.

Lemma normal_day_value_not_clamped_witness :
  normalDayCals 2000 (getCurrentWeekDates day2025)
    [ {| cd_date := "2025-01-03"; cd_calories := 20000 |} ] < 0.
Proof.
  apply (normal_day_value_not_clamped 2000 day2025
           [ {| cd_date := "2025-01-03"; cd_calories := 20000 |} ]).
  - cbn. lia.
  - vm_compute. reflexivity.
Defined.

End CalorieMapShape.

Section WeekTotalOfSeven.

Lemma sumZ_Permutation (l k : list Z) : l ≡ₚ k -> sumZ l = sumZ k.
Proof.
  induction 1 as [|x l k _ IH|x y l|l k m _ IH1 _ IH2]; cbn [sumZ foldr] in *;
    unfold sumZ in *; cbn [foldr]; lia.
Qed.

Lemma sumZ_app (l k : list Z) : sumZ (l ++ k) = sumZ l + sumZ k.
Proof. induction l as [|x l IH]; cbn [app]; unfold sumZ in *; cbn [foldr]; lia. Qed.

(** With different dates in the list, the override of a listed date is
    the calories of its own entry. *)
Lemma overrideFor_own_entry (cds : list CheatDay) (cd : CheatDay) :
  NoDup (map cd_date cds) -> cd ∈ cds ->
  overrideFor cds (cd_date cd) = Some (cd_calories cd).
Proof.
  induction cds as [|c cds IH]; intros Hnd Hin; [by apply elem_of_nil in Hin|].
  cbn [map] in Hnd. apply NoDup_cons in Hnd as [Hfresh Hnd].
  rewrite overrideFor_cons. apply elem_of_cons in Hin as [->|Hin].
  - apply overrideFor_None in Hfresh. rewrite Hfresh. by case_decide.
  - by rewrite IH.
Qed.

(** The dates of the week that the list names are, as strings, the dates
    of the list. *)
Lemma listed_dates_Permutation (cds : list CheatDay) (clock : Clock) :
  clock_in_range clock ->
  NoDup (getCurrentWeekDates clock) ->
  NoDup (map cd_date cds) ->
  (forall s, s ∈ map cd_date cds -> s ∈ map toISODate (getCurrentWeekDates clock)) ->
  map toISODate (filter (fun d => toISODate d ∈ map cd_date cds)
                        (getCurrentWeekDates clock))
    ≡ₚ map cd_date cds.
Proof.
  intros Hclock Hweek Hnd Hsub. apply NoDup_Permutation; [|assumption|].
  - apply (NoDup_fmap_2_strong toISODate).
    + intros a b Ha%list_elem_of_filter Hb%list_elem_of_filter E.
      destruct Ha as [_ (i & Hi & ->)%elem_of_getCurrentWeekDates].
      destruct Hb as [_ (j & Hj & ->)%elem_of_getCurrentWeekDates].
      pose proof (weekDate_range clock i). pose proof (weekDate_range clock j).
      destruct Hclock. apply toISODate_inj in E; [assumption|lia..].
    + apply NoDup_filter. exact Hweek.
  - intros s. split.
    + intros (d & -> & Hd%list_elem_of_filter)%list_elem_of_fmap. tauto.
    + intros Hs. pose proof (Hsub s Hs) as Hw.
      apply list_elem_of_fmap in Hw as (d & -> & Hd).
      apply list_elem_of_fmap_2. apply list_elem_of_filter. tauto.
Qed.

Lemma sumZ_overrides (cds : list CheatDay) :
  NoDup (map cd_date cds) ->
  sumZ (map (fun s => default 0 (overrideFor cds s)) (map cd_date cds))
    = sumCheatCalories cds.
Proof.
  intros Hnd.
  assert (H : forall part : list CheatDay,
             (forall cd, cd ∈ part -> cd ∈ cds) ->
             sumZ (map (fun s => default 0 (overrideFor cds s)) (map cd_date part))
               = sumCheatCalories part).
  { induction part as [|cd part IH]; intros Hin; [reflexivity|].
    cbn [map]. unfold sumZ, sumCheatCalories in *. cbn [foldr].
    rewrite IH by (intros; apply Hin; by apply list_elem_of_further).
    rewrite overrideFor_own_entry by (try assumption; apply Hin, list_elem_of_here).
    reflexivity. }
  apply H. auto.
Qed.

(** Across the start of summer time the targets of the seven dates of
    the pipeline exceed 7 × goal by far: 2025-03-30 counts twice. *)
Example week_total_into_summer_time :
  sumZ (targetsOf (calorieMap marchCheatDay profile2000 londonSpring2025)
                  (getCurrentWeekDates londonSpring2025)) = 15165.
Proof. vm_compute. reflexivity. Qed.

(** When the seven dates of the pipeline differ and the cheat-day list
    has one to six entries, each a different one of these dates with
    calories other than zero, the seven targets of the week add up to
    7 × goal within half a unit per normal day: the listed dates carry
    their overrides and the other dates share what is left. *)
Theorem week_total_of_seven_targets
    (prefs : FoodPreferences) (profile : UserProfile) (clock : Clock) (cds : list CheatDay) :
  cheatDays prefs = Some cds ->
  (1 <= length cds < 7)%nat ->
  clock_in_range clock ->
  NoDup (getCurrentWeekDates clock) ->
  NoDup (map cd_date cds) ->
  (forall s, s ∈ map cd_date cds -> s ∈ map toISODate (getCurrentWeekDates clock)) ->
  (forall cd, cd ∈ cds -> cd_calories cd <> 0) ->
  2 * Z.abs (sumZ (targetsOf (calorieMap prefs profile clock) (getCurrentWeekDates clock))
             - 7 * goalCalories profile)
    <= 7 - Z.of_nat (length cds).
Proof.
  intros Hcds Hlen Hclock Hweek Hnd Hsub Hnz.
  set (week := getCurrentWeekDates clock).
  set (goal := goalCalories profile).
  set (eff := calorieMap prefs profile clock).
  set (f := fun d : Z => default 0 (eff !! toISODate d)).
  set (listed := filter (fun d => toISODate d ∈ map cd_date cds) week).
  assert (Hsplit : sumZ (targetsOf eff week)
                   = sumZ (map f listed) + sumZ (map f (nonCheatDates cds week))).
  { unfold targetsOf. fold f. rewrite <- sumZ_app, <- map_app.
    apply sumZ_Permutation, Permutation_map. symmetry.
    apply (filter_app_complement (fun d => toISODate d ∈ map cd_date cds)). }
  assert (Hnormal : sumZ (map f (nonCheatDates cds week))
                    = Z.of_nat (length (nonCheatDates cds week))
                      * normalDayCalories goal cds).
  { apply sumZ_constant. intros d [Hnot Hd]%list_elem_of_filter.
    subst f eff. cbv beta. rewrite calorieMap_lookup by assumption.
    unfold derivedTarget. rewrite Hcds.
    destruct cds as [|cd cds']; [simpl in Hlen; lia|].
    apply overrideFor_None in Hnot. by rewrite Hnot. }
  assert (Hlisted : sumZ (map f listed) = sumCheatCalories cds).
  { rewrite <- (sumZ_overrides cds Hnd).
    rewrite <- (sumZ_Permutation _ _
                  (Permutation_map _
                     (listed_dates_Permutation cds clock Hclock Hweek Hnd Hsub))).
    fold week. fold listed. rewrite map_map. f_equal.
    apply map_ext_in. intros d Hd%list_elem_of_In.
    apply list_elem_of_filter in Hd as [Hin Hd].
    subst f eff. cbv beta. rewrite calorieMap_lookup by assumption.
    unfold derivedTarget. rewrite Hcds.
    destruct cds as [|cd0 cds']; [simpl in Hlen; lia|].
    apply list_elem_of_fmap in Hin as (cd & Hk & Hcd).
    rewrite Hk, (overrideFor_own_entry _ cd Hnd Hcd).
    cbn [default id]. case_decide as Hz; [|reflexivity].
    exfalso. exact (Hnz cd Hcd Hz). }
  pose proof (length_nonCheatDates cds clock Hclock Hweek Hnd Hsub) as Hn. fold week in Hn.
  rewrite Hsplit, Hnormal, Hlisted.
  assert (Hk : Z.of_nat (length (nonCheatDates cds week)) = 7 - Z.of_nat (length cds))
    by lia.
  rewrite Hk. unfold normalDayCalories. case_decide as Hc; [lia|].
  pose proof (Math_round_div_nearest (7 * goal - sumCheatCalories cds)
                (7 - Z.of_nat (length cds)) ltac:(lia)) as Hr.
  lia.
Qed.

Lemma week_total_of_seven_targets_witness :
  2 * Z.abs (sumZ (targetsOf (calorieMap oneCheatDay profile2000 day2025)
                             (getCurrentWeekDates day2025))
             - 14000) <= 6.
Proof.
  apply (week_total_of_seven_targets oneCheatDay profile2000 day2025
           (default [] (cheatDays oneCheatDay)) eq_refl).
  - cbv [oneCheatDay prefsOf cheatDays default id length]. lia.
  - unfold clock_in_range, day2025. cbn [localDay]. lia.
  - apply (weekDates_steady day2025 false). reflexivity.
  - apply NoDup_singleton.
  - intros s Hs. vm_compute in Hs. vm_compute.
    apply list_elem_of_singleton in Hs. subst s. repeat constructor.
  - intros cd Hcd. vm_compute in Hcd. apply list_elem_of_singleton in Hcd.
    subst cd. discriminate.
Defined.

End WeekTotalOfSeven.

Section ReconciliationShape.

Lemma reconcileDay_idempotent (weekDates : list Z) (eff : gmap string Z)
    (i : nat) (day : MealPlanDay) :
  reconcileDay weekDates eff i (reconcileDay weekDates eff i day)
    = reconcileDay weekDates eff i day.
Proof.
  unfold reconcileDay. destruct (weekDates !! i) as [d|]; [|reflexivity].
  cbv zeta. destruct (num_truthy (eff !! toISODate d)) eqn:E; reflexivity.
Qed.

(** The loop throws only on a [null] entry at an index that has a date,
    and only the [TypeError] of the write to its [date]. *)
Lemma reconcileFrom_Throw (weekDates : list Z) (eff : gmap string Z)
    (ds : list (option MealPlanDay)) :
  forall (k : nat) (message : string),
    reconcileFrom weekDates eff k ds = Throw message ->
    message = "Cannot set properties of null (setting 'date')"%string /\
    exists i : nat, ds !! i = Some None /\ is_Some (weekDates !! (k + i)%nat).
Proof.
  induction ds as [|entry ds IH]; intros k message; cbn [reconcileFrom]; [discriminate|].
  unfold reconcileEntry. destruct entry as [day|].
  - destruct (reconcileFrom weekDates eff (S k) ds) as [rest'|m] eqn:Hr; [discriminate|].
    intros [= <-]. destruct (IH _ _ Hr) as (Hm & i & Hi & Hw).
    split; [exact Hm|]. exists (S i). split; [exact Hi|].
    by replace (k + S i)%nat with (S k + i)%nat by lia.
  - destruct (weekDates !! k) as [d|] eqn:Hk.
    + intros [= <-]. split; [reflexivity|]. exists 0%nat.
      split; [reflexivity|]. rewrite Nat.add_0_r, Hk. eauto.
    + destruct (reconcileFrom weekDates eff (S k) ds) as [rest'|m] eqn:Hr; [discriminate|].
      intros [= <-]. destruct (IH _ _ Hr) as (Hm & i & Hi & Hw).
      split; [exact Hm|]. exists (S i). split; [exact Hi|].
      by replace (k + S i)%nat with (S k + i)%nat by lia.
Qed.


(** The baseline goal is never zero: a stored goal of 0 counts as absent
    and gives 2000. *)
Lemma goalCalories_nonzero (profile : UserProfile) : goalCalories profile <> 0.
Proof.
  unfold goalCalories, num_or. destruct (calorieGoal profile) as [g|]; [|discriminate].
  destruct (g =? 0) eqn:E; [discriminate|]. by apply Z.eqb_neq.
Qed.

(** Without cheat days the provider's calorie targets are never kept:
    each of the first seven days of a document with a [days] array whose
    first seven entries are objects comes back with the baseline goal as
    its target, which is the stored goal, or 2000 when none is stored or
    the stored goal is 0. *)
Theorem targets_replaced_without_cheat_days
    (env : Env) (prefs : FoodPreferences) (profile : UserProfile) (w : World)
    (content : string) (doc : AiPlan) (ds : list (option MealPlanDay)) :
  planCompletion env = CompletionContent (Some content) ->
  content <> EmptyString ->
  JSON_parse env content = ParsedValue doc ->
  days doc = DaysArray ds ->
  (forall i : nat, (i < 7)%nat -> ds !! i <> Some None) ->
  cheatDays prefs = None \/ cheatDays prefs = Some [] ->
  exists (ds' : list (option MealPlanDay)) (w' : World),
    generateMealPlanWithAI env prefs profile w =
      (Ok {| days := DaysArray ds'; otherFields := otherFields doc |}, w') /\
    forall (i : nat) (entry' : option MealPlanDay),
      (i < 7)%nat -> ds' !! i = Some entry' ->
      exists day' : MealPlanDay,
        entry' = Some day' /\
        daily_calorie_target day' =
          Some (match calorieGoal profile with
                | Some g => if decide (g = 0) then 2000 else g
                | None => 2000
                end).
Proof.
  intros Hc Hne Hp Hd Hobj Hno.
  destruct (generateMealPlanWithAI_objects env prefs profile w content doc ds
              Hc Hne Hp Hd Hobj) as (ds' & Hrun & _ & Hl).
  exists ds'. eexists. split; [exact Hrun|].
  intros i entry' Hi. rewrite Hl.
  destruct (ds !! i) as [[day|]|] eqn:Hdi; cbn [fmap option_fmap option_map];
    [|exfalso; exact (Hobj i Hi Hdi)|discriminate].
  intros [= <-]. eexists. split; [reflexivity|].
  destruct (reconcileDay_in_week (clock env) (calorieMap prefs profile (clock env))
              i day Hi) as (_ & Htarget & _).
  rewrite Htarget, calorieMap_lookup
    by (apply elem_of_getCurrentWeekDates; exists i; split; [lia|reflexivity]).
  assert (Hgoal : derivedTarget prefs (goalCalories profile)
                    (toISODate (weekDate (clock env) i)) = goalCalories profile)
    by (unfold derivedTarget; destruct Hno as [-> | ->]; reflexivity).
  rewrite Hgoal. cbn [num_truthy].
  assert ((goalCalories profile =? 0) = false) as ->
    by (apply Z.eqb_neq, goalCalories_nonzero).
  cbn [negb]. f_equal. unfold goalCalories, num_or.
  destruct (calorieGoal profile) as [g|]; [|reflexivity].
  destruct (g =? 0) eqn:E; case_decide; try reflexivity; lia.
Qed.

Lemma targets_replaced_without_cheat_days_witness :
  exists (ds' : list (option MealPlanDay)) (w' : World),
    generateMealPlanWithAI (answering (documentOf (DaysArray [Some providerDay])))
      (prefsOf []) {| calorieGoal := Some 0; language := None |} emptyWorld =
      (Ok {| days := DaysArray ds'; otherFields := "" |}, w') /\
    forall entry' : option MealPlanDay,
      ds' !! 0%nat = Some entry' ->
      exists day' : MealPlanDay,
        entry' = Some day' /\ daily_calorie_target day' = Some 2000.
Proof.
  destruct (targets_replaced_without_cheat_days
              (answering (documentOf (DaysArray [Some providerDay])))
              (prefsOf []) {| calorieGoal := Some 0; language := None |} emptyWorld "{}"
              (documentOf (DaysArray [Some providerDay])) [Some providerDay]
              eq_refl ltac:(discriminate) eq_refl eq_refl)
    as (ds' & w' & Hrun & Hdays).
  - intros [|[|i]] _; discriminate.
  - right. reflexivity.
  - exists ds', w'. split; [exact Hrun|].
    intros entry' Hl. exact (Hdays 0%nat entry' ltac:(lia) Hl).
Defined.

End ReconciliationShape.

(** ** The image stage beyond the claims *)

Section LoopTraces.

Context {A : Type}.
Variable body : option A -> M (option A).
Variable calls : A -> list Event.
Variable ok : A -> bool.

Hypothesis body_null : forall w, exists message, body None w = (Throw message, w).
Hypothesis body_calls : forall x w, trace (body (Some x) w).2 = trace w ++ calls x.
Hypothesis body_outcome :
  forall x w, if ok x then exists x', (body (Some x) w).1 = Ok x'
              else exists message, (body (Some x) w).1 = Throw message.

(** The calls of a loop over the entries of an array are the calls of
    its body on the entries it comes to. *)
Lemma forEachM_trace (xs : list (option A)) :
  forall w, trace (forEachM body xs w).2
            = trace w ++ concat (map calls (reachedWhile ok xs)).
Proof.
  induction xs as [|[x|] xs IH]; intros w.
  - cbn. by rewrite app_nil_r.
  - rewrite forEachM_cons. cbn [reachedWhile map concat].
    pose proof (body_calls x w) as Hc. pose proof (body_outcome x w) as Ho.
    destruct (body (Some x) w) as [[x'|m] w1]; cbn [fst snd] in *.
    + destruct (ok x); [|destruct Ho; discriminate].
      specialize (IH w1).
      destruct (forEachM body xs w1) as [[xs'|m] w2]; cbn [snd] in *;
        by rewrite IH, Hc, <- app_assoc.
    + destruct (ok x); [destruct Ho; discriminate|].
      cbn [map concat]. by rewrite Hc, app_nil_r.
  - rewrite forEachM_cons. destruct (body_null w) as [m ->].
    cbn. by rewrite app_nil_r.
Qed.

End LoopTraces.

Section ImageStage.

Variable env : Env.

(** One call with a configured credential: one search, and the offered
    result or the default of the meal type. *)
Lemma getMealImageUrl_with_key (mealName mealType : string)
    (aiKeywords : list string) (w : World) :
  str_truthy (unsplashAccessKey env) = true ->
  getMealImageUrl env mealName mealType aiKeywords w =
    (Ok (pickedOr (defaultImageFor mealType) (offered env mealName aiKeywords w)),
     {| usedImageUrls := match offered env mealName aiKeywords w with
                         | Some url => {[ url ]} ∪ usedImageUrls w
                         | None => usedImageUrls w
                         end;
        trace := trace w ++ [EvImageSearch (queryOf mealName aiKeywords)] |}).
Proof.
  intros Hk. unfold getMealImageUrl. rewrite Hk. cbn [negb].
  unfold try_catch, searchImage, searchCount, getUsed, setUsed, offered, queryOf.
  unfold mbind, Eff_bind, emit, mret, Eff_ret, throw. cbn beta iota.
  destruct (unsplash env _ _) as [m|st|results]; try reflexivity.
  cbn [usedImageUrls trace].
  destruct (firstUnused (usedImageUrls w) (default [] results)); reflexivity.
Qed.

Lemma getMealImageUrl_without_key (mealName mealType : string)
    (aiKeywords : list string) (w : World) :
  str_truthy (unsplashAccessKey env) = false ->
  getMealImageUrl env mealName mealType aiKeywords w = (Ok (defaultImageFor mealType), w).
Proof. intros Hk. unfold getMealImageUrl. rewrite Hk. reflexivity. Qed.

(** The stage never throws on a meal object. *)
Lemma enrichMeal_step (day : MealPlanDay) (meal : Meal) (w : World) :
  exists meal' w',
    (if isCheatDay day then enrichCheatMeal env else enrichMeal env) meal w
      = (Ok meal', w') /\
    mealStep env day meal w meal' w'.
Proof.
  unfold mealStep, enriched, callName, callType, callKeywords.
  destruct (isCheatDay day).
  - unfold enrichCheatMeal. destruct (cheatMealSelected meal).
    + unfold mbind, Eff_bind, try_catch.
      destruct (str_truthy (unsplashAccessKey env)) eqn:Hk.
      * rewrite getMealImageUrl_with_key by assumption.
        eexists _, _. split; [reflexivity|]. cbn [usedImageUrls trace]. auto.
      * rewrite getMealImageUrl_without_key by assumption.
        eexists _, _. split; [reflexivity|]. auto.
    + eexists _, _. split; [reflexivity|]. auto.
  - unfold enrichMeal. destruct (mealSelected meal).
    + unfold mbind, Eff_bind, try_catch.
      destruct (str_truthy (unsplashAccessKey env)) eqn:Hk.
      * rewrite getMealImageUrl_with_key by assumption.
        eexists _, _. split; [reflexivity|]. cbn [usedImageUrls trace]. auto.
      * rewrite getMealImageUrl_without_key by assumption.
        eexists _, _. split; [reflexivity|]. auto.
    + eexists _, _. split; [reflexivity|]. auto.
Qed.

Lemma enrichMealEntry_returns (day : MealPlanDay) (meal : Meal) (w : World) :
  exists meal' w',
    enrichMealEntry env (isCheatDay day) (Some meal) w = (Ok (Some meal'), w') /\
    mealStep env day meal w meal' w'.
Proof.
  destruct (enrichMeal_step day meal w) as (meal' & w' & Hrun & Hstep).
  exists meal', w'. split; [|exact Hstep].
  unfold enrichMealEntry, mbind, Eff_bind. rewrite Hrun. reflexivity.
Qed.

Lemma enrichMealEntry_throws (cheatDay : bool) (w : World) :
  exists message,
    enrichMealEntry env cheatDay None w = (Throw message, w) /\
    message ∈ nullEntryErrors.
Proof.
  eexists. split; [reflexivity|]. apply (bool_decide_unpack _).
  destruct cheatDay; vm_compute; reflexivity.
Qed.

Lemma enrichMealEntry_step (day : MealPlanDay) (entry : option Meal) (w : World)
    (entry' : option Meal) (w' : World) :
  enrichMealEntry env (isCheatDay day) entry w = (Ok entry', w') ->
  mealEntryStep env day entry w entry' w'.
Proof.
  destruct entry as [meal|]; [|discriminate].
  destruct (enrichMealEntry_returns day meal w) as (meal' & w1 & -> & Hstep).
  intros [= <- <-]. exact Hstep.
Qed.

(** The loop over the meals of a day returns on an array of objects and
    throws on an array with a [null]. *)
Lemma enrichMeals_outcome (day : MealPlanDay) (ms : list (option Meal)) (w : World) :
  if allObjects ms
  then exists ms' w', forEachM (enrichMealEntry env (isCheatDay day)) ms w = (Ok ms', w')
  else exists message w',
         forEachM (enrichMealEntry env (isCheatDay day)) ms w = (Throw message, w') /\
         message ∈ nullEntryErrors.
Proof.
  apply (forEachM_outcome (enrichMealEntry env (isCheatDay day))
           (fun entry => match entry with Some _ => true | None => false end)
           (fun message => message ∈ nullEntryErrors)).
  - intros [meal|] v Hgood; [|discriminate].
    destruct (enrichMealEntry_returns day meal v) as (meal' & v' & Hrun & _). eauto.
  - intros [meal|] v Hgood; [discriminate|].
    destruct (enrichMealEntry_throws (isCheatDay day) v) as (m & Hrun & Hm). eauto.
Qed.

Lemma enrichDay_step (day : MealPlanDay) (w : World) (day' : MealPlanDay) (w' : World) :
  enrichDay env day w = (Ok day', w') -> dayStep env day w day' w'.
Proof.
  unfold enrichDay, dayStep. destruct (meals day) as [ms|] eqn:Hms.
  - unfold mbind, Eff_bind.
    destruct (forEachM (enrichMealEntry env (isCheatDay day)) ms w)
      as [[ms'|m] w1] eqn:Hrun; [|discriminate].
    intros [= <- <-]. cbn [date daily_calorie_target isCheatDay meals].
    repeat split. exists ms'. split; [reflexivity|].
    exact (forEachM_chain _ _ (enrichMealEntry_step day) ms w ms' w1 Hrun).
  - intros [= <- <-]. rewrite Hms. auto.
Qed.

Lemma enrichDayEntry_outcome (entry : option MealPlanDay) (w : World) :
  if dayWithoutNull entry
  then exists entry' w', enrichDayEntry env entry w = (Ok entry', w')
  else exists message w',
         enrichDayEntry env entry w = (Throw message, w') /\ message ∈ nullEntryErrors.
Proof.
  destruct entry as [day|]; cbn [dayWithoutNull].
  - unfold enrichDayEntry, enrichDay, mbind, Eff_bind.
    destruct (meals day) as [ms|]; cbn [default id]; [|cbn; eauto].
    pose proof (enrichMeals_outcome day ms w) as H.
    destruct (allObjects ms).
    + destruct H as (ms' & w' & ->). eauto.
    + destruct H as (m & w' & -> & Hm). eauto.
  - eexists _, _. split; [reflexivity|]. apply (bool_decide_unpack _). vm_compute. reflexivity.
Qed.

Lemma enrichDayEntry_step (entry : option MealPlanDay) (w : World)
    (entry' : option MealPlanDay) (w' : World) :
  enrichDayEntry env entry w = (Ok entry', w') -> dayEntryStep env entry w entry' w'.
Proof.
  destruct entry as [day|]; [|discriminate].
  unfold enrichDayEntry, mbind, Eff_bind.
  destruct (enrichDay env day w) as [[day'|m] w1] eqn:Hrun; [|discriminate].
  intros [= <- <-]. exact (enrichDay_step _ _ _ _ Hrun).
Qed.

(** A run of the image stage that returns has run the day loop over a
    [days] array, and has done nothing to a document without one. *)
Lemma fetchMealImages_steps (plan : AiPlan) (w : World) (plan' : AiPlan) (w' : World) :
  fetchMealImages env plan w = (Ok plan', w') ->
  otherFields plan' = otherFields plan /\
  match days plan with
  | DaysArray ds =>
      exists ds', days plan' = DaysArray ds' /\ chain (dayEntryStep env) ds w ds' w'
  | _ => plan' = plan /\ w' = w
  end.
Proof.
  unfold fetchMealImages. destruct (days plan) as [| | |ds];
    try (intros [= <- <-]; by auto).
  unfold mbind, Eff_bind.
  destruct (forEachM (enrichDayEntry env) ds w) as [[ds'|m] w1] eqn:Hrun; [|discriminate].
  intros [= <- <-]. cbn [otherFields days]. split; [reflexivity|].
  exists ds'. split; [reflexivity|].
  exact (forEachM_chain _ _ enrichDayEntry_step ds w ds' w1 Hrun).
Qed.

(** The image stage returns on a document without [null] entries, and
    throws a [TypeError] on a document with one. *)
Lemma fetchMealImages_outcome (plan : AiPlan) (w : World) :
  if withoutNull plan
  then exists plan' w', fetchMealImages env plan w = (Ok plan', w')
  else exists message w',
         fetchMealImages env plan w = (Throw message, w') /\ message ∈ nullEntryErrors.
Proof.
  unfold fetchMealImages, withoutNull.
  destruct (days plan) as [| | |ds]; try (cbn; eauto).
  unfold mbind, Eff_bind.
  assert (Hgood : forall x v, dayWithoutNull x = true ->
                              exists x' v', enrichDayEntry env x v = (Ok x', v')).
  { intros x v Hx. pose proof (enrichDayEntry_outcome x v) as Ho. by rewrite Hx in Ho. }
  assert (Hbad : forall x v, dayWithoutNull x = false ->
                             exists m v', enrichDayEntry env x v = (Throw m, v') /\
                                          m ∈ nullEntryErrors).
  { intros x v Hx. pose proof (enrichDayEntry_outcome x v) as Ho. by rewrite Hx in Ho. }
  pose proof (forEachM_outcome (enrichDayEntry env) dayWithoutNull
                (fun message => message ∈ nullEntryErrors) Hgood Hbad ds w) as H.
  destruct (forallb dayWithoutNull ds).
  - destruct H as (ds' & w' & ->). eauto.
  - destruct H as (m & w' & -> & Hm). eauto.
Qed.

Lemma searchesFor_nil : searchesFor env [] = [].
Proof. unfold searchesFor. by destruct (str_truthy _). Qed.

Lemma searchesFor_app (qs qs' : list string) :
  searchesFor env (qs ++ qs') = searchesFor env qs ++ searchesFor env qs'.
Proof. unfold searchesFor. destruct (str_truthy _); [apply map_app|reflexivity]. Qed.

Lemma searchesFor_concat {B : Type} (queries : B -> list string) (xs : list B) :
  concat (map (fun x => searchesFor env (queries x)) xs)
    = searchesFor env (concat (map queries xs)).
Proof.
  induction xs as [|x xs IH]; cbn [map concat]; [by rewrite searchesFor_nil|].
  by rewrite searchesFor_app, IH.
Qed.

(** The searches for the meals of a day, whether the loop returns or
    throws. *)
Lemma enrichMeals_trace (day : MealPlanDay) (ms : list (option Meal)) (w : World) :
  trace (forEachM (enrichMealEntry env (isCheatDay day)) ms w).2
    = trace w ++ searchesFor env (concat (map (queryFor day) (reached ms))).
Proof.
  rewrite <- searchesFor_concat. unfold reached.
  apply (forEachM_trace (enrichMealEntry env (isCheatDay day))
           (fun meal => searchesFor env (queryFor day meal)) (fun _ => true)).
  - intros v. eexists. reflexivity.
  - intros meal v. destruct (enrichMealEntry_returns day meal v) as (meal' & v' & -> & Hstep).
    cbn [snd]. unfold mealStep in Hstep. unfold queryFor, searchesFor.
    destruct (enriched day meal).
    + destruct (str_truthy (unsplashAccessKey env)).
      * by destruct Hstep as (_ & _ & ->).
      * destruct Hstep as (_ & ->). by rewrite app_nil_r.
    + destruct Hstep as (_ & ->). destruct (str_truthy _); by rewrite app_nil_r.
  - intros meal v. destruct (enrichMealEntry_returns day meal v) as (meal' & v' & -> & _).
    eauto.
Qed.

Lemma enrichDays_trace (ds : list (option MealPlanDay)) (w : World) :
  trace (forEachM (enrichDayEntry env) ds w).2
    = trace w ++ searchesFor env (concat (map queriesOfDay (daysReached ds))).
Proof.
  rewrite <- searchesFor_concat. unfold daysReached.
  apply (forEachM_trace (enrichDayEntry env)
           (fun day => searchesFor env (queriesOfDay day))
           (fun day => allObjects (default [] (meals day)))).
  - intros v. eexists. reflexivity.
  - intros day v. unfold enrichDayEntry, enrichDay, queriesOfDay, mbind, Eff_bind.
    destruct (meals day) as [ms|]; cbn [default id].
    + pose proof (enrichMeals_trace day ms v) as Ht.
      destruct (forEachM _ ms v) as [[ms'|m] v']; exact Ht.
    + cbn. by rewrite searchesFor_nil, app_nil_r.
  - intros day v. pose proof (enrichDayEntry_outcome (Some day) v) as Ho.
    cbn [dayWithoutNull] in Ho. destruct (allObjects _).
    + destruct Ho as (entry' & v' & ->). eauto.
    + destruct Ho as (m & v' & -> & _). eauto.
Qed.

(** The calls of the image stage are its searches, whether it returns or
    throws. *)
Lemma fetchMealImages_trace (plan : AiPlan) (w : World) :
  trace (fetchMealImages env plan w).2 = trace w ++ searchesFor env (queriesOf plan).
Proof.
  unfold fetchMealImages, queriesOf.
  destruct (days plan) as [| | |ds];
    try (cbn [snd mret Eff_ret]; by rewrite searchesFor_nil, app_nil_r).
  unfold mbind, Eff_bind. pose proof (enrichDays_trace ds w) as Ht.
  destruct (forEachM (enrichDayEntry env) ds w) as [[ds'|m] w']; exact Ht.
Qed.

End ImageStage.

Section ImageStageFacts.

Variable env : Env.

Lemma chain_Forall2 {A : Type} (post : A -> World -> A -> World -> Prop)
    (R : A -> A -> Prop) (xs xs' : list A) (w w' : World) :
  (forall x v x' v', post x v x' v' -> R x x') ->
  chain post xs w xs' w' -> Forall2 R xs xs'.
Proof. intros HR. induction 1; constructor; eauto. Qed.

Lemma defaultImageFor_truthy (mealType : string) : truthyImage (defaultImageFor mealType).
Proof.
  unfold defaultImageFor.
  destruct (defaultImagesByType !! mealType) as [url|] eqn:Hl.
  - unfold defaultImagesByType in Hl.
    destruct (decide (mealType = "Snack"%string)) as [->|H1];
      [injection Hl as <-; discriminate|].
    destruct (decide (mealType = "Dinner"%string)) as [->|H2];
      [injection Hl as <-; discriminate|].
    destruct (decide (mealType = "Lunch"%string)) as [->|H3];
      [injection Hl as <-; discriminate|].
    destruct (decide (mealType = "Breakfast"%string)) as [->|H4];
      [injection Hl as <-; discriminate|].
    rewrite !lookup_insert_ne, lookup_empty in Hl by congruence. discriminate.
  - case_bool_decide as Hk; [exact Hk|]. discriminate.
Qed.

Lemma firstUnused_nonempty (used : gset string) (results : list (option string))
    (url : string) :
  firstUnused used results = Some url -> url <> ""%string.
Proof.
  induction results as [|[r|] results IH]; cbn [firstUnused]; [discriminate| |exact IH].
  destruct (str_truthy (Some r) && negb (bool_decide (r ∈ used))) eqn:E; [|exact IH].
  intros [= <-]. apply andb_true_iff in E as [E _]. by destruct r.
Qed.

Lemma offered_truthy (mealName mealType : string) (aiKeywords : list string)
    (w : World) :
  truthyImage (pickedOr (defaultImageFor mealType) (offered env mealName aiKeywords w)).
Proof.
  destruct (offered env mealName aiKeywords w) as [url|] eqn:E; cbn [pickedOr truthyImage].
  - unfold offered in E. destruct (unsplash env _ _); try discriminate.
    by apply firstUnused_nonempty in E.
  - apply defaultImageFor_truthy.
Qed.

Lemma mealStep_imageSet (day : MealPlanDay) (meal meal' : Meal) (w w' : World) :
  mealStep env day meal w meal' w' -> imageSet day meal meal'.
Proof.
  unfold mealStep, imageSet. destruct (enriched day meal).
  - destruct (str_truthy (unsplashAccessKey env)).
    + intros (-> & _). repeat split; try reflexivity.
      eexists. split; [|reflexivity]. apply offered_truthy.
    + intros (-> & _). repeat split; try reflexivity.
      eexists. split; [|reflexivity]. apply defaultImageFor_truthy.
  - intros (-> & _). repeat split; reflexivity.
Qed.

Lemma dayStep_imagesSet (day day' : MealPlanDay) (w w' : World) :
  dayStep env day w day' w' -> imagesSet day day'.
Proof.
  unfold dayStep, imagesSet. intros (Hd & Ht & Hc & Hm).
  repeat split; try assumption.
  destruct (meals day) as [ms|].
  - destruct Hm as (ms' & -> & Hchain).
    eapply chain_Forall2; [|exact Hchain].
    intros [meal|] v [meal'|] v'; cbn [mealEntryStep onObjects]; try tauto.
    apply mealStep_imageSet.
  - destruct Hm as (-> & _). exact I.
Qed.

(** The image stage touches images only. On a document without [null]
    entries it returns the document with the same days and meals in the
    same order: dates, targets, flags, meal types, names and keywords
    are as before; every meal it enriches holds a truthy image, and
    every other meal the image it had. A document without a [days] array
    comes back as it is. On a document with a [null] among its days, or
    among the meals of a day, it throws the [TypeError] of the read of a
    property of [null]. *)
Theorem image_stage_touches_images_only (plan : AiPlan) (w : World) :
  if withoutNull plan
  then
    exists (plan' : AiPlan) (w' : World),
      fetchMealImages env plan w = (Ok plan', w') /\
      otherFields plan' = otherFields plan /\
      match days plan with
      | DaysArray ds =>
          exists ds', days plan' = DaysArray ds' /\ Forall2 (onObjects imagesSet) ds ds'
      | _ => plan' = plan
      end
  else
    exists (message : string) (w' : World),
      fetchMealImages env plan w = (Throw message, w') /\
      message ∈ nullEntryErrors.
Proof.
  pose proof (fetchMealImages_outcome env plan w) as Hout.
  destruct (withoutNull plan); [|exact Hout].
  destruct Hout as (plan' & w' & Hrun).
  destruct (fetchMealImages_steps env plan w plan' w' Hrun) as (Hother & Hdays).
  exists plan', w'. split; [exact Hrun|]. split; [exact Hother|].
  destruct (days plan) as [| | |ds]; try tauto.
  destruct Hdays as (ds' & Hds' & Hchain). exists ds'. split; [exact Hds'|].
  eapply chain_Forall2; [|exact Hchain].
  intros [day|] v [day'|] v'; cbn [dayEntryStep onObjects]; try tauto.
  apply dayStep_imagesSet.
Qed.

(** The image stage calls nothing but the image search: with a configured
    credential one search for each meal it enriches, in the order of the
    days and meals and as far as the first [null] entry, with the first
    keyword or the first two words of the name followed by " food dish"
    as the query; without a credential no call at all. *)
Theorem image_stage_searches (plan : AiPlan) (w : World) :
  trace (fetchMealImages env plan w).2 =
    trace w ++ (if str_truthy (unsplashAccessKey env)
                then map EvImageSearch (queriesOf plan)
                else []).
Proof. exact (fetchMealImages_trace env plan w). Qed.

End ImageStageFacts.

(** ** Which result a search contributes, and which term it searches *)

Section ImageChoice.

(** The image taken from the results of a search is the first one, in the
    order the search returned them, that has a non-empty URL the set does
    not hold; every result before it is passed over, and when none
    qualifies no image is taken. *)
Theorem firstUnused_first_eligible (used : gset string) (results : list (option string)) :
  match firstUnused used results with
  | Some url =>
      exists before after,
        results = before ++ Some url :: after /\
        url <> ""%string /\ (url ∉ used) /\ Forall (passedOver used) before
  | None => Forall (passedOver used) results
  end.
Proof.
  induction results as [|r results IH]; [constructor|].
  cbn [firstUnused]. destruct r as [url|].
  - destruct (str_truthy (Some url) && negb (bool_decide (url ∈ used))) eqn:E.
    + apply andb_true_iff in E as [E1 E2].
      apply negb_true_iff, bool_decide_eq_false in E2.
      exists [], results. repeat split; [by destruct url|exact E2|constructor].
    + assert (Hp : passedOver used (Some url)).
      { apply andb_false_iff in E as [E|E].
        - left. by destruct url.
        - right. by apply negb_false_iff, bool_decide_eq_true in E. }
      destruct (firstUnused used results) as [u|].
      * destruct IH as (before & after & -> & Hne & Hnew & Hpre).
        exists (Some url :: before), after. repeat split; try assumption.
        by constructor.
      * by constructor.
  - destruct (firstUnused used results) as [u|].
    + destruct IH as (before & after & -> & Hne & Hnew & Hpre).
      exists (None :: before), after. repeat split; try assumption.
      by constructor.
    + by constructor.
Qed.

Lemma string_app_assoc (a b c : string) : ((a ++ b) ++ c = a ++ (b ++ c))%string.
Proof.
  induction a as [|x a IH]; [reflexivity|].
  change (String x ((a ++ b) ++ c) = String x (a ++ (b ++ c)))%string. by rewrite IH.
Qed.

Lemma string_app_empty (a : string) : (a ++ "" = a)%string.
Proof.
  induction a as [|x a IH]; [reflexivity|].
  change (String x (a ++ "") = String x a)%string. by rewrite IH.
Qed.

Lemma spaces_app (a b : string) : spaces (a ++ b) = (spaces a + spaces b)%nat.
Proof.
  induction a as [|x a IH]; [reflexivity|].
  change (spaces (String x (a ++ b)) = (spaces (String x a) + spaces b)%nat).
  cbn [spaces]. rewrite IH. lia.
Qed.

Lemma splitOn_nonempty (sep : ascii) (s : string) : splitOn sep s <> [].
Proof.
  destruct s as [|c s]; cbn [splitOn]; [discriminate|].
  destruct (Ascii.eqb c sep); [discriminate|].
  destruct (splitOn sep s); discriminate.
Qed.

(** The words of a name hold no space. *)
Lemma splitOn_words (s : string) : Forall (fun word => spaces word = 0%nat) (splitOn " " s).
Proof.
  induction s as [|c s IH]; cbn [splitOn].
  - by repeat constructor.
  - destruct (Ascii.eqb c " ") eqn:E.
    + constructor; [reflexivity|exact IH].
    + destruct (splitOn " " s) as [|word ws].
      * constructor; [cbn [spaces]; rewrite E; reflexivity|constructor].
      * inversion IH as [|? ? Hw Hws]; subst. constructor; [|exact Hws].
        cbn [spaces]. rewrite E, Hw. reflexivity.
Qed.

(** [s.split(' ').join(' ')] is [s]. *)
Lemma splitOn_join (s : string) : String.concat " " (splitOn " " s) = s.
Proof.
  induction s as [|c s IH]; [reflexivity|]. cbn [splitOn].
  destruct (Ascii.eqb c " ") eqn:E.
  - apply Ascii.eqb_eq in E. subst c.
    pose proof (splitOn_nonempty " " s) as Hne.
    destruct (splitOn " " s) as [|word ws]; [done|].
    change (String " " (String.concat " " (word :: ws)) = String " " s). by rewrite IH.
  - destruct (splitOn " " s) as [|word ws] eqn:Es.
    + by destruct (splitOn_nonempty " " s).
    + rewrite <- IH. destruct ws; reflexivity.
Qed.

(** The term searched for a meal without a usable first keyword is the
    name of the meal up to its second space: it is a prefix of the name
    with at most one space, and either it is the whole name or it holds
    one space and the name goes on with another. *)
Theorem search_term_is_first_two_words (mealName : string) (aiKeywords : list string) :
  str_truthy (head aiKeywords) = false ->
  exists rest : string,
    mealName = (searchTermOf mealName aiKeywords ++ rest)%string /\
    (spaces (searchTermOf mealName aiKeywords) <= 1)%nat /\
    (rest = ""%string \/
     spaces (searchTermOf mealName aiKeywords) = 1%nat /\
     exists r, rest = String " " r).
Proof.
  intros Hkw. unfold searchTermOf.
  assert (Hor : forall d, str_or (head aiKeywords) d = d).
  { intros d. destruct (head aiKeywords) as [[|c k]|]; [reflexivity|discriminate|reflexivity]. }
  rewrite Hor. clear Hor Hkw.
  pose proof (splitOn_join mealName) as Hjoin.
  pose proof (splitOn_words mealName) as Hwords.
  destruct (splitOn " " mealName) as [|x [|y ws]].
  - exists ""%string. cbn in *. subst. split; [reflexivity|]. split; [cbn; lia|by left].
  - exists ""%string. cbn [take String.concat] in *.
    inversion Hwords as [|? ? Hx _]; subst.
    rewrite string_app_empty, Hx. split; [reflexivity|]. split; [lia|]. by left.
  - inversion Hwords as [|? ? Hx Hrest]; subst.
    inversion Hrest as [|? ? Hy _]; subst.
    assert (Hsp : spaces (x ++ String " " y) = 1%nat)
      by (rewrite spaces_app; cbn [spaces]; rewrite Hx, Hy; reflexivity).
    change (String.concat " " (take 2 (x :: y :: ws))) with (x ++ String " " y)%string.
    rewrite Hsp.
    destruct ws as [|z ws].
    + exists ""%string. rewrite string_app_empty. split; [reflexivity|]. split; [lia|]. by left.
    + exists (String " " (String.concat " " (z :: ws))).
      split; [|split; [lia|right; split; [reflexivity|eexists; reflexivity]]].
      change (String.concat " " (x :: y :: z :: ws))
        with (x ++ (String " " y ++ String " " (String.concat " " (z :: ws))))%string.
      by rewrite string_app_assoc.
Qed.

Lemma search_term_is_first_two_words_witness :
  searchTermOf "Grilled chicken salad bowl" [] = "Grilled chicken"%string /\
  exists rest : string,
    "Grilled chicken salad bowl"%string
    = (searchTermOf "Grilled chicken salad bowl" [] ++ rest)%string.
Proof.
  split; [reflexivity|].
  destruct (search_term_is_first_two_words "Grilled chicken salad bowl" [] eq_refl)
    as (rest & Hrest & _).
  exists rest. exact Hrest.
Defined.

End ImageChoice.

(** ** A search that always answers with the same results *)

Section ImageSupply.

Variable env : Env.
Variable results : list string.

Hypothesis configured : str_truthy (unsplashAccessKey env) = true.
Hypothesis same_results :
  forall (n : nat) (query : string), unsplash env n query = FetchJson (Some (map Some results)).

Lemma firstUnused_skips (used : gset string) (before after : list (option string)) :
  Forall (passedOver used) before ->
  firstUnused used (before ++ after) = firstUnused used after.
Proof.
  induction 1 as [|r before Hr _ IH]; [reflexivity|].
  cbn [app firstUnused]. destruct r as [url|]; [|exact IH].
  destruct Hr as [->|Hin]; [exact IH|].
  rewrite (bool_decide_eq_true_2 _ Hin), andb_false_r. exact IH.
Qed.

Lemma firstUnused_takes (used : gset string) (url : string) (after : list (option string)) :
  url <> ""%string -> url ∉ used ->
  firstUnused used (Some url :: after) = Some url.
Proof.
  intros Hne Hnew. cbn [firstUnused].
  rewrite (bool_decide_eq_false_2 _ Hnew). by destruct url.
Qed.

Lemma offered_same (mealName : string) (aiKeywords : list string) (w : World) :
  offered env mealName aiKeywords w = firstUnused (usedImageUrls w) (map Some results).
Proof. unfold offered. rewrite same_results. reflexivity. Qed.

Lemma enrichMealEntry_selected (meal : Meal) (w : World) :
  mealSelected meal = true ->
  enrichMealEntry env false (Some meal) w =
    (let pick := firstUnused (usedImageUrls w) (map Some results) in
     (Ok (Some (withImage meal (pickedOr (defaultImageFor (default "" (type meal))) pick))),
      {| usedImageUrls := match pick with
                          | Some url => {[ url ]} ∪ usedImageUrls w
                          | None => usedImageUrls w
                          end;
         trace := trace w
                  ++ [EvImageSearch (queryOf (default "" (name meal))
                                       (default [] (image_search_keywords meal)))] |})).
Proof.
  intros Hsel. unfold enrichMealEntry, enrichMeal. rewrite Hsel.
  unfold mbind, Eff_bind, try_catch.
  rewrite (getMealImageUrl_with_key env _ _ _ w configured), offered_same.
  reflexivity.
Qed.

(** The loop over the meals of a day, from a state in which the results
    split into those the set holds already and fresh, distinct ones. *)
Lemma forEachM_served (ms : list Meal) :
  Forall (fun meal => mealSelected meal = true) ms ->
  forall (done todo : list string) (w : World),
    results = done ++ todo ->
    Forall (fun url => url ∈ usedImageUrls w) done ->
    NoDup todo ->
    Forall (fun url => url <> ""%string /\ url ∉ usedImageUrls w) todo ->
    exists w' : World,
      forEachM (enrichMealEntry env false) (map Some ms) w
        = (Ok (map Some (imap (servedImage todo) ms)), w') /\
      usedImageUrls w' = list_to_set (take (length ms) todo) ∪ usedImageUrls w.
Proof.
  induction 1 as [|meal ms Hsel _ IH]; intros done todo w Hsplit Hdone Hnodup Hfresh.
  - exists w. split; [reflexivity|]. change (usedImageUrls w = ∅ ∪ usedImageUrls w). by rewrite (left_id_L ∅ (∪)).
  - cbn [map]. rewrite forEachM_cons.
    rewrite (enrichMealEntry_selected meal w Hsel). cbv zeta.
    assert (Hskip : firstUnused (usedImageUrls w) (map Some results)
                    = firstUnused (usedImageUrls w) (map Some todo)).
    { rewrite Hsplit, map_app. apply firstUnused_skips.
      apply Forall_fmap. eapply Forall_impl; [exact Hdone|].
      intros url Hin. right. exact Hin. }
    rewrite Hskip. destruct todo as [|url todo].
    + cbn [map firstUnused pickedOr].
      match goal with |- context [forEachM _ (map Some ms) ?st] => set (w1 := st) end.
      destruct (IH done [] w1 Hsplit Hdone Hnodup Hfresh) as (w' & Hrun & Hused).
      exists w'. rewrite Hrun. split; [|by rewrite Hused, !take_nil].
      rewrite imap_cons. reflexivity.
    + inversion Hfresh as [|? ? [Hne Hnew] Hfresh']; subst.
      inversion Hnodup as [|? ? Hnotin Hnodup']; subst.
      cbn [map]. rewrite (firstUnused_takes _ _ _ Hne Hnew). cbn [pickedOr].
      match goal with |- context [forEachM _ (map Some ms) ?st] => set (w1 := st) end.
      destruct (IH (done ++ [url]) todo w1) as (w' & Hrun & Hused).
      * by rewrite <- app_assoc.
      * apply Forall_app. split.
        -- eapply Forall_impl; [exact Hdone|]. intros u Hu. subst w1.
           cbn [usedImageUrls]. apply elem_of_union. by right.
        -- repeat constructor. subst w1. cbn [usedImageUrls].
           apply elem_of_union. left. by apply elem_of_singleton.
      * exact Hnodup'.
      * apply Forall_forall. intros u Hu.
        rewrite Forall_forall in Hfresh'. destruct (Hfresh' u Hu) as [Hune Hunew].
        split; [exact Hune|]. subst w1. cbn [usedImageUrls].
        intros [Heq%elem_of_singleton|Hin]%elem_of_union; [|by apply Hunew].
        subst u. by apply Hnotin.
      * exists w'. rewrite Hrun. split.
        -- rewrite imap_cons. reflexivity.
        -- rewrite Hused. subst w1. cbn [usedImageUrls length take].
           rewrite list_to_set_cons.
           rewrite (comm_L (∪) {[url]} (list_to_set (take (length ms) todo))).
           by rewrite (assoc_L (∪)).
Qed.


End ImageSupply.


(** ** What the image set holds after the stage *)

Section ImageSetContents.

Variable env : Env.

Lemma enriched_same_flag (day day' : MealPlanDay) (meal : Meal) :
  isCheatDay day' = isCheatDay day -> enriched day' meal = enriched day meal.
Proof. unfold enriched. by intros ->. Qed.

Lemma mealStep_used (day : MealPlanDay) (meal meal' : Meal) (w w' : World) :
  mealStep env day meal w meal' w' ->
  usedImageUrls w ⊆ usedImageUrls w' /\
  forall url, url ∈ usedImageUrls w' -> url ∈ usedImageUrls w \/ url ∈ assignedTo day meal'.
Proof.
  unfold mealStep, assignedTo. destruct (enriched day meal) eqn:Hen.
  - destruct (str_truthy (unsplashAccessKey env)).
    + intros (-> & Hused & _). rewrite Hused.
      assert (Hen' : enriched day
                       (withImage meal
                          (pickedOr (defaultImageFor (callType day meal))
                             (offered env (callName day meal) (callKeywords day meal) w)))
                     = true) by exact Hen.
      rewrite Hen'. unfold imageUrlOf. cbn [withImage image].
      destruct (offered env _ _ w) as [u|]; cbn [pickedOr].
      * split; [apply union_subseteq_r|].
        intros url [->%elem_of_singleton|Hin]%elem_of_union.
        -- right. constructor.
        -- by left.
      * split; [done|]. by left.
    + intros (_ & ->). split; [done|]. by left.
  - intros (_ & ->). split; [done|]. by left.
Qed.

Lemma mealChain_used (day : MealPlanDay) (ms ms' : list (option Meal)) (w w' : World) :
  chain (mealEntryStep env day) ms w ms' w' ->
  usedImageUrls w ⊆ usedImageUrls w' /\
  forall url, url ∈ usedImageUrls w' ->
              url ∈ usedImageUrls w \/ url ∈ concat (map (assignedTo day) (objectsOf ms')).
Proof.
  induction 1 as [v|entry entry' ms ms' v v1 v2 Hstep _ IH].
  - split; [done|]. by left.
  - destruct entry as [meal|], entry' as [meal'|]; try (by destruct Hstep).
    destruct (mealStep_used _ _ _ _ _ Hstep) as [Hsub1 Hnew1].
    destruct IH as [Hsub2 Hnew2]. split; [by etrans|].
    intros url Hin. unfold objectsOf in *. cbn [omap list_omap id map concat].
    rewrite elem_of_app.
    destruct (Hnew2 url Hin) as [Hv1|Hrest]; [|by right; right].
    destruct (Hnew1 url Hv1); [by left|by right; left].
Qed.

Lemma dayStep_used (day day' : MealPlanDay) (w w' : World) :
  dayStep env day w day' w' ->
  usedImageUrls w ⊆ usedImageUrls w' /\
  forall url, url ∈ usedImageUrls w' -> url ∈ usedImageUrls w \/ url ∈ assignedInDay day'.
Proof.
  unfold dayStep, assignedInDay. intros (_ & _ & Hflag & Hm).
  destruct (meals day) as [ms|].
  - destruct Hm as (ms' & -> & Hchain). cbn [default id].
    destruct (mealChain_used _ _ _ _ _ Hchain) as [Hsub Hnew]. split; [exact Hsub|].
    intros url Hin. destruct (Hnew url Hin) as [?|Hass]; [by left|right].
    assert (Hext : map (assignedTo day') (objectsOf ms')
                   = map (assignedTo day) (objectsOf ms')).
    { apply map_ext. intros meal. unfold assignedTo.
      by rewrite (enriched_same_flag day day' meal Hflag). }
    by rewrite Hext.
  - destruct Hm as (_ & ->). split; [done|]. by left.
Qed.

Lemma dayChain_used (ds ds' : list (option MealPlanDay)) (w w' : World) :
  chain (dayEntryStep env) ds w ds' w' ->
  usedImageUrls w ⊆ usedImageUrls w' /\
  forall url, url ∈ usedImageUrls w' ->
              url ∈ usedImageUrls w \/ url ∈ concat (map assignedInDay (objectsOf ds')).
Proof.
  induction 1 as [v|entry entry' ds ds' v v1 v2 Hstep _ IH].
  - split; [done|]. by left.
  - destruct entry as [day|], entry' as [day'|]; try (by destruct Hstep).
    destruct (dayStep_used _ _ _ _ Hstep) as [Hsub1 Hnew1].
    destruct IH as [Hsub2 Hnew2]. split; [by etrans|].
    intros url Hin. unfold objectsOf in *. cbn [omap list_omap id map concat].
    rewrite elem_of_app.
    destruct (Hnew2 url Hin) as [Hv1|Hrest]; [|by right; right].
    destruct (Hnew1 url Hv1); [by left|by right; left].
Qed.

(** What a returned run of the image stage has added to the set is in
    the plan. *)
Lemma fetchMealImages_used (plan : AiPlan) (w : World) (plan' : AiPlan) (w' : World) :
  fetchMealImages env plan w = (Ok plan', w') ->
  forall url, url ∈ usedImageUrls w' ->
              url ∈ usedImageUrls w \/ url ∈ assignedImages plan'.
Proof.
  intros Hrun. destruct (fetchMealImages_steps env plan w plan' w' Hrun) as (_ & Hdays).
  unfold assignedImages. destruct (days plan) as [| | |ds];
    try (destruct Hdays as (_ & ->); by left).
  destruct Hdays as (ds' & -> & Hchain). exact (proj2 (dayChain_used _ _ _ _ Hchain)).
Qed.

(** One call of [getMealImageUrl] only adds to the set. *)
Lemma enrichMealEntry_grows (cheatDay : bool) (entry : option Meal) (w : World) :
  usedImageUrls w ⊆ usedImageUrls (enrichMealEntry env cheatDay entry w).2.
Proof.
  destruct entry as [meal|]; [|reflexivity].
  set (day := {| date := None; daily_calorie_target := None; isCheatDay := cheatDay;
                 meals := None |}).
  destruct (enrichMealEntry_returns env day meal w) as (meal' & w' & Hrun & Hstep).
  cbn [isCheatDay day] in Hrun. rewrite Hrun. cbn [snd].
  exact (proj1 (mealStep_used _ _ _ _ _ Hstep)).
Qed.

(** Every run of the image stage only adds to the set. *)
Lemma fetchMealImages_grows (plan : AiPlan) (w : World) :
  usedImageUrls w ⊆ usedImageUrls (fetchMealImages env plan w).2.
Proof.
  set (R := fun a b : World => usedImageUrls a ⊆ usedImageUrls b).
  assert (Hrefl : forall a, R a a) by (intros a; unfold R; done).
  assert (Htrans : forall a b c, R a b -> R b c -> R a c)
    by (intros a b c Hab Hbc; unfold R in *; by etrans).
  assert (Hday : forall entry v, R v (enrichDayEntry env entry v).2).
  { intros [day|] v; [|apply Hrefl].
    unfold enrichDayEntry, enrichDay, mbind, Eff_bind.
    destruct (meals day) as [ms|]; [|apply Hrefl].
    pose proof (forEachM_invariant (enrichMealEntry env (isCheatDay day)) R Hrefl Htrans
                  (enrichMealEntry_grows (isCheatDay day)) ms v) as H.
    destruct (forEachM _ ms v) as [[ms'|m] v']; exact H. }
  unfold fetchMealImages. destruct (days plan) as [| | |ds]; try apply Hrefl.
  unfold mbind, Eff_bind.
  pose proof (forEachM_invariant (enrichDayEntry env) R Hrefl Htrans Hday ds w) as H.
  destruct (forEachM (enrichDayEntry env) ds w) as [[ds'|m] w']; exact H.
Qed.


End ImageSetContents.


(** ** The job processor beyond the claims *)

Import JobSpec.

Section JobSettlement.

Variable env : Env.

Lemma settlesNothing_ret {A : Type} (a : A) : settlesNothing (mret a).
Proof. intros w. exists []. split; [by rewrite app_nil_r|constructor]. Qed.

Lemma settlesNothing_throw {A : Type} (m : string) : settlesNothing (@throw World A m).
Proof. intros w. exists []. split; [by rewrite app_nil_r|constructor]. Qed.

Lemma settlesNothing_emit (e : Event) : isSettlement e = false -> settlesNothing (emit e).
Proof. intros He w. exists [e]. split; [reflexivity|by repeat constructor]. Qed.

Lemma settlesNothing_setUsed (u : gset string) : settlesNothing (setUsed u).
Proof. intros w. exists []. split; [by rewrite app_nil_r|constructor]. Qed.

Lemma settlesNothing_bind {A B : Type} (m : M A) (f : A -> M B) :
  settlesNothing m -> (forall a, settlesNothing (f a)) -> settlesNothing (m ≫= f).
Proof.
  intros Hm Hf w. unfold mbind, Eff_bind.
  destruct (Hm w) as (calls & Htrace & Hcalls).
  destruct (m w) as [[a|e] w1]; cbn [snd] in *.
  - destruct (Hf a w1) as (calls' & Htrace' & Hcalls').
    exists (calls ++ calls'). rewrite Htrace', Htrace, <- app_assoc.
    split; [reflexivity|by apply Forall_app].
  - exists calls. by split.
Qed.

Lemma settlesNothing_try_catch {A : Type} (body : M A) (handler : string -> M A) :
  settlesNothing body -> (forall e, settlesNothing (handler e)) ->
  settlesNothing (try_catch body handler).
Proof.
  intros Hb Hh w. unfold try_catch.
  destruct (Hb w) as (calls & Htrace & Hcalls).
  destruct (body w) as [[a|e] w1]; cbn [snd] in *.
  - exists calls. by split.
  - destruct (Hh e w1) as (calls' & Htrace' & Hcalls').
    exists (calls ++ calls'). rewrite Htrace', Htrace, <- app_assoc.
    split; [reflexivity|by apply Forall_app].
Qed.

Lemma log_lines_settle_nothing (l : list Event) :
  Forall (fun e => exists m, e = EvLogError m) l ->
  Forall (fun e => isSettlement e = false) l.
Proof. intros H. eapply Forall_impl; [exact H|]. by intros e [m ->]. Qed.

Lemma searchCalls_settle_nothing (plan : AiPlan) :
  Forall (fun e => isSettlement e = false) (searchCalls env plan).
Proof.
  unfold searchCalls, searchesFor. destruct (str_truthy _); [|constructor].
  apply Forall_fmap, Forall_forall. reflexivity.
Qed.

Lemma settlesNothing_fetchMealImages (plan : AiPlan) : settlesNothing (fetchMealImages env plan).
Proof.
  intros w. exists (searchCalls env plan).
  split; [apply fetchMealImages_trace|apply searchCalls_settle_nothing].
Qed.

Lemma settlesNothing_fetchUserProfile (userId : string) :
  settlesNothing (fetchUserProfile env userId).
Proof.
  intros w. rewrite fetchUserProfile_run. eexists. split; [reflexivity|].
  apply Forall_app. split; [by repeat constructor|].
  apply log_lines_settle_nothing, profileLog_lines.
Qed.

Lemma settlesNothing_generateDietCards : settlesNothing (generateDietCards env).
Proof.
  intros w. rewrite generateDietCards_run. eexists. split; [reflexivity|].
  apply Forall_app. split; [by repeat constructor|].
  apply log_lines_settle_nothing, cardsLog_lines.
Qed.

Create HintDb settle.

#[local] Hint Resolve settlesNothing_ret settlesNothing_throw settlesNothing_setUsed
  settlesNothing_bind settlesNothing_try_catch settlesNothing_fetchMealImages
  settlesNothing_fetchUserProfile settlesNothing_generateDietCards : settle.
#[local] Hint Extern 1 (settlesNothing (emit _)) =>
  apply settlesNothing_emit; reflexivity : settle.
#[local] Hint Extern 1 (settlesNothing (_ ≫= _)) =>
  apply settlesNothing_bind; [|intros ?] : settle.

Lemma settlesNothing_generateMealPlanWithAI (prefs : FoodPreferences)
    (profile : UserProfile) :
  settlesNothing (generateMealPlanWithAI env prefs profile).
Proof.
  unfold generateMealPlanWithAI. cbv zeta.
  apply settlesNothing_bind; [auto with settle|]. intros _.
  destruct (planCompletion env) as [m|content]; [auto with settle|].
  destruct (negb (str_truthy content)); [auto with settle|].
  destruct (JSON_parse env (default "" content)) as [m| |doc]; [auto with settle..|].
  destruct (negb (days_truthy (days doc)) || negb (Array_isArray (days doc)));
    [auto with settle|].
  destruct (days doc) as [| | |ds]; auto with settle.
  destruct (reconcileDays _ _ ds); auto with settle.
Qed.

Lemma settlesNothing_generateMealPlan (userId : string) (prefs : FoodPreferences)
    (planId : string) :
  settlesNothing (generateMealPlan env userId prefs planId).
Proof.
  pose proof settlesNothing_generateMealPlanWithAI as Hgen.
  unfold generateMealPlan, fetchFoodHistory, clearImageCache.
  auto 20 with settle.
Qed.

(** Whatever the collaborators answer, whatever the document holds and
    whatever the type of the job, [processJob] returns without throwing
    and settles the job with the queue exactly once, as its last call:
    after the heartbeat come calls that settle nothing, and then one
    report for this job, completed or failed. *)
Theorem job_settled_exactly_once (job : BackgroundJob) (w : World) :
  exists (calls : list Event) (last : Event) (w' : World),
    processJob env job w = (Ok tt, w') /\
    trace w' = trace w ++ EvHeartbeat (job_id job) :: calls ++ [last] /\
    Forall (fun e => isSettlement e = false) calls /\
    (last = EvCompleteJob (job_id job) \/
     exists message, last = EvFailJob (job_id job) message).
Proof.
  unfold processJob, try_catch, updateHeartbeat, markJobFailed.
  unfold mbind at 1, Eff_bind at 1. unfold emit at 1. cbn beta iota.
  set (w0 := {| usedImageUrls := usedImageUrls w;
                trace := trace w ++ [EvHeartbeat (job_id job)] |}).
  destruct (bool_decide (job_type job = "meal_plan_generation"%string)).
  - unfold processMealPlanJob, try_finally, sendMealPlanNotification, markJobCompleted.
    unfold mbind at 1, Eff_bind at 1.
    destruct (settlesNothing_generateMealPlan (userId (payload job))
                (userPreferences (payload job)) (planId (payload job)) w0)
      as (calls & Htrace & Hcalls).
    destruct (generateMealPlan env _ _ _ w0) as [[result|cause] w1]; cbn [snd] in Htrace.
    + unfold mbind, Eff_bind, emit, throw, mret, Eff_ret. cbn beta iota.
      destruct (saveError env) as [message|]; cbn beta iota.
      * eexists (calls ++ [EvArtifactWrite _ _; EvLogError "Job failed"]), _, _.
        split; [reflexivity|]. cbn [trace]. rewrite Htrace. subst w0. cbn [trace].
        split; [by rewrite <- !app_assoc|]. split; [|right; eauto].
        apply Forall_app. split; [exact Hcalls|by repeat constructor].
      * eexists (calls ++ [EvArtifactWrite _ _; EvNotify _ _]), _, _.
        split; [reflexivity|]. cbn [trace]. rewrite Htrace. subst w0. cbn [trace].
        split; [by rewrite <- !app_assoc|]. split; [|by left].
        apply Forall_app. split; [exact Hcalls|by repeat constructor].
    + unfold mbind, Eff_bind, emit, mret, Eff_ret. cbn beta iota.
      eexists (calls ++ [EvLogError "Job failed"]), _, _.
      split; [reflexivity|]. cbn [trace]. rewrite Htrace. subst w0. cbn [trace].
      split; [by rewrite <- !app_assoc|]. split; [|right; eauto].
      apply Forall_app. split; [exact Hcalls|by repeat constructor].
  - unfold throw, mbind, Eff_bind, emit. cbn beta iota.
    eexists [EvLogError "Job failed"], _, _.
    split; [reflexivity|]. subst w0. cbn [trace].
    split; [by rewrite <- !app_assoc|]. split; [by repeat constructor|right; eauto].
Qed.

(** A job of a type other than meal-plan generation is failed with the
    message naming its type, after the heartbeat and nothing else: no
    collaborator of the pipeline is called and the image set is not
    touched. *)
Theorem unknown_job_type_is_failed (job : BackgroundJob) (w : World) :
  job_type job <> "meal_plan_generation"%string ->
  processJob env job w =
    (Ok tt,
     {| usedImageUrls := usedImageUrls w;
        trace := trace w
                 ++ [EvHeartbeat (job_id job);
                     EvLogError "Job failed";
                     EvFailJob (job_id job) ("Unknown job type: " ++ job_type job)] |}).
Proof.
  intros Hty. unfold processJob, try_catch, updateHeartbeat, markJobFailed.
  unfold mbind, Eff_bind, emit, throw. cbn beta iota.
  rewrite (bool_decide_eq_false_2 _ Hty). cbn [trace usedImageUrls].
  by rewrite <- !app_assoc.
Qed.

(** The calls of a job of the recognised type, in the three ways its
    pipeline can end. *)
Lemma processJob_calls (job : BackgroundJob) (w : World) :
  job_type job = "meal_plan_generation"%string ->
  let p := payload job in
  let w0 := {| usedImageUrls := usedImageUrls w;
               trace := trace w ++ [EvHeartbeat (job_id job)] |} in
  exists w' : World,
    processJob env job w = (Ok tt, w') /\
    trace w' =
      match generateMealPlan env (userId p) (userPreferences p) (planId p) w0 with
      | (Ok _, w1) =>
          trace w1 ++ [EvArtifactWrite (planId p) (userId p)] ++ closingCalls env job
      | (Throw message, w1) =>
          trace w1 ++ [EvLogError "Job failed"; EvFailJob (job_id job) message]
      end.
Proof.
  intros Hty p w0.
  unfold processJob, try_catch, updateHeartbeat, markJobFailed.
  unfold mbind at 1, Eff_bind at 1. unfold emit at 1. cbn beta iota.
  rewrite (bool_decide_eq_true_2 _ Hty).
  unfold processMealPlanJob, try_finally, sendMealPlanNotification, markJobCompleted.
  unfold mbind at 1, Eff_bind at 1. fold p. fold w0.
  destruct (generateMealPlan env (userId p) (userPreferences p) (planId p) w0)
    as [[result|cause] w1].
  - unfold mbind, Eff_bind, emit, throw, mret, Eff_ret, closingCalls. cbn beta iota.
    destruct (saveError env) as [message|]; cbn beta iota;
      (eexists; split; [reflexivity|]); cbn [trace]; by rewrite <- !app_assoc.
  - unfold mbind, Eff_bind, emit, mret, Eff_ret. cbn beta iota.
    eexists. split; [reflexivity|]. cbn [trace]. by rewrite <- !app_assoc.
Qed.


Lemma generateMealPlanWithAI_keeps_set (prefs : FoodPreferences) (profile : UserProfile)
    (w : World) :
  usedImageUrls (generateMealPlanWithAI env prefs profile w).2 = usedImageUrls w.
Proof.
  unfold generateMealPlanWithAI, mbind, Eff_bind, emit, throw, mret, Eff_ret.
  cbn beta iota.
  destruct (planCompletion env) as [m|content]; [reflexivity|].
  destruct (negb (str_truthy content)); [reflexivity|].
  destruct (JSON_parse env (default "" content)) as [m| |doc]; [reflexivity..|].
  destruct (negb (days_truthy (days doc)) || negb (Array_isArray (days doc)));
    [reflexivity|].
  destruct (days doc) as [| | |ds]; try reflexivity.
  destruct (reconcileDays _ _ ds); reflexivity.
Qed.

(** A run that throws on a [null] meal leaves in the set the image it
    had picked for the meal before. *)
Example image_set_after_a_throwing_run :
  exists w' : World,
    generateMealPlan (searchingFinds [oatsImage]
                        (documentOf (DaysArray [Some breakfastThenNull])))
      "user-1" oneCheatDay "plan-1" emptyWorld
    = (Throw "Cannot read properties of null (reading 'name')"%string, w') /\
    usedImageUrls w' = {[ oatsImage ]}.
Proof. eexists. split; [vm_compute; reflexivity|]. vm_compute. reflexivity. Qed.


End JobSettlement.

Lemma unknown_job_type_is_failed_witness :
  processJob (answering (documentOf DaysUndefined))
    {| job_id := "job-9"; job_type := "send_newsletter"; payload := payload job1;
       attempts := 1 |} emptyWorld =
    (Ok tt,
     {| usedImageUrls := ∅;
        trace := [EvHeartbeat "job-9"; EvLogError "Job failed";
                  EvFailJob "job-9" "Unknown job type: send_newsletter"] |}).
Proof.
  apply (unknown_job_type_is_failed (answering (documentOf DaysUndefined))
           {| job_id := "job-9"; job_type := "send_newsletter"; payload := payload job1;
              attempts := 1 |} emptyWorld).
  discriminate.
Defined.


(** ** The polling loop beyond the claims *)

Import LoopSpec.

Section LoopFacts.

Variable cfg : WorkerConfig.

Lemma onSettled_log (jobId : string) (rejected : bool) (s : Sched) :
  slog (run (onSettled jobId rejected) s) =
    slog s ++ (if rejected then [LogError "Job processing failed"] else []) /\
  dispatched (run (onSettled jobId rejected) s) = dispatched s.
Proof. destruct s, rejected; cbn; by rewrite ?app_nil_r. Qed.

Lemma step_signal (s : Sched) :
  step cfg s Signal =
    {| activeJobs := activeJobs s; isShuttingDown := true; loop := loop s;
       dispatched := dispatched s; slog := slog s |}.
Proof. unfold step. destruct (loop s); reflexivity. Qed.

Lemma step_settles (s : Sched) (jobId : string) (rejected : bool) :
  step cfg s (JobSettles jobId rejected) = run (onSettled jobId rejected) s.
Proof. unfold step. destruct (loop s); reflexivity. Qed.

Lemma step_regular (s : Sched) (ev : SchedEvent) :
  Forall (regular cfg) (slog s) -> Forall (regular cfg) (slog (step cfg s ev)).
Proof.
  intros Hs. destruct ev as [|reply|jobId rejected|].
  - unfold step. destruct (loop s); try exact Hs.
    rewrite loopHead_state. destruct (isShuttingDown s); [exact Hs|].
    destruct (slots s <? maxConcurrentJobs cfg); cbn [slog];
      apply Forall_app; (split; [exact Hs|]); by repeat constructor.
  - unfold step. destruct (loop s); try exact Hs.
    rewrite loopAfterClaim_state. cbn [slog].
    rewrite !Forall_app. split; [exact Hs|]. split; [|by repeat constructor].
    destruct reply as [m|m|d]; [by repeat constructor..|].
    destruct (claimedJob (RpcData d)); by repeat constructor.
  - rewrite step_settles. destruct (onSettled_log jobId rejected s) as [-> _].
    apply Forall_app. split; [exact Hs|]. destruct rejected; by repeat constructor.
  - rewrite step_signal. exact Hs.
Qed.

(** The error handler of the loop never runs. With a logger and a timer
    that do not throw, nothing in the body of the loop throws, since
    [getNextJob] catches what the claim throws: whatever the timers, claim
    replies, settlements and signals, the log of the processor holds no
    "Error in main polling loop" and no sleep other than the configured
    poll interval; the five-second sleep of the handler is never taken. *)
Theorem loop_error_handler_never_runs (evs : list SchedEvent) :
  Forall (regular cfg) (slog (exec cfg evs initial)).
Proof.
  assert (H : forall s, Forall (regular cfg) (slog s) ->
                        Forall (regular cfg) (slog (exec cfg evs s))).
  { induction evs as [|ev evs IH]; intros s Hs; [exact Hs|].
    apply IH, step_regular, Hs. }
  apply H. constructor.
Qed.

Lemma filter_isClaim_app (l l' : list SchedLog) :
  l' = [] \/ (exists m, l' = [LogError m]) \/ (exists ms, l' = [LogSleep ms])
  \/ (exists id ms, l' = [LogDispatch id; LogSleep ms])
  \/ (exists m ms, l' = [LogError m; LogSleep ms]) ->
  List.filter isClaim (l ++ l') = List.filter isClaim l.
Proof.
  intros H. rewrite List.filter_app.
  destruct H as [->|[[m ->]|[[ms ->]|[(id & ms & ->)|(m & ms & ->)]]]];
    cbn; by rewrite app_nil_r.
Qed.

(** One step of a processor that is shutting down: no new claim, and a
    dispatch only in answer to the claim that was pending. *)
Lemma step_shutting_down (s : Sched) (ev : SchedEvent) :
  isShuttingDown s = true ->
  isShuttingDown (step cfg s ev) = true /\
  List.filter isClaim (slog (step cfg s ev)) = List.filter isClaim (slog s) /\
  (dispatched (step cfg s ev) + pending (step cfg s ev) <= dispatched s + pending s)%nat.
Proof.
  intros Hdown. destruct ev as [|reply|jobId rejected|].
  - unfold step. destruct (loop s) eqn:El; try (split; [exact Hdown|split; [reflexivity|lia]]).
    rewrite loopHead_state, Hdown. unfold pending. cbn [isShuttingDown slog dispatched loop].
    rewrite El. split; [reflexivity|split; [reflexivity|lia]].
  - unfold step. destruct (loop s) eqn:El; try (split; [exact Hdown|split; [reflexivity|lia]]).
    rewrite loopAfterClaim_state. unfold pending.
    cbn [isShuttingDown slog dispatched loop]. rewrite El.
    split; [exact Hdown|]. split.
    + apply filter_isClaim_app.
      destruct reply as [m|m|d]; [right; right; right; right; cbn [app]; eauto..|].
      destruct (claimedJob (RpcData d)); cbn [app];
        [right; right; right; left; eauto|right; right; left; eauto].
    + destruct (claimedJob reply); lia.
  - rewrite step_settles.
    destruct (onSettled_state jobId rejected s) as (_ & Hloop & Hflag).
    destruct (onSettled_log jobId rejected s) as [Hlog Hn].
    unfold pending. rewrite Hloop, Hflag, Hlog, Hn.
    split; [exact Hdown|]. split; [|lia].
    apply filter_isClaim_app. destruct rejected; [right; left; eauto|by left].
  - rewrite step_signal. unfold pending. cbn [isShuttingDown slog dispatched loop].
    split; [reflexivity|split; [reflexivity|lia]].
Qed.

Lemma exec_shutting_down (evs : list SchedEvent) (s : Sched) :
  isShuttingDown s = true ->
  isShuttingDown (exec cfg evs s) = true /\
  List.filter isClaim (slog (exec cfg evs s)) = List.filter isClaim (slog s) /\
  (dispatched (exec cfg evs s) + pending (exec cfg evs s) <= dispatched s + pending s)%nat.
Proof.
  revert s. induction evs as [|ev evs IH]; intros s Hdown.
  - split; [exact Hdown|split; [reflexivity|exact (Nat.le_refl _)]].
  - destruct (step_shutting_down s ev Hdown) as (Hdown1 & Hclaims1 & Hn1).
    destruct (IH _ Hdown1) as (Hdown2 & Hclaims2 & Hn2).
    change (exec cfg (ev :: evs) s) with (exec cfg evs (step cfg s ev)).
    split; [exact Hdown2|]. split; [congruence|lia].
Qed.

(** After a termination signal the loop claims no further job, whatever
    happens next, and dispatches at most one more job: the one of a claim
    that was under way when the signal arrived; with no claim under way,
    none is dispatched. *)
Theorem no_claim_after_signal (s : Sched) (evs : list SchedEvent) :
  let s' := exec cfg (Signal :: evs) s in
  isShuttingDown s' = true /\
  List.filter isClaim (slog s') = List.filter isClaim (slog s) /\
  (dispatched s' <= dispatched s + pending s)%nat.
Proof.
  cbv zeta. change (exec cfg (Signal :: evs) s) with (exec cfg evs (step cfg s Signal)).
  destruct (exec_shutting_down evs (step cfg s Signal)) as (Hdown & Hclaims & Hn).
  { by rewrite step_signal. }
  assert (E1 : dispatched (step cfg s Signal) = dispatched s) by by rewrite step_signal.
  assert (E2 : pending (step cfg s Signal) = pending s) by by rewrite step_signal.
  assert (E3 : slog (step cfg s Signal) = slog s) by by rewrite step_signal.
  rewrite E1, E2 in Hn. rewrite E3 in Hclaims.
  split; [exact Hdown|]. split; [exact Hclaims|lia].
Qed.

Lemma step_without_slots (s : Sched) (ev : SchedEvent) :
  maxConcurrentJobs cfg <= 0 ->
  loop s <> AwaitingClaim /\ claims s = 0%nat /\ dispatched s = 0%nat /\ activeJobs s = ∅ ->
  loop (step cfg s ev) <> AwaitingClaim /\ claims (step cfg s ev) = 0%nat /\
  dispatched (step cfg s ev) = 0%nat /\ activeJobs (step cfg s ev) = ∅.
Proof.
  intros Hlimit (Hloop & Hclaims & Hn & Hjobs). unfold claims in *.
  destruct ev as [|reply|jobId rejected|].
  - unfold step. destruct (loop s) eqn:El; try (rewrite El; done).
    rewrite loopHead_state. destruct (isShuttingDown s).
    + cbn [loop slog dispatched activeJobs]. done.
    + assert (Hfull : (slots s <? maxConcurrentJobs cfg) = false).
      { apply Z.ltb_ge. unfold slots. lia. }
      rewrite Hfull. cbn [loop slog dispatched activeJobs].
      split; [discriminate|]. split; [|done].
      rewrite (filter_isClaim_app (slog s)); [exact Hclaims|]. right; right; left; eauto.
  - unfold step. destruct (loop s) eqn:El; try (rewrite El; done). done.
  - rewrite step_settles.
    destruct (onSettled_state jobId rejected s) as (Hjobs' & Hloop' & _).
    destruct (onSettled_log jobId rejected s) as [Hlog Hn'].
    rewrite Hloop', Hlog, Hn', Hjobs', Hjobs. split; [exact Hloop|].
    split; [|split; [exact Hn|apply delete_empty]].
    rewrite (filter_isClaim_app (slog s)); [exact Hclaims|].
    destruct rejected; [right; left; eauto|by left].
  - rewrite step_signal. cbn [loop slog dispatched activeJobs]. done.
Qed.

(** A worker configured with a concurrency limit of zero or less never
    claims a job: it sleeps poll interval after poll interval, and its
    slots stay empty. *)
Theorem no_claim_without_a_slot (evs : list SchedEvent) :
  maxConcurrentJobs cfg <= 0 ->
  claims (exec cfg evs initial) = 0%nat /\
  dispatched (exec cfg evs initial) = 0%nat /\
  activeJobs (exec cfg evs initial) = ∅.
Proof.
  intros Hlimit.
  assert (H : forall s,
             loop s <> AwaitingClaim /\ claims s = 0%nat /\ dispatched s = 0%nat /\
             activeJobs s = ∅ ->
             loop (exec cfg evs s) <> AwaitingClaim /\ claims (exec cfg evs s) = 0%nat /\
             dispatched (exec cfg evs s) = 0%nat /\ activeJobs (exec cfg evs s) = ∅).
  { induction evs as [|ev evs IH]; intros s Hs; [exact Hs|].
    apply IH, step_without_slots; assumption. }
  destruct (H initial) as (_ & Hc & Hn & Hj); [|by repeat split].
  repeat split; [discriminate|reflexivity..].
Qed.

(** The slots are keyed by job id. When the queue hands over a job whose
    id is in flight already, the second execution is dispatched without
    taking a slot of its own; and the first of the two to settle frees
    the slot, so that the loop counts one execution fewer than are
    running. *)
Theorem job_handed_over_twice_shares_a_slot (s : Sched) (job : BackgroundJob)
    (rest : list BackgroundJob) (rejected : bool) :
  loop s = AwaitingClaim ->
  is_Some (activeJobs s !! job_id job) ->
  let s1 := step cfg s (handsOver job rest) in
  let s2 := step cfg s1 (JobSettles (job_id job) rejected) in
  dispatched s1 = S (dispatched s) /\
  slots s1 = slots s /\
  slots s2 = slots s - 1.
Proof.
  intros Hloop Hin. cbv zeta.
  assert (E1 : step cfg s (handsOver job rest)
               = run (loopAfterClaim cfg (RpcData (Some (job :: rest)))) s)
    by (unfold handsOver, step; by rewrite Hloop).
  rewrite !E1, step_settles.
  destruct (onSettled_state (job_id job) rejected
              (run (loopAfterClaim cfg (RpcData (Some (job :: rest)))) s)) as (Hjobs & _ & _).
  unfold slots. rewrite Hjobs, loopAfterClaim_state.
  cbn [claimedJob activeJobs dispatched].
  split; [reflexivity|].
  rewrite delete_insert_eq.
  destruct Hin as [p Hp].
  rewrite map_size_insert_Some, map_size_delete_Some by eauto.
  assert (Hpos : (0 < size (activeJobs s))%nat).
  { destruct (decide (size (activeJobs s) = 0%nat)) as [E|E]; [|lia].
    apply map_size_empty_inv in E. rewrite E, lookup_empty in Hp. discriminate. }
  split; lia.
Qed.

End LoopFacts.

Lemma no_claim_without_a_slot_witness :
  claims (exec (workerOf 0) [TimerFires; TimerFires; ClaimReturns (RpcData (Some [job1]))]
            initial) = 0%nat.
Proof.
  destruct (no_claim_without_a_slot (workerOf 0)
              [TimerFires; TimerFires; ClaimReturns (RpcData (Some [job1]))])
    as (Hclaims & _).
  - cbn [workerOf maxConcurrentJobs]. lia.
  - exact Hclaims.
Defined.

Lemma job_handed_over_twice_shares_a_slot_witness :
  let s := exec (workerOf 3)
             [TimerFires; handsOver job1 []; TimerFires] initial in
  slots s = 1 /\
  dispatched (step (workerOf 3) s (handsOver job1 [])) = 2%nat /\
  slots (step (workerOf 3) (step (workerOf 3) s (handsOver job1 []))
           (JobSettles "job-1" false)) = 0.
Proof.
  cbv zeta.
  assert (Hslots : slots (exec (workerOf 3)
                            [TimerFires; handsOver job1 []; TimerFires] initial) = 1)
    by (vm_compute; reflexivity).
  destruct (job_handed_over_twice_shares_a_slot (workerOf 3)
              (exec (workerOf 3) [TimerFires; handsOver job1 []; TimerFires] initial)
              job1 [] false) as (Hn & _ & Hfree).
  - vm_compute. reflexivity.
  - vm_compute. eauto.
  - split; [exact Hslots|]. split.
    + rewrite Hn. vm_compute. reflexivity.
    + cbn [job1 job_id] in Hfree. rewrite Hfree, Hslots. reflexivity.
Defined.

Section LoopAccounting.

Variable cfg : WorkerConfig.

(** What the counters of the loop maintain. *)
Lemma step_accounts (s : Sched) (ev : SchedEvent) :
  dispatched s = dispatches s /\
  (dispatches s + pending s <= claims s)%nat /\
  (size (activeJobs s) <= dispatched s)%nat /\
  map_Forall (fun _ p => (p < dispatched s)%nat) (activeJobs s) ->
  dispatched (step cfg s ev) = dispatches (step cfg s ev) /\
  (dispatches (step cfg s ev) + pending (step cfg s ev) <= claims (step cfg s ev))%nat /\
  (size (activeJobs (step cfg s ev)) <= dispatched (step cfg s ev))%nat /\
  map_Forall (fun _ p => (p < dispatched (step cfg s ev))%nat) (activeJobs (step cfg s ev)).
Proof.
  intros (Hn & Hclaims & Hsize & Hids). unfold dispatches, claims, pending in *.
  destruct ev as [|reply|jobId rejected|].
  - unfold step. destruct (loop s) eqn:El; try (rewrite ?El; done).
    rewrite loopHead_state. destruct (isShuttingDown s).
    + cbn [loop slog dispatched activeJobs]. repeat split; try done; lia.
    + destruct (slots s <? maxConcurrentJobs cfg); cbn [loop slog dispatched activeJobs];
        rewrite !List.filter_app, !length_app; cbn [List.filter isDispatch isClaim length];
        repeat split; try done; lia.
  - unfold step. destruct (loop s) eqn:El; try (rewrite ?El; done).
    rewrite loopAfterClaim_state.
    cbn [loop slog dispatched activeJobs].
    rewrite !List.filter_app, !length_app.
    destruct reply as [m|m|[[|j rest]|]];
      cbn [claimedJob app List.filter isDispatch isClaim length];
      try (repeat split; try done; lia).
    split; [lia|]. split; [lia|]. split.
    + destruct (activeJobs s !! job_id j) eqn:E.
      * rewrite map_size_insert_Some by eauto. lia.
      * rewrite map_size_insert_None by assumption. lia.
    + apply map_Forall_insert_2; [lia|].
      eapply map_Forall_impl; [exact Hids|]. cbn beta. intros _ p Hp. lia.
  - rewrite step_settles.
    destruct (onSettled_state jobId rejected s) as (Hjobs' & Hloop' & _).
    destruct (onSettled_log jobId rejected s) as [Hlog Hn'].
    rewrite Hloop', Hlog, Hn', Hjobs'.
    rewrite !List.filter_app, !length_app.
    assert (Hdel : (size (delete jobId (activeJobs s)) <= size (activeJobs s))%nat).
    { destruct (activeJobs s !! jobId) eqn:E.
      - rewrite map_size_delete_Some by eauto. lia.
      - rewrite map_size_delete_None by assumption. lia. }
    destruct rejected; cbn [List.filter isDispatch isClaim length];
      (repeat split; [lia..|by apply map_Forall_delete]).
  - rewrite step_signal. cbn [loop slog dispatched activeJobs]. done.
Qed.

(** The loop keeps its books: every dispatch it has counted is in its
    log and answers a claim of its own, a claim under way included in the
    count of claims; the slots are no more than the dispatches; and every
    slot holds the promise of a dispatch that has happened. *)
Theorem dispatches_answer_claims (evs : list SchedEvent) :
  let s := exec cfg evs initial in
  dispatched s = dispatches s /\
  (dispatches s + pending s <= claims s)%nat /\
  (size (activeJobs s) <= dispatched s)%nat /\
  map_Forall (fun _ p => (p < dispatched s)%nat) (activeJobs s).
Proof.
  cbv zeta.
  assert (H : forall s,
             dispatched s = dispatches s /\
             (dispatches s + pending s <= claims s)%nat /\
             (size (activeJobs s) <= dispatched s)%nat /\
             map_Forall (fun _ p => (p < dispatched s)%nat) (activeJobs s) ->
             dispatched (exec cfg evs s) = dispatches (exec cfg evs s) /\
             (dispatches (exec cfg evs s) + pending (exec cfg evs s)
              <= claims (exec cfg evs s))%nat /\
             (size (activeJobs (exec cfg evs s)) <= dispatched (exec cfg evs s))%nat /\
             map_Forall (fun _ p => (p < dispatched (exec cfg evs s))%nat)
               (activeJobs (exec cfg evs s))).
  { induction evs as [|ev evs IH]; intros s Hs; [exact Hs|].
    apply IH, step_accounts, Hs. }
  apply H. split; [reflexivity|]. split; [cbn; lia|]. split; [|apply map_Forall_empty].
  change (activeJobs initial) with (∅ : gmap string Promise).
  rewrite map_size_empty. cbn. lia.
Qed.

End LoopAccounting.

(** ** Shutdown *)

Import Shutdown.

Section ShutdownFacts.

Lemma gracefulShutdown_exits (startTime : Z) (observations : list Observation) :
  forall (earliest : Z) (budget : nat),
    timed earliest observations ->
    startTime + shutdownTimeout <= earliest + 5000 * Z.of_nat budget ->
    (budget < length observations)%nat ->
    exists (sleeps : nat) (last : Observation),
      gracefulShutdown startTime observations = Some (sleeps, inFlight last) /\
      (sleeps <= budget)%nat /\
      observations !! sleeps = Some last /\
      keepsWaiting startTime last = false /\
      forall (i : nat) (o : Observation),
        (i < sleeps)%nat -> observations !! i = Some o -> keepsWaiting startTime o = true.
Proof.
  induction observations as [|o rest IH]; intros earliest budget Htimed Hbudget Hlen.
  - cbn in Hlen. lia.
  - cbn [gracefulShutdown]. destruct Htimed as [Hclock Hrest].
    destruct (keepsWaiting startTime o) eqn:Hwait.
    + destruct budget as [|budget].
      { exfalso. unfold keepsWaiting in Hwait. apply andb_true_iff in Hwait as [_ Hlt].
        apply Z.ltb_lt in Hlt. unfold shutdownTimeout in *. lia. }
      destruct (IH (clock o + 5000) budget Hrest) as (sleeps & last & Hrun & Hle & Hlast & Hend & Hbefore).
      { lia. }
      { cbn [length] in Hlen. lia. }
      exists (S sleeps), last. rewrite Hrun.
      split; [reflexivity|]. split; [lia|]. split; [exact Hlast|]. split; [exact Hend|].
      intros [|i] o' Hi Ho'.
      * by injection Ho' as <-.
      * apply (Hbefore i o'); [lia|exact Ho'].
    + exists 0%nat, o. split; [reflexivity|]. split; [lia|]. split; [reflexivity|].
      split; [exact Hwait|]. intros i o' Hi. lia.
Qed.

(** When every sleep lasts its five seconds, the shutdown exits the
    process after at most sixty of them. It has slept as long as jobs
    were in flight and the five minutes were not over, and it exits at
    the first test that finds otherwise: jobs are left in flight, and the
    warning is logged, only when 300000 ms have gone by. *)
Theorem shutdown_exits_within_sixty_sleeps (startTime : Z)
    (observations : list Observation) :
  timed startTime observations ->
  (60 < length observations)%nat ->
  exists (sleeps : nat) (last : Observation),
    gracefulShutdown startTime observations = Some (sleeps, inFlight last) /\
    (sleeps <= 60)%nat /\
    observations !! sleeps = Some last /\
    (inFlight last <= 0 \/ shutdownTimeout <= clock last - startTime) /\
    forall (i : nat) (o : Observation),
      (i < sleeps)%nat -> observations !! i = Some o ->
      0 < inFlight o /\ clock o - startTime < shutdownTimeout.
Proof.
  intros Htimed Hlen.
  destruct (gracefulShutdown_exits startTime observations startTime 60 Htimed)
    as (sleeps & last & Hrun & Hle & Hlast & Hend & Hbefore).
  { unfold shutdownTimeout. lia. }
  { exact Hlen. }
  exists sleeps, last. split; [exact Hrun|]. split; [exact Hle|]. split; [exact Hlast|].
  split.
  - unfold keepsWaiting in Hend. apply andb_false_iff in Hend as [H|H].
    + left. apply Z.ltb_ge in H. exact H.
    + right. apply Z.ltb_ge in H. exact H.
  - intros i o Hi Ho. specialize (Hbefore i o Hi Ho).
    unfold keepsWaiting in Hbefore. apply andb_true_iff in Hbefore as [H1 H2].
    apply Z.ltb_lt in H1, H2. by split.
Qed.

End ShutdownFacts.

Lemma shutdown_exits_within_sixty_sleeps_witness :
  gracefulShutdown 0
    (map (fun i => {| inFlight := 1; clock := 5000 * Z.of_nat i |}) (seq 0 61))
  = Some (60%nat, 1).
Proof.
  destruct (shutdown_exits_within_sixty_sleeps 0
              (map (fun i => {| inFlight := 1; clock := 5000 * Z.of_nat i |}) (seq 0 61)))
    as (sleeps & last & Hrun & _).
  - vm_compute. repeat split; discriminate.
  - vm_compute. lia.
  - rewrite Hrun. vm_compute in Hrun. exact (eq_sym Hrun).
Defined.

